(** * RedNote downloader backend (Rednote_downloader.py): model and properties

    A shallow embedding of the Flask backend: the task dictionary [_tasks],
    the progress hook [_update_progress], the background worker
    [_download_background] and the three request handlers
    [api_start_download], [api_status] and [api_download_file].

    Python values are modelled as the code meets them:
    - numbers are [int] (unbounded, [Z]) or [float] (IEEE binary64, through
      the Standard Library's [spec_float] with [prec = 53], [emax = 1024]);
    - [str] is [string]; the two needles searched for are ASCII, so a search
      over code units finds exactly what a search over code points finds;
    - the dictionary [_tasks] is a [gmap string task];
    - exceptions are values of [pyexn], threaded through the [result] monad;
    - what the environment decides (the JSON body, the collaborator's
      behaviour, [uuid.uuid4()], [time.time()], [os.path.exists]) is a
      parameter of the function that consumes it.

    The percentage of the progress hook goes through two float operations;
    their rounding is analysed far enough to show that, for int byte counts
    below 2^64, the percentage is always defined, grows with the bytes
    downloaded and is at most one away from the exact percentage.

    Threads are interleaved at the grain of one dictionary update: each
    record has a single writer, its worker. A handler that reads a record
    more than once can see the worker's updates between its reads;
    [api_status_reads] tells the reads of the status handler apart, and
    [api_status] is the same handler with no worker statement in between.
    The cleanup route [api_cleanup] and the output template are modelled in
    the second part. Left out: the ping and index routes, the ngrok start-up,
    logging, and what Flask does before a view function runs or after it
    raises. *)

From Stdlib Require Import ZArith QArith Lia Lqa Bool.
From Stdlib Require Import Floats.SpecFloat.
From stdpp Require Import base option gmap strings list fin_maps.

Local Open Scope Z_scope.
Set Warnings "-register-all".

(** * The program *)

(** ** Exceptions and the error monad *)

(** The exceptions that occur, all of them subclasses of [Exception]; what the
    collaborator raises carries its message. *)
Inductive pyexn :=
  | OverflowError
  | ZeroDivisionError
  | ValueError
  | TypeError
  | AttributeError
  | KeyError
  | CollaboratorError (detail : string).

Inductive result (A : Type) :=
  | Ok (a : A)
  | Raise (e : pyexn).
Arguments Ok {A} a.
Arguments Raise {A} e.

#[global] Instance result_ret : MRet result := fun A a => Ok a.
#[global] Instance result_bind : MBind result := fun A B k r =>
  match r with
  | Ok a => k a
  | Raise e => Raise e
  end.

(** ** Python numbers *)

Inductive pynum :=
  | PyInt (z : Z)
  | PyFloat (f : spec_float).

Definition b64_prec : Z := 53.
Definition b64_emax : Z := 1024.
Definition b64_div : spec_float -> spec_float -> spec_float := SFdiv b64_prec b64_emax.
Definition b64_mul : spec_float -> spec_float -> spec_float := SFmul b64_prec b64_emax.

(** An integer as an exact, unrounded binary float ([m * 2^0]). *)
Definition exact_of_int (z : Z) : spec_float :=
  match z with
  | Z0 => S754_zero false
  | Zpos p => S754_finite false p 0
  | Zneg p => S754_finite true p 0
  end.

Definition is_infinity (f : spec_float) : bool :=
  match f with
  | S754_infinity _ => true
  | _ => false
  end.

(** [float(z)]: the nearest double, ties to even; OverflowError when it does
    not fit. *)
Definition float_of_int (z : Z) : result spec_float :=
  let f := binary_normalize b64_prec b64_emax z 0 false in
  if is_infinity f then Raise OverflowError else Ok f.

Definition float_is_zero (f : spec_float) : bool :=
  match f with
  | S754_zero _ => true
  | _ => false
  end.

(** Truth value of a number: zero is false, everything else (NaN too) true. *)
Definition num_truthy (n : pynum) : bool :=
  match n with
  | PyInt z => negb (z =? 0)
  | PyFloat f => negb (float_is_zero f)
  end.

(** [o or dflt] where [o] is the result of a [dict.get] on a numeric key. *)
Definition num_or (o : option pynum) (dflt : pynum) : pynum :=
  match o with
  | Some n => if num_truthy n then n else dflt
  | None => dflt
  end.

(** [a / b]. Between two ints the quotient of the exact integers is rounded
    once; otherwise the int operand is converted first. *)
Definition py_truediv (a b : pynum) : result spec_float :=
  match a, b with
  | PyInt x, PyInt y =>
      if y =? 0 then Raise ZeroDivisionError
      else
        let q := b64_div (exact_of_int x) (exact_of_int y) in
        if is_infinity q then Raise OverflowError else Ok q
  | _, _ =>
      fa ← match a with PyInt x => float_of_int x | PyFloat f => Ok f end;
      fb ← match b with PyInt y => float_of_int y | PyFloat f => Ok f end;
      if float_is_zero fb then Raise ZeroDivisionError else Ok (b64_div fa fb)
  end.

(** [f * n] for a float [f]. *)
Definition py_mul_float (f : spec_float) (n : pynum) : result spec_float :=
  fn ← match n with PyInt y => float_of_int y | PyFloat g => Ok g end;
  Ok (b64_mul f fn).

(** The signed mantissa of a finite float. *)
Definition signed_mantissa (s : bool) (m : positive) : Z :=
  cond_Zopp s (Zpos m).

(** Exact comparison of a float with an int, as [float.__lt__] and friends
    do it; [None] for NaN. *)
Definition float_cmp_int (f : spec_float) (z : Z) : option comparison :=
  match f with
  | S754_nan => None
  | S754_infinity s => Some (if s then Lt else Gt)
  | S754_zero _ => Some (0 ?= z)
  | S754_finite s m e =>
      if 0 <=? e then Some (signed_mantissa s m * 2 ^ e ?= z)
      else Some (signed_mantissa s m ?= z * 2 ^ (- e))
  end.

(** Comparison by value. Two floats are compared by [SFcompare], which is
    by value on the floats an operation or a conversion returns. *)
Definition num_cmp (a b : pynum) : option comparison :=
  match a, b with
  | PyInt x, PyInt y => Some (x ?= y)
  | PyFloat f, PyInt y => float_cmp_int f y
  | PyInt x, PyFloat g => CompOpp <$> float_cmp_int g x
  | PyFloat f, PyFloat g => SFcompare f g
  end.

Definition py_lt (a b : pynum) : bool :=
  match num_cmp a b with
  | Some Lt => true
  | _ => false
  end.

Definition py_gt (a b : pynum) : bool :=
  match num_cmp a b with
  | Some Gt => true
  | _ => false
  end.

(** [max(a, b)] and [min(a, b)]: the first argument is kept unless the second
    is strictly greater (smaller). *)
Definition py_max (a b : pynum) : pynum := if py_gt b a then b else a.
Definition py_min (a b : pynum) : pynum := if py_lt b a then b else a.

(** [int(n)]: truncation toward zero. *)
Definition py_int (n : pynum) : result Z :=
  match n with
  | PyInt z => Ok z
  | PyFloat (S754_zero _) => Ok 0
  | PyFloat (S754_finite s m e) =>
      Ok (cond_Zopp s (if 0 <=? e then Zpos m * 2 ^ e else Zpos m / 2 ^ (- e)))
  | PyFloat (S754_infinity _) => Raise OverflowError
  | PyFloat S754_nan => Raise ValueError
  end.

(** Mathematical floor of a finite float. *)
Definition float_floor (f : spec_float) : option Z :=
  match f with
  | S754_zero _ => Some 0
  | S754_finite s m e =>
      Some (if 0 <=? e then signed_mantissa s m * 2 ^ e
            else signed_mantissa s m / 2 ^ (- e))
  | _ => None
  end.

Definition clamp (lo hi v : Z) : Z := Z.max lo (Z.min hi v).

(** ** Strings *)

Fixpoint is_prefix (p s : string) : bool :=
  match p, s with
  | EmptyString, _ => true
  | String a p', String b s' => if Ascii.eqb a b then is_prefix p' s' else false
  | String _ _, EmptyString => false
  end.

(** [needle in s] for two strings. *)
Fixpoint str_contains (needle s : string) : bool :=
  is_prefix needle s ||
  match s with
  | EmptyString => false
  | String _ s' => str_contains needle s'
  end.

(** The containment that [str_contains] decides. *)
Definition occurs_in (needle s : string) : Prop :=
  exists pre post : string, s = pre +:+ needle +:+ post.

Definition slash : Ascii.ascii := Ascii.ascii_of_nat 47.

Fixpoint has_slash (s : string) : bool :=
  match s with
  | EmptyString => false
  | String c s' => Ascii.eqb c slash || has_slash s'
  end.

(** [os.path.basename] (posixpath): what follows the last slash. *)
Fixpoint basename (s : string) : string :=
  match s with
  | EmptyString => EmptyString
  | String c s' =>
      if has_slash s' then basename s'
      else if Ascii.eqb c slash then s' else s
  end.

(** ** JSON values, as [request.get_json()] returns them and [jsonify] takes
    them *)

Inductive json :=
  | JNull
  | JBool (b : bool)
  | JNum (n : pynum)
  | JStr (s : string)
  | JList (l : list json)
  | JDict (items : list (string * json)).

Definition json_truthy (v : json) : bool :=
  match v with
  | JNull => false
  | JBool b => b
  | JNum n => num_truthy n
  | JStr s => negb (String.eqb s "")
  | JList l => match l with [] => false | _ => true end
  | JDict items => match items with [] => false | _ => true end
  end.

Fixpoint assoc_get (k : string) (items : list (string * json)) : option json :=
  match items with
  | [] => None
  | (k', v) :: rest => if String.eqb k k' then Some v else assoc_get k rest
  end.

(** [data.get(k)]: only a dict has the method. *)
Definition json_get (data : json) (k : string) : result json :=
  match data with
  | JDict items => Ok (default JNull (assoc_get k items))
  | _ => Raise AttributeError
  end.

Definition json_is_str (v : json) (s : string) : bool :=
  match v with
  | JStr s' => String.eqb s' s
  | _ => false
  end.

(** [needle in v]: substring of a string, element of a list, key of a dict;
    the other JSON types are not iterable. *)
Definition json_contains (needle : string) (v : json) : result bool :=
  match v with
  | JStr s => Ok (str_contains needle s)
  | JList l => Ok (existsb (fun x => json_is_str x needle) l)
  | JDict items => Ok (existsb (fun kv => String.eqb (fst kv) needle) items)
  | _ => Raise TypeError
  end.

(** ** Task records and the task dictionary *)

Inductive task_status := queued | downloading | completed | failed.

Definition status_str (s : task_status) : string :=
  match s with
  | queued => "queued"
  | downloading => "downloading"
  | completed => "completed"
  | failed => "failed"
  end.

Definition is_completed (s : task_status) : bool :=
  match s with
  | completed => true
  | _ => false
  end.

Definition is_failed (s : task_status) : bool :=
  match s with
  | failed => true
  | _ => false
  end.

(** The dict stored under a task id. A key that was never set and a key set
    to [None] read the same through [t.get], so both are [None] here. *)
Record task := mkTask {
  status : task_status;
  progress : Z;
  url : json;
  created : spec_float;
  filename : option string;
  filepath : option string;
  title : option string;
  error : option string
}.

Definition set_status (v : task_status) (t : task) : task :=
  mkTask v (progress t) (url t) (created t) (filename t) (filepath t) (title t) (error t).

Definition set_progress (v : Z) (t : task) : task :=
  mkTask (status t) v (url t) (created t) (filename t) (filepath t) (title t) (error t).

(** ** The progress hook *)

(** The dict yt-dlp hands to a progress hook, read through [d.get]. *)
Record event := mkEvent {
  ev_status : option string;
  downloaded_bytes : option pynum;
  total_bytes : option pynum;
  total_bytes_estimate : option pynum
}.

Definition ev_is_downloading (d : event) : bool :=
  match ev_status d with
  | Some s => String.eqb s "downloading"
  | None => false
  end.

(** [d.get('downloaded_bytes') or 0] *)
Definition ev_downloaded (d : event) : pynum :=
  num_or (downloaded_bytes d) (PyInt 0).

(** [d.get('total_bytes') or d.get('total_bytes_estimate') or 0] *)
Definition ev_total (d : event) : pynum :=
  num_or (total_bytes d) (num_or (total_bytes_estimate d) (PyInt 0)).

(** [(downloaded / total) * 100] *)
Definition pct_float (downloaded total : pynum) : result spec_float :=
  q ← py_truediv downloaded total;
  py_mul_float q (PyInt 100).

(** [int(min(100, max(0, (downloaded / total) * 100)))] *)
Definition pct_of (downloaded total : pynum) : result Z :=
  x ← pct_float downloaded total;
  py_int (py_min (PyInt 100) (py_max (PyInt 0) (PyFloat x))).

Definition _update_progress (tasks : gmap string task) (task_id : string) (d : event)
  : result (gmap string task) :=
  match tasks !! task_id with
  | None => Ok tasks
  | Some t =>
      if ev_is_downloading d then
        let downloaded := ev_downloaded d in
        let total := ev_total d in
        if num_truthy total then
          pct ← pct_of downloaded total;
          Ok (<[task_id := set_progress pct t]> tasks)
        else
          p ← py_int (PyInt (progress t));
          Ok (<[task_id := set_progress p t]> tasks)
      else Ok tasks
  end.

(** ** The background worker *)

(** What the worker reads of the info dict: its title. What the direct
    resolver reads of it follows below, in the same record. Numeric format
    fields are taken by value, as rationals: every int and every finite
    float is one, and Python orders them by value. *)
Record format := mkFormat {
  height : option Q;
  tbr : option Q;
  filesize : option Q;
  f_url : option string
}.

Record info_dict := mkInfo {
  is_live : option bool;
  requested_formats : option (list format);
  formats : option (list format);
  i_url : option string;
  i_title : option string
}.

(** How [ydl.extract_info(url, download=True)] followed by
    [ydl.prepare_filename(info)] ends. [info] is [None] when what came back
    is not a dict. *)
Inductive download_outcome :=
  | Saved (info : option info_dict) (filename : string)
  | Failed (exc : pyexn).

Definition record_download (info : option info_dict) (fname : string) (t : task) : task :=
  mkTask completed 100 (url t) (created t)
         (Some (basename fname)) (Some fname)
         (info ≫= i_title) (error t).

Definition worker_error_message : string :=
  "Download failed on server — try again or use the local yt-dlp command".

Definition record_failure (t : task) : task :=
  mkTask failed (progress t) (url t) (created t)
         (filename t) (filepath t) (title t) (Some worker_error_message).

(** [t['status'] = 'downloading'], the first statement of the [try]. *)
Definition worker_begin (tasks : gmap string task) (task_id : string)
  : result (gmap string task) :=
  match tasks !! task_id with
  | None => Raise KeyError
  | Some t => Ok (<[task_id := set_status downloading t]> tasks)
  end.

(** The [t.update] after the [with] block. *)
Definition worker_complete (tasks : gmap string task) (task_id : string)
    (info : option info_dict) (fname : string) : gmap string task :=
  match tasks !! task_id with
  | None => tasks
  | Some t => <[task_id := record_download info fname t]> tasks
  end.

(** The [except Exception] branch: whatever was raised, the same update. *)
Definition worker_fail (tasks : gmap string task) (task_id : string) (exc : pyexn)
  : gmap string task :=
  match tasks !! task_id with
  | None => tasks
  | Some t => <[task_id := record_failure t]> tasks
  end.

(** The collaborator calls the hook once per event, in order, from inside
    [extract_info]; an exception escaping the hook escapes [extract_info]. *)
Fixpoint run_hooks (tasks : gmap string task) (task_id : string) (evs : list event)
  : gmap string task * option pyexn :=
  match evs with
  | [] => (tasks, None)
  | d :: rest =>
      match _update_progress tasks task_id d with
      | Ok tasks' => run_hooks tasks' task_id rest
      | Raise e => (tasks, Some e)
      end
  end.

(** The worker, given what the collaborator does during the call: the events
    it reports and how it ends. The local [t] is the dict stored under
    [task_id]; no statement of the program removes a key of [_tasks] or
    rebinds one, short of [uuid4] repeating itself, so [t] and
    [_tasks[task_id]] are the same object throughout. *)
Definition _download_background (tasks : gmap string task) (task_id : string)
    (evs : list event) (out : download_outcome) : result (gmap string task) :=
  tasks1 ← worker_begin tasks task_id;
  match run_hooks tasks1 task_id evs with
  | (tasks2, Some e) => Ok (worker_fail tasks2 task_id e)
  | (tasks2, None) =>
      match out with
      | Saved info fname => Ok (worker_complete tasks2 task_id info fname)
      | Failed e => Ok (worker_fail tasks2 task_id e)
      end
  end.

(** ** Request handlers *)

(** What a view function returns: [jsonify(body), code] or [send_file]. *)
Inductive response :=
  | Jsonify (code : Z) (body : json)
  | SendFile (path : string) (download_name : option string).

(** What a handler does besides answering, in program order. Logging is not
    modelled. *)
Inductive effect :=
  | TaskInsert (task_id : string) (t : task)
  | ExtractInfo (target : json) (download : bool)
  | ThreadStart (task_id : string) (target : json).

(** What the resolution thread has done when [th.join(timeout)] returns. *)
Inductive resolve_behaviour :=
  | StillRunning
  | Raised (exc : pyexn)
  | Returned (info : option info_dict).

Inductive resolve_error :=
  | ErrTimeout
  | ErrException (exc : pyexn).

Definition _extract_info_with_timeout (rb : resolve_behaviour)
  : option info_dict * option resolve_error :=
  match rb with
  | StillRunning => (None, Some ErrTimeout)
  | Raised e => (None, Some (ErrException e))
  | Returned info => (info, None)
  end.

(** [x.get(k) or 0] on a numeric field of a format. *)
Definition q_or0 (o : option Q) : Q :=
  match o with
  | Some q => if Qeq_bool q 0 then 0%Q else q
  | None => 0%Q
  end.

Definition format_key (x : format) : Q * Q * Q :=
  (q_or0 (height x), q_or0 (tbr x), q_or0 (filesize x)).

Definition Qgtb (a b : Q) : bool :=
  match (a ?= b)%Q with
  | Gt => true
  | _ => false
  end.

(** [k1 > k2] on 3-tuples: the first position where the two differ decides. *)
Definition key_gt (k1 k2 : Q * Q * Q) : bool :=
  let '(a1, b1, c1) := k1 in
  let '(a2, b2, c2) := k2 in
  if negb (Qeq_bool a1 a2) then Qgtb a1 a2
  else if negb (Qeq_bool b1 b2) then Qgtb b1 b2
  else Qgtb c1 c2.

(** [max(first :: rest, key=format_key)]: an item replaces the running
    maximum only when its key is strictly greater. *)
Definition max_by_key (first : format) (rest : list format) : format :=
  fold_left (fun best x => if key_gt (format_key x) (format_key best) then x else best)
            rest first.

Definition list_or {A} (o : option (list A)) (dflt : list A) : list A :=
  match o with
  | Some (x :: l) => x :: l
  | _ => dflt
  end.

Definition _choose_direct_url (info : option info_dict) : option string :=
  match info with
  | None => None
  | Some info =>
      if default false (is_live info) then None
      else
        match list_or (requested_formats info) (list_or (formats info) []) with
        | first :: rest => f_url (max_by_key first rest)
        | [] => i_url info
        end
  end.

Definition str_truthy (o : option string) : bool :=
  match o with
  | Some s => negb (String.eqb s "")
  | None => false
  end.

Definition json_of_str (o : option string) : json :=
  match o with
  | Some s => JStr s
  | None => JNull
  end.

Definition error_body (msg : string) : json := JDict [("error", JStr msg)].

Definition new_task (target : json) (now : spec_float) : task :=
  mkTask queued 0 target now None None None None.

(** The [mode == 'direct'] branch. *)
Definition direct_download (tasks : gmap string task) (target : json)
    (rb : resolve_behaviour) : response * gmap string task * list effect :=
  let '(info, err) := _extract_info_with_timeout rb in
  let resp :=
    match err with
    | Some ErrTimeout => Jsonify 504 (error_body "preparation timed out")
    | Some (ErrException _) =>
        Jsonify 502 (error_body
          "could not prepare browser download — try again or use the local command")
    | None =>
        let direct := _choose_direct_url info in
        if str_truthy direct then Jsonify 200 (JDict [("direct_url", json_of_str direct)])
        else Jsonify 422 (error_body "no direct downloadable stream found")
    end in
  (resp, tasks, [ExtractInfo target false]).

(** The rest of the handler: the task is stored, then the thread started. *)
Definition start_job (tasks : gmap string task) (target : json)
    (uuid : string) (now : spec_float) : response * gmap string task * list effect :=
  let task_id := uuid in
  let t := new_task target now in
  (Jsonify 200 (JDict [("task_id", JStr task_id)]),
   <[task_id := t]> tasks,
   [TaskInsert task_id t; ThreadStart task_id target]).

(** What follows the two validation checks. *)
Definition dispatch (tasks : gmap string task) (target mode : json)
    (rb : resolve_behaviour) (uuid : string) (now : spec_float)
  : response * gmap string task * list effect :=
  if json_is_str mode "direct" then direct_download tasks target rb
  else start_job tasks target uuid now.

Definition api_start_download (tasks : gmap string task) (body : json)
    (rb : resolve_behaviour) (uuid : string) (now : spec_float)
  : result (response * gmap string task * list effect) :=
  let data := if json_truthy body then body else JDict [] in
  target ← json_get data "url";
  mode ← json_get data "mode";
  if negb (json_truthy target) then
    Ok (Jsonify 400 (error_body "url is required"), tasks, [])
  else
    in1 ← json_contains "xiaohongshu.com" target;
    in2 ← (if in1 then Ok false else json_contains "xhslink.com" target);
    if negb in1 && negb in2 then
      Ok (Jsonify 400 (error_body "invalid rednote url"), tasks, [])
    else Ok (dispatch tasks target mode rb uuid now).

Definition status_error_message : string :=
  "Download failed on server — check server logs or try the local command".

(** The status handler run without a worker statement between its reads:
    every value is read from the same state of the record. That is every
    request for a record that is completed or failed; [api_status_reads]
    covers the requests that overlap a running worker. *)
Definition api_status (tasks : gmap string task) (task_id : string) : response :=
  match tasks !! task_id with
  | None => Jsonify 404 (error_body "not found")
  | Some t =>
      let resp := [("status", JStr (status_str (status t)));
                   ("progress", JNum (PyInt (progress t)));
                   ("filename", json_of_str (filename t));
                   ("title", json_of_str (title t))] in
      let resp := if is_failed (status t)
                  then resp ++ [("error", JStr status_error_message)]
                  else resp in
      Jsonify 200 (JDict resp)
  end.

Definition api_download_file (tasks : gmap string task) (exists_on_disk : string -> bool)
    (task_id : string) : response :=
  match tasks !! task_id with
  | None => Jsonify 404 (error_body "not found")
  | Some t =>
      if negb (is_completed (status t)) then Jsonify 400 (error_body "not completed")
      else
        match filepath t with
        | Some path =>
            if negb (String.eqb path "") && exists_on_disk path
            then SendFile path (filename t)
            else Jsonify 404 (error_body "file missing")
        | None => Jsonify 404 (error_body "file missing")
        end
  end.

(** ** The running server: handlers and workers interleaved *)

(** Where the worker thread of a task is: started but not yet at its first
    statement, inside the collaborator call, or past its last update. *)
Inductive wpc := AtStart | InCall | Finished.

Record sys := mkSys {
  store : gmap string task;
  threads : gmap string wpc
}.

Definition init : sys := mkSys ∅ ∅.

(** One atomic step of the server. GET handlers read [store] and change
    nothing, so they are not steps. *)
Inductive label :=
  | LPost (body : json) (rb : resolve_behaviour) (uuid : string) (now : spec_float)
  | LBegin (task_id : string)
  | LHook (task_id : string) (d : event)
  | LSaved (task_id : string) (info : option info_dict) (fname : string)
  | LFailed (task_id : string) (exc : pyexn).

Definition started (effs : list effect) : list string :=
  omap (fun e => match e with ThreadStart tid _ => Some tid | _ => None end) effs.

Definition start_threads (tids : list string) (ths : gmap string wpc) : gmap string wpc :=
  foldr (fun tid acc => <[tid := AtStart]> acc) ths tids.

Definition unused (tasks : gmap string task) (tid : string) : bool :=
  match tasks !! tid with
  | None => true
  | Some _ => false
  end.

(** [sys_step s l] is [None] when [l] cannot happen in [s]: a worker step of
    a thread that is elsewhere, or a POST for which [uuid4] would return an
    id already in use. An exception escaping a handler leaves the state as it
    was (Flask answers 500). *)
Definition sys_step (s : sys) (l : label) : option sys :=
  match l with
  | LPost body rb uuid now =>
      match api_start_download (store s) body rb uuid now with
      | Raise _ => Some s
      | Ok (_, tasks', effs) =>
          if forallb (unused (store s)) (started effs)
          then Some (mkSys tasks' (start_threads (started effs) (threads s)))
          else None
      end
  | LBegin tid =>
      match threads s !! tid with
      | Some AtStart =>
          match worker_begin (store s) tid with
          | Ok tasks' => Some (mkSys tasks' (<[tid := InCall]> (threads s)))
          | Raise _ => Some (mkSys (store s) (<[tid := Finished]> (threads s)))
          end
      | _ => None
      end
  | LHook tid d =>
      match threads s !! tid with
      | Some InCall =>
          match _update_progress (store s) tid d with
          | Ok tasks' => Some (mkSys tasks' (threads s))
          | Raise e =>
              Some (mkSys (worker_fail (store s) tid e) (<[tid := Finished]> (threads s)))
          end
      | _ => None
      end
  | LSaved tid info fname =>
      match threads s !! tid with
      | Some InCall =>
          Some (mkSys (worker_complete (store s) tid info fname)
                      (<[tid := Finished]> (threads s)))
      | _ => None
      end
  | LFailed tid exc =>
      match threads s !! tid with
      | Some InCall =>
          Some (mkSys (worker_fail (store s) tid exc) (<[tid := Finished]> (threads s)))
      | _ => None
      end
  end.

Fixpoint run (s : sys) (ls : list label) : option sys :=
  match ls with
  | [] => Some s
  | l :: rest =>
      match sys_step s l with
      | Some s' => run s' rest
      | None => None
      end
  end.

Definition reachable (s : sys) : Prop := exists ls, run init ls = Some s.

(** The progress recorded for a task, if the task exists. *)
Definition progress_of (tasks : gmap string task) (task_id : string) : option Z :=
  progress <$> tasks !! task_id.

(** * Notions the properties are stated with *)

(** The percentage as the specification writes it: floor first, then clamp.
    The quotient and the product are the program's own (binary64). *)
Definition spec_pct (x : spec_float) : option Z :=
  clamp 0 100 <$> float_floor x.



Definition lex_le (k1 k2 : Q * Q * Q) : Prop :=
  let '(a1, b1, c1) := k1 in
  let '(a2, b2, c2) := k2 in
  (a1 < a2 \/ (a1 == a2 /\ (b1 < b2 \/ (b1 == b2 /\ c1 <= c2))))%Q.

Definition lex_lt (k1 k2 : Q * Q * Q) : Prop :=
  let '(a1, b1, c1) := k1 in
  let '(a2, b2, c2) := k2 in
  (a1 < a2 \/ (a1 == a2 /\ (b1 < b2 \/ (b1 == b2 /\ c1 < c2))))%Q.

(** The error categories of the HTTP surface, by status code. A live stream
    and a descriptor without a usable URL share category and code. *)
Inductive failure :=
  | ValidationError
  | NotFound
  | NoStreamFound
  | ExtractionFailed
  | Timeout.

Definition failure_of (r : response) : option failure :=
  match r with
  | Jsonify 400 _ => Some ValidationError
  | Jsonify 404 _ => Some NotFound
  | Jsonify 422 _ => Some NoStreamFound
  | Jsonify 502 _ => Some ExtractionFailed
  | Jsonify 504 _ => Some Timeout
  | _ => None
  end.

(** The task id a POST answers with, if it answers with one. *)
Definition returned_task_id (r : response) : option string :=
  match r with
  | Jsonify 200 (JDict [(k, JStr id)]) => if String.eqb k "task_id" then Some id else None
  | _ => None
  end.

(** What ties a task record to the position of its worker. *)
Definition consistent (s : sys) : Prop :=
  forall tid t, store s !! tid = Some t ->
    match threads s !! tid with
    | Some AtStart => status t = queued /\ progress t = 0
    | Some InCall => status t = downloading
    | Some Finished =>
        (status t = completed /\ progress t = 100 /\
         is_Some (filename t) /\ is_Some (filepath t))
        \/ (status t = failed /\ error t = Some worker_error_message)
    | None => False
    end.

(** The state a run from [init] ends in ([init] itself if the run is not
    possible). *)
Definition state_after (ls : list label) : sys := default init (run init ls).

(** Monotone progress as a property of every run: once an event with a
    nonzero total has been applied to a task, no later event lowers the
    recorded progress. *)
Definition progress_never_decreases : Prop :=
  forall (s s1 s2 : sys) (tid : string) (d1 d2 : event) (p1 p2 : Z),
    reachable s ->
    sys_step s (LHook tid d1) = Some s1 ->
    num_truthy (ev_total d1) = true ->
    sys_step s1 (LHook tid d2) = Some s2 ->
    progress_of (store s1) tid = Some p1 ->
    progress_of (store s2) tid = Some p2 ->
    p1 <= p2.

(** The event of a download whose total is an estimate: [dl] bytes of an
    estimated [est]. *)
Definition estimate_event (dl : Z) (est : Z) : event :=
  mkEvent (Some "downloading") (Some (PyInt dl)) None (Some (PyInt est)).

Definition sample_post : label :=
  LPost (JDict [("url", JStr "https://www.xiaohongshu.com/explore/1")])
        StillRunning "id-1" (S754_zero false).

(** The rejection of a url outside the allow-list, with the message the
    specification quotes. *)
Definition rejects_with_source_message : Prop :=
  forall (tasks : gmap string task) (items : list (string * json)) (u : string)
         (rb : resolve_behaviour) (uuid : string) (now : spec_float),
    assoc_get "url" items = Some (JStr u) ->
    u <> "" ->
    ~ occurs_in "xiaohongshu.com" u -> ~ occurs_in "xhslink.com" u ->
    exists tasks' effs,
      api_start_download tasks (JDict items) rb uuid now
        = Ok (Jsonify 400 (error_body "invalid source url"), tasks', effs).

(** The two formats of the worked example, with their urls. *)
Definition sample_formats (u480 u720 : option string) : list format :=
  [mkFormat (Some 480%Q) (Some 500%Q) (Some 1000%Q) u480;
   mkFormat (Some 720%Q) (Some 300%Q) (Some 2000%Q) u720].

(** The float 1234.5, as a fragmented download may estimate a total. *)
Definition f1234_5 : spec_float :=
  Eval vm_compute in binary_normalize b64_prec b64_emax 2469 (-1) false.

(** ** Rounding *)

(** A location [l] places the fraction [a / b] within [[m, m + 1)]. *)
Definition loc_of (m a b : Z) : location :=
  if a - m * b =? 0 then loc_Exact else loc_Inexact (2 * (a - m * b) ?= b).

Definition inbetween (m : Z) (l : location) (a b : Z) : Prop :=
  0 < b /\ m * b <= a < (m + 1) * b /\ l = loc_of m a b.

(** The integer nearest to [a / b], ties to even. *)
Definition rne (a b : Z) : Z := round_nearest_even (a / b) (loc_of (a / b) a b).

(** [a * 2 ^ e1 <= b * 2 ^ e2], told with integers. *)
Definition scaled_le (a e1 b e2 : Z) : Prop :=
  a * 2 ^ (e1 - Z.min e1 e2) <= b * 2 ^ (e2 - Z.min e1 e2).

(** The mantissa of 100.0, whose exponent is -46. *)
Definition c100 : positive := 7036874417766400.

(** * More of the program *)

(** ** The output template *)

Definition download_folder : string := "downloads_v2".

Fixpoint split_slash (s : string) : list string :=
  match s with
  | EmptyString => [EmptyString]
  | String c s' =>
      if Ascii.eqb c slash then EmptyString :: split_slash s'
      else
        match split_slash s' with
        | x :: xs => String c x :: xs
        | [] => [String c EmptyString]
        end
  end.

Fixpoint join_slash (parts : list string) : string :=
  match parts with
  | [] => EmptyString
  | [x] => x
  | x :: rest => x +:+ String slash (join_slash rest)
  end.

Definition starts_with_slash (s : string) : bool :=
  match s with
  | String c _ => Ascii.eqb c slash
  | EmptyString => false
  end.

Fixpoint ends_with_slash (s : string) : bool :=
  match s with
  | EmptyString => false
  | String c EmptyString => Ascii.eqb c slash
  | String _ s' => ends_with_slash s'
  end.

(** [posixpath.join(a, b)] *)
Definition posix_join (a b : string) : string :=
  if starts_with_slash b then b
  else if String.eqb a "" || ends_with_slash a then a +:+ b
  else a +:+ String slash b.

(** The root of a POSIX path: nothing, one slash, or two when the path
    starts with exactly two. *)
Definition posix_root (s : string) : string :=
  match s with
  | String a (String b (String c _)) =>
      if Ascii.eqb a slash then
        if Ascii.eqb b slash && negb (Ascii.eqb c slash) then "//" else "/"
      else ""
  | String a (String b EmptyString) =>
      if Ascii.eqb a slash then (if Ascii.eqb b slash then "//" else "/") else ""
  | String a EmptyString => if Ascii.eqb a slash then "/" else ""
  | EmptyString => ""
  end.

(** The parts of a path: what lies between slashes, empty and "." dropped. *)
Definition posix_parts (s : string) : list string :=
  filter (fun x => negb (String.eqb x "") && negb (String.eqb x ".") = true)
         (split_slash s).

(** [str(PurePosixPath(s))] *)
Definition path_str (s : string) : string :=
  match posix_root s, posix_parts s with
  | EmptyString, [] => "."
  | root, parts => root +:+ join_slash parts
  end.

(** [str(Path(a) / b)] *)
Definition path_div (a b : string) : string := path_str (posix_join a b).

Definition template_suffix : string := "_%(title)s.%(ext)s".

(** [str((DOWNLOAD_FOLDER / f"{task_id}_%(title)s.%(ext)s"))] *)
Definition out_template (task_id : string) : string :=
  path_div download_folder (task_id +:+ template_suffix).

(** ** The cleanup route *)

Definition b64_sub : spec_float -> spec_float -> spec_float := SFsub b64_prec b64_emax.

(** An entry of the download folder as [glob('*')] yields it, with what the
    calls made on it answer: [is_file()], [stat().st_mtime] ([None] when
    [stat] raises) and whether [unlink()] goes through or raises. *)
Record dir_entry := mkEntry {
  e_name : string;
  e_is_file : bool;
  e_mtime : option spec_float;
  e_unlink_ok : bool
}.

(** [(now - mtime) > 2 * 3600] *)
Definition too_old (now mtime : spec_float) : bool :=
  py_gt (PyFloat (b64_sub now mtime)) (PyInt (2 * 3600)).

(** The body of the [try]: [Some true] when the file was unlinked and
    counted, [Some false] when it was left alone, [None] when an exception
    was raised (and swallowed by [except Exception: pass]). *)
Definition try_remove (now : spec_float) (f : dir_entry) : option bool :=
  if e_is_file f then
    mtime ← e_mtime f;
    if too_old now mtime then
      if e_unlink_ok f then Some true else None
    else Some false
  else Some false.

(** The loop: what is left of the folder, and the counter. *)
Fixpoint cleanup_loop (now : spec_float) (entries : list dir_entry) (removed : Z)
  : list dir_entry * Z :=
  match entries with
  | [] => ([], removed)
  | f :: rest =>
      match try_remove now f with
      | Some true => cleanup_loop now rest (removed + 1)
      | _ =>
          let '(kept, n) := cleanup_loop now rest removed in
          (f :: kept, n)
      end
  end.

Definition api_cleanup (entries : list dir_entry) (now : spec_float)
  : response * list dir_entry :=
  let '(kept, removed) := cleanup_loop now entries 0 in
  (Jsonify 200 (JDict [("removed", JNum (PyInt removed))]), kept).

(** The path of a file of the folder, and [os.path.exists] on the folder. *)
Definition in_folder (name : string) : string :=
  download_folder +:+ String slash name.

Definition exists_in (entries : list dir_entry) (path : string) : bool :=
  existsb (fun f => String.eqb (in_folder (e_name f)) path) entries.

(** ** Notions the further properties are stated with *)

(** An entry the cleanup takes away. *)
Definition doomed (now : spec_float) (f : dir_entry) : bool :=
  match try_remove now f with
  | Some true => true
  | _ => false
  end.

(** How far a task has come. *)
Definition status_rank (st : task_status) : Z :=
  match st with
  | queued => 0
  | downloading => 1
  | completed => 2
  | failed => 2
  end.

Definition is_terminal (st : task_status) : bool :=
  match st with
  | completed | failed => true
  | _ => false
  end.

(** What every stored record looks like. *)
Definition well_formed (t : task) : Prop :=
  0 <= progress t <= 100
  /\ match status t with
     | completed =>
         progress t = 100 /\ error t = None
         /\ exists path, filepath t = Some path /\ filename t = Some (basename path)
     | failed =>
         error t = Some worker_error_message
         /\ filename t = None /\ filepath t = None /\ title t = None
     | _ =>
         error t = None /\ filename t = None /\ filepath t = None /\ title t = None
     end.

Definition all_well_formed (s : sys) : Prop :=
  forall tid t, store s !! tid = Some t -> well_formed t.

(** The label is a step of the worker of [tid]. *)
Definition worker_label_of (l : label) : option string :=
  match l with
  | LPost _ _ _ _ => None
  | LBegin tid | LHook tid _ | LSaved tid _ _ | LFailed tid _ => Some tid
  end.

(** A run in which one job is submitted, reports progress and is saved. *)
Definition sample_run : list label :=
  [sample_post; LBegin "id-1"; LHook "id-1" (estimate_event 50 100);
   LSaved "id-1" None "downloads_v2/id-1_clip.mp4"].

(** 7200 as a double: the mantissa at exponent -40. *)
Definition m7200 : positive := 7916483719987200.

(** The doubles 100000.0, 92800.0 and 92799.0, as [time.time()] and
    [st_mtime] may return them. *)
Definition t100000 : spec_float :=
  Eval vm_compute in binary_normalize b64_prec b64_emax 100000 0 false.
Definition t92800 : spec_float :=
  Eval vm_compute in binary_normalize b64_prec b64_emax 92800 0 false.
Definition t92799 : spec_float :=
  Eval vm_compute in binary_normalize b64_prec b64_emax 92799 0 false.

(** A download folder: an old file, a young file and a directory. *)
Definition sample_folder : list dir_entry :=
  [mkEntry "id-1_clip.mp4" true (Some t92799) true;
   mkEntry "id-2_new.mp4" true (Some t92800) true;
   mkEntry "sub" false (Some t92799) true].

(** ** Notions of the amended claims *)

(** The percentage as the specification computes it, in exact arithmetic:
    clamp(0, 100, floor(downloaded / total * 100)). *)
Definition claimed_pct (dl T : Z) : Z := clamp 0 100 (dl * 100 / T).

(** A record that differs from [t] in its progress at most. *)
Definition same_but_progress (t t' : task) : Prop :=
  status t' = status t /\ url t' = url t /\ created t' = created t
  /\ filename t' = filename t /\ filepath t' = filepath t
  /\ title t' = title t /\ error t' = error t.

(** The formula of the specification as a property of the hook, for int
    byte counts: the progress stored is the exact percentage. *)
Definition progress_set_to_claimed : Prop :=
  forall (tasks tasks' : gmap string task) (tid : string) (t t' : task)
         (d : event) (dl T : Z),
    tasks !! tid = Some t -> ev_is_downloading d = true ->
    ev_downloaded d = PyInt dl -> ev_total d = PyInt T -> 0 <= dl -> 0 < T ->
    _update_progress tasks tid d = Ok tasks' -> tasks' !! tid = Some t' ->
    progress t' = claimed_pct dl T.

(** ** The status handler, read by read *)

(** The answer of the status handler from what its five [t.get] return.
    The four values of the answer are read in this order, then the status
    once more for the test; [t0] .. [t4] are the record as it is at each
    read. *)
Definition status_answer (t0 t1 t2 t3 t4 : task) : response :=
  let resp := [("status", JStr (status_str (status t0)));
               ("progress", JNum (PyInt (progress t1)));
               ("filename", json_of_str (filename t2));
               ("title", json_of_str (title t3))] in
  let resp := if is_failed (status t4)
              then resp ++ [("error", JStr status_error_message)]
              else resp in
  Jsonify 200 (JDict resp).

(** [api_status] while workers run. [t = _tasks.get(task_id)] takes the
    record object out of the dictionary as it is at [r]; the five reads that
    follow find that object as the worker has left it by then, in the
    dictionaries [r0] .. [r4]. No statement removes a key, so the record is
    in all of them once it is in [r]; [api_status] is the case in which no
    worker statement runs in between. *)
Definition api_status_reads (r r0 r1 r2 r3 r4 : gmap string task) (task_id : string)
  : response :=
  match r !! task_id with
  | None => Jsonify 404 (error_body "not found")
  | Some t =>
      status_answer (default t (r0 !! task_id)) (default t (r1 !! task_id))
                    (default t (r2 !! task_id)) (default t (r3 !! task_id))
                    (default t (r4 !! task_id))
  end.

(** The value under "status" in an answer. *)
Definition reported_status (r : response) : option string :=
  match r with
  | Jsonify _ (JDict items) =>
      match assoc_get "status" items with
      | Some (JStr st) => Some st
      | _ => None
      end
  | _ => None
  end.

(** C9's last part as a property of every run: after a submission on the
    asynchronous path, with nothing but steps of the new worker until the
    status request has read the status, that request shows "queued" or
    "downloading". [s2] is the state at the lookup of the request, [r0] the
    state at its read of the status; what the later reads find does not
    matter. *)
Definition immediate_get_sees_active : Prop :=
  forall (s s1 s2 r0 : sys) (items : list (string * json)) (u : string)
         (rb : resolve_behaviour) (uuid : string) (now : spec_float)
         (ls l0 : list label) (m1 m2 m3 m4 : gmap string task),
    reachable s ->
    assoc_get "url" items = Some (JStr u) ->
    str_contains "xiaohongshu.com" u || str_contains "xhslink.com" u = true ->
    json_is_str (default JNull (assoc_get "mode" items)) "direct" = false ->
    sys_step s (LPost (JDict items) rb uuid now) = Some s1 ->
    Forall (fun l => worker_label_of l = Some uuid) (ls ++ l0) ->
    run s1 ls = Some s2 -> run s2 l0 = Some r0 ->
    reported_status (api_status_reads (store s2) (store r0) m1 m2 m3 m4 uuid)
      = Some "queued"
    \/ reported_status (api_status_reads (store s2) (store r0) m1 m2 m3 m4 uuid)
       = Some "downloading".

(** Where the worker of a task stands, and the status that goes with it. *)
Definition status_at (pc : wpc) (st : task_status) : Prop :=
  match pc with
  | AtStart => st = queued
  | InCall => st = downloading
  | Finished => st = completed \/ st = failed
  end.

(** * Properties *)

(** ** Numbers *)

Lemma pow2_pos (e : Z) : 0 <= e -> 0 < 2 ^ e.
Proof. intros He. apply Z.pow_pos_nonneg; lia. Qed.

Lemma float_cmp_int_zero_neg (m : positive) (e : Z) :
  float_cmp_int (S754_finite true m e) 0 = Some Lt.
Proof.
  unfold float_cmp_int, signed_mantissa; simpl.
  destruct (0 <=? e) eqn:He; f_equal.
  apply Z.leb_le in He. apply Z.compare_lt_iff.
  pose proof (pow2_pos e He). nia.
Qed.

Lemma float_cmp_int_zero_pos (m : positive) (e : Z) :
  float_cmp_int (S754_finite false m e) 0 = Some Gt.
Proof.
  unfold float_cmp_int, signed_mantissa; simpl.
  destruct (0 <=? e) eqn:He; f_equal.
  apply Z.leb_le in He. apply Z.compare_gt_iff.
  pose proof (pow2_pos e He). nia.
Qed.

Lemma floor_neg_finite (m : positive) (e : Z) (n : Z) :
  float_floor (S754_finite true m e) = Some n -> n < 0.
Proof.
  unfold float_floor, signed_mantissa; simpl. intros [= <-].
  destruct (0 <=? e) eqn:He.
  - apply Z.leb_le in He. pose proof (pow2_pos e He). nia.
  - apply Z.leb_gt in He.
    assert (0 < 2 ^ (- e)) by (apply pow2_pos; lia).
    apply Z.div_lt_upper_bound; lia.
Qed.

(** Clamping first and truncating afterwards, as the program does, gives the
    floor clamped into 0..100. *)
Lemma int_min_max_floor (x : spec_float) (n : Z) :
  float_floor x = Some n ->
  py_int (py_min (PyInt 100) (py_max (PyInt 0) (PyFloat x))) = Ok (clamp 0 100 n).
Proof.
  destruct x as [s | s | | s m e]; try discriminate.
  - intros [= <-]. reflexivity.
  - destruct s.
    + intros Hn. pose proof (floor_neg_finite _ _ _ Hn) as Hneg.
      unfold py_max, py_gt, num_cmp. rewrite float_cmp_int_zero_neg.
      cbn. f_equal. unfold clamp. lia.
    + unfold py_max, py_gt, num_cmp. rewrite float_cmp_int_zero_pos.
      unfold py_min, py_lt, num_cmp, float_cmp_int, float_floor, signed_mantissa.
      cbn [cond_Zopp]. intros [= <-].
      destruct (0 <=? e) eqn:He.
      * pose proof (pow2_pos e (proj1 (Z.leb_le _ _) He)).
        destruct (Z.compare_spec (Z.pos m * 2 ^ e) 100) as [Hc | Hc | Hc];
          cbn [py_int cond_Zopp]; try rewrite He; f_equal; unfold clamp; lia.
      * assert (Hp : 0 < 2 ^ (- e)) by (apply pow2_pos; lia).
        pose proof (Z.div_pos (Z.pos m) _ ltac:(lia) Hp) as Hq.
        destruct (Z.compare_spec (Z.pos m) (100 * 2 ^ (- e))) as [Hc | Hc | Hc];
          cbn [py_int cond_Zopp]; try rewrite He; f_equal; unfold clamp.
        -- assert (100 <= Z.pos m / 2 ^ (- e)) by (apply Z.div_le_lower_bound; lia). lia.
        -- assert (Z.pos m / 2 ^ (- e) < 100) by (apply Z.div_lt_upper_bound; lia). lia.
        -- assert (100 <= Z.pos m / 2 ^ (- e)) by (apply Z.div_le_lower_bound; lia). lia.
Qed.

(** The percentage on some inputs, as CPython computes it: the rounding of
    the quotient shows at 29/100 and 57/100, the clamp at both ends. *)
Example pct_50_of_100 : pct_of (PyInt 50) (PyInt 100) = Ok 50.
Proof. vm_compute. reflexivity. Qed.

Example pct_29_of_100 : pct_of (PyInt 29) (PyInt 100) = Ok 28.
Proof. vm_compute. reflexivity. Qed.

Example pct_57_of_100 : pct_of (PyInt 57) (PyInt 100) = Ok 56.
Proof. vm_compute. reflexivity. Qed.

Example pct_1_of_3 : pct_of (PyInt 1) (PyInt 3) = Ok 33.
Proof. vm_compute. reflexivity. Qed.

Example pct_over_total : pct_of (PyInt 150) (PyInt 100) = Ok 100.
Proof. vm_compute. reflexivity. Qed.

Example pct_negative : pct_of (PyInt (-5)) (PyInt 100) = Ok 0.
Proof. vm_compute. reflexivity. Qed.

Example pct_float_estimate : pct_of (PyInt 617) (PyFloat f1234_5) = Ok 49.
Proof. vm_compute. reflexivity. Qed.

Example pct_large_counts :
  pct_of (PyInt (2 ^ 62)) (PyInt (2 ^ 63 - 1)) = Ok 50.
Proof. vm_compute. reflexivity. Qed.

Example pct_quotient_overflow : pct_of (PyInt (2 ^ 1030)) (PyInt 1) = Raise OverflowError.
Proof. vm_compute. reflexivity. Qed.

(** Whatever the float, the clamped percentage is an int within 0..100 and
    [int] raises nothing. *)
Lemma int_min_max_bounds (x : spec_float) :
  exists p, py_int (py_min (PyInt 100) (py_max (PyInt 0) (PyFloat x))) = Ok p
            /\ 0 <= p <= 100.
Proof.
  destruct (float_floor x) as [n |] eqn:Hfl.
  - exists (clamp 0 100 n). split; [by apply int_min_max_floor |].
    unfold clamp; lia.
  - destruct x as [s | [|] | | s m e]; try discriminate.
    + exists 0. split; [reflexivity | lia].
    + exists 100. split; [reflexivity | lia].
    + exists 0. split; [reflexivity | lia].
Qed.

(** The total the hook divides by is [total_bytes] when that is a nonzero
    number, else [total_bytes_estimate] when that is one, else the int 0. *)
Lemma ev_total_cases (d : event) :
  (exists n, total_bytes d = Some n /\ num_truthy n = true /\ ev_total d = n)
  \/ ((forall n, total_bytes d = Some n -> num_truthy n = false)
      /\ exists n, total_bytes_estimate d = Some n /\ num_truthy n = true /\ ev_total d = n)
  \/ ((forall n, total_bytes d = Some n -> num_truthy n = false)
      /\ (forall n, total_bytes_estimate d = Some n -> num_truthy n = false)
      /\ ev_total d = PyInt 0).
Proof.
  unfold ev_total, num_or.
  destruct (total_bytes d) as [n |] eqn:H1.
  - destruct (num_truthy n) eqn:Hn; [left; eauto |].
    right. destruct (total_bytes_estimate d) as [k |] eqn:H2.
    + destruct (num_truthy k) eqn:Hk.
      * left. split; [by intros ? [= <-] | eauto].
      * right. repeat split; by intros ? [= <-].
    + right. repeat split; [by intros ? [= <-] | discriminate].
  - right. destruct (total_bytes_estimate d) as [k |] eqn:H2.
    + destruct (num_truthy k) eqn:Hk.
      * left. split; [discriminate | eauto].
      * right. repeat split; [discriminate | by intros ? [= <-]].
    + right. repeat split; discriminate.
Qed.

(** ** Binary64 rounding

    [SFdiv] and [SFmul] end in [binary_round_aux], which shifts the exact
    result down to 53 bits while keeping track of what is shifted out, and
    rounds. Below, a mantissa [m] with a location [l] stands for a fraction
    [a / b] with [m <= a / b < m + 1]. *)

Lemma digits2_pos_bounds (p : positive) :
  2 ^ (Z.pos (digits2_pos p) - 1) <= Z.pos p < 2 ^ Z.pos (digits2_pos p).
Proof.
  induction p as [p IH | p IH |]; cbn [digits2_pos].
  - rewrite Pos2Z.inj_succ.
    replace (Z.succ (Z.pos (digits2_pos p)) - 1) with (Z.succ (Z.pos (digits2_pos p) - 1)) by lia.
    rewrite !Z.pow_succ_r by lia. lia.
  - rewrite Pos2Z.inj_succ.
    replace (Z.succ (Z.pos (digits2_pos p)) - 1) with (Z.succ (Z.pos (digits2_pos p) - 1)) by lia.
    rewrite !Z.pow_succ_r by lia. lia.
  - cbn. lia.
Qed.

Lemma digits2_pos_unique (p : positive) (k : Z) :
  2 ^ (k - 1) <= Z.pos p < 2 ^ k -> Z.pos (digits2_pos p) = k.
Proof.
  intros [Hlo Hhi]. pose proof (digits2_pos_bounds p) as [Glo Ghi].
  assert (Hk : 0 < k).
  { destruct (Z_lt_le_dec 0 k) as [|Hle]; [done |].
    assert (2 ^ k <= 2 ^ 0) by (destruct (Z_lt_le_dec k 0);
      [rewrite Z.pow_neg_r by lia; cbn; lia | apply Z.pow_le_mono_r; lia]).
    cbn in *. lia. }
  destruct (Z.lt_trichotomy (Z.pos (digits2_pos p)) k) as [Hlt | [Heq | Hgt]]; [| done |].
  - assert (2 ^ Z.pos (digits2_pos p) <= 2 ^ (k - 1)) by (apply Z.pow_le_mono_r; lia). lia.
  - assert (2 ^ k <= 2 ^ (Z.pos (digits2_pos p) - 1)) by (apply Z.pow_le_mono_r; lia). lia.
Qed.

Lemma shr_record_loc (m : Z) (l : location) :
  loc_of_shr_record (shr_record_of_loc m l) = l /\ shr_m (shr_record_of_loc m l) = m.
Proof. by destruct l as [| []]. Qed.

Ltac loc_cases :=
  repeat match goal with
  | H : context [?x =? ?y] |- _ => destruct (Z.eqb_spec x y)
  | H : context [?x ?= ?y] |- _ => destruct (Z.compare_spec x y)
  | |- context [?x =? ?y] => destruct (Z.eqb_spec x y)
  | |- context [?x ?= ?y] => destruct (Z.compare_spec x y)
  end; try discriminate; try lia; try reflexivity.

(** One shift to the right halves the mantissa and keeps the place. *)
Lemma shr_1_inbetween (mrs : shr_record) (a b : Z) :
  0 <= shr_m mrs ->
  inbetween (shr_m mrs) (loc_of_shr_record mrs) a b ->
  0 <= shr_m (shr_1 mrs)
  /\ shr_m (shr_1 mrs) = shr_m mrs / 2
  /\ inbetween (shr_m (shr_1 mrs)) (loc_of_shr_record (shr_1 mrs)) a (2 * b).
Proof.
  destruct mrs as [m r s]. cbn [shr_m]. intros Hm (Hb & Hab & Hl).
  unfold inbetween, loc_of in *.
  destruct m as [| [p | p |] |]; try lia; cbn [shr_1 shr_m loc_of_shr_record].
  - split; [lia |]. split; [done |]. split; [lia |]. split; [lia |].
    destruct r, s; cbn in Hl |- *; loc_cases.
  - assert (Hd : Z.pos p~1 / 2 = Z.pos p).
    { rewrite Pos2Z.inj_xI. symmetry. apply (Z.div_unique _ _ _ 1); lia. }
    split; [lia |]. split; [by rewrite Hd |]. split; [lia |]. split; [lia |].
    destruct r, s; cbn in Hl |- *; loc_cases.
  - assert (Hd : Z.pos p~0 / 2 = Z.pos p).
    { rewrite Pos2Z.inj_xO. symmetry. apply (Z.div_unique _ _ _ 0); lia. }
    split; [lia |]. split; [by rewrite Hd |]. split; [lia |]. split; [lia |].
    destruct r, s; cbn in Hl |- *; loc_cases.
  - split; [lia |]. split; [done |]. split; [lia |]. split; [lia |].
    destruct r, s; cbn in Hl |- *; loc_cases.
Qed.

Lemma iter_pos_ind {A : Type} (f : A -> A) (P : Z -> A -> Prop) :
  (forall k x, 0 <= k -> P k x -> P (k + 1) (f x)) ->
  forall (p : positive) (x : A) (k : Z), 0 <= k -> P k x -> P (k + Z.pos p) (SpecFloat.iter_pos f p x).
Proof.
  intros Hstep. induction p as [p IH | p IH |]; intros x k Hk HP; cbn [SpecFloat.iter_pos].
  - replace (k + Z.pos p~1) with (k + 1 + Z.pos p + Z.pos p) by lia.
    apply IH; [lia |]. apply IH; [lia |]. by apply Hstep.
  - replace (k + Z.pos p~0) with (k + Z.pos p + Z.pos p) by lia.
    apply IH; [lia |]. by apply IH.
  - by apply Hstep.
Qed.

(** [n] shifts divide the mantissa by [2 ^ n] and keep the place. *)
Lemma shr_inbetween (mrs : shr_record) (e n a b : Z) :
  0 <= shr_m mrs -> 0 <= n ->
  inbetween (shr_m mrs) (loc_of_shr_record mrs) a b ->
  let '(mrs', e') := shr mrs e n in
  e' = e + n
  /\ 0 <= shr_m mrs'
  /\ shr_m mrs' = shr_m mrs / 2 ^ n
  /\ inbetween (shr_m mrs') (loc_of_shr_record mrs') a (2 ^ n * b).
Proof.
  intros Hm Hn Hin. destruct n as [| p | p]; [| | lia]; cbn [shr].
  - split; [lia |]. split; [done |]. split; [by rewrite Z.div_1_r |].
    by rewrite Z.pow_0_r, Z.mul_1_l.
  - split; [done |].
    pose (P := fun (k : Z) (x : shr_record) =>
                 0 <= shr_m x /\ shr_m x = shr_m mrs / 2 ^ k
                 /\ inbetween (shr_m x) (loc_of_shr_record x) a (2 ^ k * b)).
    change (P (Z.pos p) (SpecFloat.iter_pos shr_1 p mrs)).
    replace (Z.pos p) with (0 + Z.pos p) at 1 by lia.
    apply iter_pos_ind; [| lia |].
    + intros k x Hk (H0 & Hx & Hx'). destruct (shr_1_inbetween x a (2 ^ k * b) H0 Hx')
        as (G0 & Gx & Gx').
      split; [done |]. split.
      * rewrite Gx, Hx, Z.div_div by (try apply Z.pow_pos_nonneg; lia).
        by rewrite Z.pow_add_r, Z.pow_1_r by lia.
      * by rewrite Z.pow_add_r, Z.pow_1_r, (Z.mul_comm _ 2), <- Z.mul_assoc by lia.
    + split; [done |]. split; [by rewrite Z.div_1_r |].
      by rewrite Z.pow_0_r, Z.mul_1_l.
Qed.

Lemma inbetween_div (m : Z) (l : location) (a b : Z) :
  inbetween m l a b -> m = a / b /\ l = loc_of (a / b) a b.
Proof.
  intros (Hb & Hab & Hl).
  assert (m = a / b) as <-; [| done].
  apply (Z.div_unique_pos a b m (a - m * b)); lia.
Qed.

Lemma round_inbetween (m : Z) (l : location) (a b : Z) :
  inbetween m l a b -> round_nearest_even m l = rne a b.
Proof. intros H. apply inbetween_div in H as [-> ->]. done. Qed.

Lemma rne_cases (a b : Z) :
  0 < b ->
  (rne a b = a / b /\ 2 * (a mod b) <= b /\ (2 * (a mod b) = b -> Z.even (a / b) = true))
  \/ (rne a b = a / b + 1 /\ b <= 2 * (a mod b)
      /\ (2 * (a mod b) = b -> Z.even (a / b) = false)).
Proof.
  intros Hb. unfold rne, loc_of, round_nearest_even.
  pose proof (Z.div_mod a b ltac:(lia)) as Hdm.
  pose proof (Z.mod_pos_bound a b Hb) as Hmod.
  replace (a - a / b * b) with (a mod b) by lia.
  destruct (Z.eqb_spec (a mod b) 0); [left; lia |].
  destruct (Z.compare_spec (2 * (a mod b)) b).
  - destruct (Z.even (a / b)) eqn:He; [left | right]; lia.
  - left. lia.
  - right. lia.
Qed.

Lemma rne_bounds (a b lo hi : Z) :
  0 < b -> lo * b <= a <= hi * b -> lo <= rne a b <= hi.
Proof.
  intros Hb [Hlo Hhi].
  pose proof (Z.div_mod a b ltac:(lia)) as Hdm.
  pose proof (Z.mod_pos_bound a b Hb) as Hmod.
  assert (lo <= a / b) by (apply Z.div_le_lower_bound; lia).
  assert (a / b <= hi) by (apply Z.div_le_upper_bound; lia).
  destruct (rne_cases a b Hb) as [(-> & _) | (-> & H1 & _)]; [lia |].
  split; [lia |].
  destruct (Z.eq_dec (a / b) hi) as [Heq | Hne]; [| lia].
  rewrite Heq in Hdm. nia.
Qed.

(** Rounding to the nearest integer is monotone. *)
Lemma rne_mono (a b a' b' : Z) :
  0 < b -> 0 < b' -> a * b' <= a' * b -> rne a b <= rne a' b'.
Proof.
  intros Hb Hb' Hle.
  pose proof (Z.div_mod a b ltac:(lia)) as Hdm.
  pose proof (Z.mod_pos_bound a b Hb) as Hmod.
  pose proof (Z.div_mod a' b' ltac:(lia)) as Hdm'.
  pose proof (Z.mod_pos_bound a' b' Hb') as Hmod'.
  assert (Hq : a / b <= a' / b').
  { apply Z.div_le_lower_bound; [lia |].
    destruct (Z_lt_le_dec a' (b' * (a / b))) as [Hlt | ]; [| lia]. exfalso.
    assert (a' * b < b' * (a / b) * b) by nia. nia. }
  destruct (rne_cases a b Hb) as [(-> & _) | (-> & H1 & H2)];
    destruct (rne_cases a' b' Hb') as [(-> & G1 & G2) | (-> & G1 & G2)]; try lia.
  destruct (Z.eq_dec (a / b) (a' / b')) as [Heq | Hne]; [| lia]. exfalso.
  rewrite <- Heq in *.
  assert (Hr : (a mod b) * b' <= (a' mod b') * b) by nia.
  destruct (Z.eq_dec (2 * (a mod b)) b) as [E1 | N1];
    destruct (Z.eq_dec (2 * (a' mod b')) b') as [E2 | N2].
  - specialize (H2 E1). specialize (G2 E2). congruence.
  - nia.
  - nia.
  - nia.
Qed.

Lemma fexp_normal (z : Z) :
  -1021 <= z -> fexp b64_prec b64_emax z = z - 53.
Proof. intros Hz. unfold fexp, emin, b64_prec, b64_emax. lia. Qed.

(** What [binary_round_aux] returns on a mantissa of at least 53 bits, away
    from the subnormal range and from overflow: the nearest 53-bit mantissa,
    ties to even, at the exponent that leaves 53 bits. *)
Lemma round_aux_normal (sx : bool) (m : positive) (e : Z) (l : location) (a b : Z) :
  let d := Z.pos (digits2_pos m) in
  let n := d - 53 in
  inbetween (Z.pos m) l a b ->
  53 <= d -> -1074 <= e + n -> e + n + 1 <= 971 ->
  exists (k : positive) (E : Z),
    binary_round_aux b64_prec b64_emax sx (Z.pos m) e l = S754_finite sx k E
    /\ 2 ^ 52 <= Z.pos k < 2 ^ 53
    /\ 2 ^ 52 * (2 ^ n * b) <= a < 2 ^ 53 * (2 ^ n * b)
    /\ ((E = e + n /\ Z.pos k = rne a (2 ^ n * b))
        \/ (E = e + n + 1 /\ rne a (2 ^ n * b) = 2 ^ 53 /\ Z.pos k = 2 ^ 52)).
Proof.
  intros d n Hin Hd Hlo Hhi.
  pose proof (digits2_pos_bounds m) as Hm. fold d in Hm.
  unfold binary_round_aux, shr_fexp. cbn [Zdigits2]. fold d.
  rewrite fexp_normal by lia.
  replace (d + e - 53 - e) with n by lia.
  destruct (shr_record_loc (Z.pos m) l) as [Hl0 Hm0].
  pose proof (shr_inbetween (shr_record_of_loc (Z.pos m) l) e n a b) as Hshr.
  rewrite Hl0, Hm0 in Hshr. specialize (Hshr ltac:(lia) ltac:(lia) Hin).
  destruct (shr (shr_record_of_loc (Z.pos m) l) e n) as [mrs' e'].
  destruct Hshr as (-> & Hm'0 & Hm' & Hin').
  pose proof (round_inbetween _ _ _ _ Hin') as Hrnd. rewrite Hrnd.
  assert (Hpow : 0 < 2 ^ n) by (apply Z.pow_pos_nonneg; lia).
  assert (Hdn : 2 ^ d = 2 ^ 53 * 2 ^ n).
  { rewrite <- Z.pow_add_r by lia. f_equal. lia. }
  assert (Hdn1 : 2 ^ (d - 1) = 2 ^ 52 * 2 ^ n).
  { rewrite <- Z.pow_add_r by lia. f_equal. lia. }
  assert (Hm'b : 2 ^ 52 <= shr_m mrs' < 2 ^ 53).
  { rewrite Hm'. split.
    - apply Z.div_le_lower_bound; lia.
    - apply Z.div_lt_upper_bound; lia. }
  destruct Hin' as (HB & Hab & _).
  assert (Hbr : 2 ^ 52 * (2 ^ n * b) <= a < 2 ^ 53 * (2 ^ n * b)) by nia.
  assert (HK : 2 ^ 52 <= rne a (2 ^ n * b) <= 2 ^ 53).
  { apply rne_bounds; [done |]. lia. }
  set (K := rne a (2 ^ n * b)) in *.
  destruct K as [| k | k] eqn:EK; [cbn in HK; lia | | cbn in HK; lia].
  destruct (Z.eq_dec (Z.pos k) (2 ^ 53)) as [Heq | Hne].
  - exists (4503599627370496)%positive, (e + n + 1).
    assert (k = 9007199254740992%positive) as -> by (cbn in Heq; lia).
    cbn [Zdigits2 digits2_pos]. 
    replace (fexp b64_prec b64_emax _ - (e + n)) with 1
      by (unfold fexp, emin, b64_prec, b64_emax; cbn; lia).
    cbn [shr shr_record_of_loc SpecFloat.iter_pos shr_1 shr_m].
    replace (e + n + 1 <=? b64_emax - b64_prec) with true
      by (symmetry; apply Z.leb_le; unfold b64_emax, b64_prec; lia).
    split; [done |]. split; [cbn; lia |]. split; [done |]. right. cbn. lia.
  - exists k, (e + n).
    assert (Hdk : Z.pos (digits2_pos k) = 53) by (apply digits2_pos_unique; cbn in *; lia).
    cbn [Zdigits2]. rewrite Hdk.
    replace (fexp b64_prec b64_emax (53 + (e + n)) - (e + n)) with 0
      by (unfold fexp, emin, b64_prec, b64_emax; lia).
    cbn [shr shr_record_of_loc shr_m].
    replace (e + n <=? b64_emax - b64_prec) with true
      by (symmetry; apply Z.leb_le; unfold b64_emax, b64_prec; lia).
    split; [done |]. split; [lia |]. split; [done |]. by left.
Qed.

Lemma new_location_spec (q r m2 : Z) :
  0 < m2 -> 0 <= r < m2 -> new_location m2 r = loc_of q (q * m2 + r) m2.
Proof.
  intros Hm Hr. unfold new_location, new_location_even, new_location_odd, loc_of.
  replace (q * m2 + r - q * m2) with r by lia.
  destruct (Z.even m2) eqn:Hev.
  - destruct (r =? 0); done.
  - destruct (r =? 0); [done |]. f_equal.
    assert (Hodd : Z.odd m2 = true) by (by rewrite <- Z.negb_even, Hev).
    apply Z.odd_spec in Hodd as [h Hh].
    destruct (Z.compare_spec (2 * r + 1) m2), (Z.compare_spec (2 * r) m2); try done; lia.
Qed.

(** The quotient of two positive binary numbers, as [SFdiv] prepares it for
    rounding: at least 53 bits of it, with the place of what was cut off. *)
Lemma div_core_normal (m1 m2 : positive) (e1 e2 : Z) :
  let d1 := Z.pos (digits2_pos m1) in
  let d2 := Z.pos (digits2_pos m2) in
  let s := Z.max (53 + d2 - d1) 0 in
  -1021 <= d1 + e1 - (d2 + e2) ->
  exists (q : positive) (l : location),
    SFdiv_core_binary b64_prec b64_emax (Z.pos m1) e1 (Z.pos m2) e2
      = (Z.pos q, e1 - e2 - s, l)
    /\ inbetween (Z.pos q) l (Z.pos m1 * 2 ^ s) (Z.pos m2)
    /\ 53 <= Z.pos (digits2_pos q)
    /\ d1 + s - d2 <= Z.pos (digits2_pos q) <= d1 + s - d2 + 1.
Proof.
  intros d1 d2 s Hr.
  pose proof (digits2_pos_bounds m1) as H1. pose proof (digits2_pos_bounds m2) as H2.
  fold d1 in H1. fold d2 in H2.
  unfold SFdiv_core_binary. cbn [Zdigits2]. fold d1 d2.
  rewrite fexp_normal by lia.
  replace (Z.min (d1 + e1 - (d2 + e2) - 53) (e1 - e2)) with (e1 - e2 - s) by lia.
  replace (e1 - e2 - (e1 - e2 - s)) with s by lia.
  assert (Hs : 0 <= s) by lia.
  assert (Hm' : match s with
                | 0 => Z.pos m1
                | Z.pos _ => Z.shiftl (Z.pos m1) s
                | Z.neg _ => 0
                end = Z.pos m1 * 2 ^ s).
  { destruct s as [| p | p] eqn:Es; [lia | by rewrite Z.shiftl_mul_pow2 | lia]. }
  rewrite Hm'.
  assert (Hps : 0 < 2 ^ s) by (apply Z.pow_pos_nonneg; lia).
  pose proof (Z_div_mod (Z.pos m1 * 2 ^ s) (Z.pos m2) ltac:(lia)) as Hdm.
  destruct (Z.div_eucl (Z.pos m1 * 2 ^ s) (Z.pos m2)) as [q r].
  destruct Hdm as [Hq Hrb].
  (* the quotient has between [d1 + s - d2] and [d1 + s - d2 + 1] bits *)
  assert (Hd12 : 0 <= d1 + s - d2 - 1) by lia.
  assert (Hlo : 2 ^ (d1 + s - d2 - 1) <= q).
  { assert (2 ^ (d1 + s - d2 - 1) * 2 ^ d2 = 2 ^ (d1 - 1) * 2 ^ s).
    { rewrite <- !Z.pow_add_r by lia. f_equal. lia. }
    assert (0 < 2 ^ (d1 + s - d2 - 1)) by (apply Z.pow_pos_nonneg; lia).
    nia. }
  assert (Hhi : q < 2 ^ (d1 + s - d2 + 1)).
  { assert (2 ^ (d1 + s - d2 + 1) * 2 ^ (d2 - 1) = 2 ^ d1 * 2 ^ s).
    { rewrite <- !Z.pow_add_r by lia. f_equal. lia. }
    assert (0 < 2 ^ (d1 + s - d2 + 1)) by (apply Z.pow_pos_nonneg; lia).
    assert (0 < 2 ^ (d2 - 1)) by (apply Z.pow_pos_nonneg; lia).
    nia. }
  assert (0 < 2 ^ (d1 + s - d2 - 1)) by (apply Z.pow_pos_nonneg; lia).
  destruct q as [| q | q]; [lia | | lia].
  exists q, (new_location (Z.pos m2) r). split; [done |]. split.
  - split; [lia |]. split; [lia |]. rewrite Hq.
    rewrite (Z.mul_comm (Z.pos m2)). by apply new_location_spec.
  - pose proof (digits2_pos_bounds q) as Hqd.
    set (dq := Z.pos (digits2_pos q)) in *.
    assert (d1 + s - d2 <= dq).
    { destruct (Z_lt_le_dec dq (d1 + s - d2)) as [Hlt |]; [| done].
      assert (2 ^ dq <= 2 ^ (d1 + s - d2 - 1)) by (apply Z.pow_le_mono_r; lia). lia. }
    assert (dq <= d1 + s - d2 + 1).
    { destruct (Z_lt_le_dec (d1 + s - d2 + 1) dq) as [Hlt |]; [| done].
      assert (2 ^ (d1 + s - d2 + 1) <= 2 ^ (dq - 1)) by (apply Z.pow_le_mono_r; lia). lia. }
    lia.
Qed.

Lemma scaled_le_base (a e1 b e2 g : Z) :
  g <= e1 -> g <= e2 ->
  scaled_le a e1 b e2 <-> a * 2 ^ (e1 - g) <= b * 2 ^ (e2 - g).
Proof.
  intros H1 H2. unfold scaled_le. set (h := Z.min e1 e2).
  assert (Hh : 0 < 2 ^ (h - g)) by (apply Z.pow_pos_nonneg; lia).
  replace (e1 - g) with ((e1 - h) + (h - g)) by lia.
  replace (e2 - g) with ((e2 - h) + (h - g)) by lia.
  rewrite !Z.pow_add_r, !Z.mul_assoc by lia.
  split; [intros; by apply Z.mul_le_mono_nonneg_r; [lia |] |].
  intros H. by apply Z.mul_le_mono_pos_r in H.
Qed.

Lemma scaled_le_trans (a e1 b e2 c e3 : Z) :
  scaled_le a e1 b e2 -> scaled_le b e2 c e3 -> scaled_le a e1 c e3.
Proof.
  set (g := Z.min e1 (Z.min e2 e3)).
  rewrite (scaled_le_base a e1 b e2 g), (scaled_le_base b e2 c e3 g),
    (scaled_le_base a e1 c e3 g) by lia.
  lia.
Qed.

(** Rounding is monotone: of two numbers handed to [binary_round_aux], the
    smaller is rounded to the smaller float. *)
Lemma round_aux_mono (s1 s2 : bool) (m1 m2 : positive) (e1 e2 : Z) (l1 l2 : location)
    (a1 b1 a2 b2 : Z) (k1 k2 : positive) (E1 E2 : Z) :
  let n1 := Z.pos (digits2_pos m1) - 53 in
  let n2 := Z.pos (digits2_pos m2) - 53 in
  inbetween (Z.pos m1) l1 a1 b1 -> inbetween (Z.pos m2) l2 a2 b2 ->
  0 <= n1 -> 0 <= n2 ->
  -1074 <= e1 + n1 -> e1 + n1 + 1 <= 971 ->
  -1074 <= e2 + n2 -> e2 + n2 + 1 <= 971 ->
  binary_round_aux b64_prec b64_emax s1 (Z.pos m1) e1 l1 = S754_finite s1 k1 E1 ->
  binary_round_aux b64_prec b64_emax s2 (Z.pos m2) e2 l2 = S754_finite s2 k2 E2 ->
  scaled_le (a1 * b2) e1 (a2 * b1) e2 ->
  scaled_le (Z.pos k1) E1 (Z.pos k2) E2.
Proof.
  intros n1 n2 Hin1 Hin2 Hn1 Hn2 Hlo1 Hhi1 Hlo2 Hhi2 Hr1 Hr2 Hle.
  destruct (round_aux_normal s1 m1 e1 l1 a1 b1 Hin1 ltac:(lia) Hlo1 Hhi1)
    as (k1' & E1' & Hr1' & Hk1 & Hbr1 & Hc1).
  destruct (round_aux_normal s2 m2 e2 l2 a2 b2 Hin2 ltac:(lia) Hlo2 Hhi2)
    as (k2' & E2' & Hr2' & Hk2 & Hbr2 & Hc2).
  rewrite Hr1 in Hr1'. injection Hr1' as <- <-.
  rewrite Hr2 in Hr2'. injection Hr2' as <- <-.
  fold n1 in Hbr1, Hc1. fold n2 in Hbr2, Hc2.
  destruct Hin1 as (Hb1 & _). destruct Hin2 as (Hb2 & _).
  set (B1 := 2 ^ n1 * b1) in *. set (B2 := 2 ^ n2 * b2) in *.
  set (K1 := rne a1 B1) in *. set (K2 := rne a2 B2) in *.
  set (F1 := e1 + n1) in *. set (F2 := e2 + n2) in *.
  assert (HB1 : 0 < B1) by (subst B1; pose proof (Z.pow_pos_nonneg 2 n1); nia).
  assert (HB2 : 0 < B2) by (subst B2; pose proof (Z.pow_pos_nonneg 2 n2); nia).
  assert (HK1 : 2 ^ 52 <= K1 <= 2 ^ 53) by (apply rne_bounds; [done | lia]).
  assert (HK2 : 2 ^ 52 <= K2 <= 2 ^ 53) by (apply rne_bounds; [done | lia]).
  set (g := Z.min e1 e2 - 1).
  (* the hypothesis, at the scale of the rounded mantissas *)
  assert (Hle' : a1 * B2 * 2 ^ (F1 - g) <= a2 * B1 * 2 ^ (F2 - g)).
  { apply (scaled_le_base _ _ _ _ g) in Hle; [| lia | lia].
    subst B1 B2 F1 F2.
    replace (e1 + n1 - g) with ((e1 - g) + n1) by lia.
    replace (e2 + n2 - g) with ((e2 - g) + n2) by lia.
    rewrite !Z.pow_add_r by lia.
    pose proof (Z.pow_pos_nonneg 2 n1 ltac:(lia) Hn1).
    pose proof (Z.pow_pos_nonneg 2 n2 ltac:(lia) Hn2).
    assert (a1 * b2 * 2 ^ (e1 - g) * (2 ^ n1 * 2 ^ n2)
            <= a2 * b1 * 2 ^ (e2 - g) * (2 ^ n1 * 2 ^ n2))
      by (apply Z.mul_le_mono_nonneg_r; lia).
    lia. }
  (* the values of the two results *)
  assert (Hv : Z.pos k1 * 2 ^ (E1 - g) = K1 * 2 ^ (F1 - g)
               /\ Z.pos k2 * 2 ^ (E2 - g) = K2 * 2 ^ (F2 - g) /\ g <= E1 /\ g <= E2).
  { assert (Hshift : forall F, g <= F -> 2 ^ (F + 1 - g) = 2 * 2 ^ (F - g)).
    { intros F HF. replace (F + 1 - g) with (Z.succ (F - g)) by lia.
      by rewrite Z.pow_succ_r by lia. }
    destruct Hc1 as [(-> & ->) | (-> & -> & ->)], Hc2 as [(-> & ->) | (-> & -> & ->)];
      rewrite ?Hshift by lia; repeat split; try lia;
      change (2 ^ 53) with (2 * 2 ^ 52); lia. }
  destruct Hv as (Hv1 & Hv2 & Hg1 & Hg2).
  apply (scaled_le_base _ _ _ _ g); [done | done |].
  rewrite Hv1, Hv2.
  assert (HP1 : 0 < 2 ^ (F1 - g)) by (apply Z.pow_pos_nonneg; lia).
  assert (HP2 : 0 < 2 ^ (F2 - g)) by (apply Z.pow_pos_nonneg; lia).
  destruct (Z.lt_trichotomy F1 F2) as [Hlt | [Heq | Hgt]].
  - assert (2 * 2 ^ (F1 - g) <= 2 ^ (F2 - g)).
    { replace (2 * 2 ^ (F1 - g)) with (2 ^ (Z.succ (F1 - g))) by (rewrite Z.pow_succ_r; lia).
      apply Z.pow_le_mono_r; lia. }
    change (2 ^ 53) with (2 * 2 ^ 52) in *. nia.
  - rewrite Heq in *.
    assert (a1 * B2 <= a2 * B1) by (apply Z.mul_le_mono_pos_r in Hle'; lia).
    assert (K1 <= K2) by (by apply rne_mono).
    nia.
  - exfalso.
    assert (HP : 2 * 2 ^ (F2 - g) <= 2 ^ (F1 - g)).
    { replace (2 * 2 ^ (F2 - g)) with (2 ^ (Z.succ (F2 - g))) by (rewrite Z.pow_succ_r; lia).
      apply Z.pow_le_mono_r; lia. }
    change (2 ^ 53) with (2 * 2 ^ 52) in *.
    assert (Hc : 0 < 2 ^ 52) by done.
    remember (2 ^ 52) as c eqn:Ec. clear Ec.
    remember (2 ^ (F1 - g)) as P1 eqn:EP1. remember (2 ^ (F2 - g)) as P2 eqn:EP2.
    clear EP1 EP2.
    assert (G1 : c * B1 * (B2 * P1) <= a1 * (B2 * P1))
      by (apply Z.mul_le_mono_nonneg_r; [nia | lia]).
    assert (G2 : c * B1 * B2 * (2 * P2) <= c * B1 * B2 * P1)
      by (apply Z.mul_le_mono_nonneg_l; [nia | lia]).
    assert (G3 : a2 * (B1 * P2) < 2 * c * B2 * (B1 * P2))
      by (apply Z.mul_lt_mono_pos_r; [nia | lia]).
    lia.
Qed.

Lemma digits2_pos_le (p : positive) (k : Z) :
  0 <= k -> Z.pos p < 2 ^ k -> Z.pos (digits2_pos p) <= k.
Proof.
  intros Hk Hp. pose proof (digits2_pos_bounds p) as [Hlo _].
  destruct (Z_lt_le_dec k (Z.pos (digits2_pos p))) as [Hlt |]; [| done].
  assert (2 ^ k <= 2 ^ (Z.pos (digits2_pos p) - 1)) by (apply Z.pow_le_mono_r; lia). lia.
Qed.

Lemma digits2_pos_ge (p : positive) (k : Z) :
  2 ^ k <= Z.pos p -> k + 1 <= Z.pos (digits2_pos p).
Proof.
  intros Hp. pose proof (digits2_pos_bounds p) as [_ Hhi].
  destruct (Z_lt_le_dec (Z.pos (digits2_pos p)) (k + 1)) as [Hlt |]; [| done].
  assert (2 ^ Z.pos (digits2_pos p) <= 2 ^ k) by (apply Z.pow_le_mono_r; lia). lia.
Qed.

(** The quotient of two positive ints below [2 ^ 64], as it is handed to the
    rounding. *)
Lemma truediv_ints_struct (x y : positive) :
  Z.pos x < 2 ^ 64 -> Z.pos y < 2 ^ 64 ->
  exists (q : positive) (l : location) (s : Z),
    b64_div (exact_of_int (Z.pos x)) (exact_of_int (Z.pos y))
      = binary_round_aux b64_prec b64_emax false (Z.pos q) (- s) l
    /\ inbetween (Z.pos q) l (Z.pos x * 2 ^ s) (Z.pos y)
    /\ 0 <= s
    /\ 0 <= Z.pos (digits2_pos q) - 53
    /\ -117 <= - s + (Z.pos (digits2_pos q) - 53) <= 12.
Proof.
  intros Hx Hy.
  pose proof (digits2_pos_le x 64 ltac:(lia) Hx) as Hdx.
  pose proof (digits2_pos_le y 64 ltac:(lia) Hy) as Hdy.
  assert (0 < Z.pos (digits2_pos x)) by lia. assert (0 < Z.pos (digits2_pos y)) by lia.
  destruct (div_core_normal x y 0 0 ltac:(lia)) as (q & l & Hcore & Hin & Hdq & Hdq').
  set (s := Z.max (53 + Z.pos (digits2_pos y) - Z.pos (digits2_pos x)) 0) in *.
  exists q, l, s. unfold b64_div. cbn [exact_of_int SFdiv]. rewrite Hcore.
  replace (0 - 0 - s) with (- s) by lia. cbn [xorb].
  split; [done |]. split; [done |]. lia.
Qed.

Lemma float_of_int_100 : float_of_int 100 = Ok (S754_finite false c100 (-46)).
Proof. vm_compute. reflexivity. Qed.

(** The product of a 53-bit float with 100.0, as it is handed to the
    rounding. *)
Lemma mul100_struct (k : positive) (E : Z) :
  2 ^ 52 <= Z.pos k < 2 ^ 53 ->
  b64_mul (S754_finite false k E) (S754_finite false c100 (-46))
    = binary_round_aux b64_prec b64_emax false (Z.pos (k * c100)) (E - 46) loc_Exact
  /\ inbetween (Z.pos (k * c100)) loc_Exact (Z.pos (k * c100)) 1
  /\ 52 <= Z.pos (digits2_pos (k * c100)) - 53 <= 53.
Proof.
  intros Hk. split; [reflexivity |]. split.
  - split; [lia |]. split; [lia |]. unfold loc_of.
    by replace (Z.pos (k * c100) - Z.pos (k * c100) * 1) with 0 by lia.
  - assert (Hc : 2 ^ 52 <= Z.pos c100 < 2 ^ 53) by (split; by vm_compute).
    assert (2 ^ 104 <= Z.pos (k * c100)).
    { rewrite Pos2Z.inj_mul. change (2 ^ 104) with (2 ^ 52 * 2 ^ 52). nia. }
    assert (Z.pos (k * c100) < 2 ^ 106).
    { rewrite Pos2Z.inj_mul. change (2 ^ 106) with (2 ^ 53 * 2 ^ 53). nia. }
    pose proof (digits2_pos_ge (k * c100) 104 ltac:(done)).
    pose proof (digits2_pos_le (k * c100) 106 ltac:(lia) ltac:(done)).
    lia.
Qed.

(** An int lies below a float exactly when it lies below its floor. *)
Lemma floor_scaled (k : positive) (E z f : Z) :
  float_floor (S754_finite false k E) = Some f ->
  z <= f <-> scaled_le z 0 (Z.pos k) E.
Proof.
  unfold float_floor, signed_mantissa. cbn [cond_Zopp]. intros [= <-].
  destruct (0 <=? E) eqn:HE.
  - apply Z.leb_le in HE.
    etransitivity; [| symmetry; apply (scaled_le_base _ _ _ _ 0); lia].
    replace (0 - 0) with 0 by lia. replace (E - 0) with E by lia.
    by rewrite Z.pow_0_r, Z.mul_1_r.
  - apply Z.leb_gt in HE.
    etransitivity; [| symmetry; apply (scaled_le_base _ _ _ _ E); lia].
    replace (E - E) with 0 by lia. replace (0 - E) with (- E) by lia.
    rewrite Z.pow_0_r, Z.mul_1_r.
    assert (0 < 2 ^ (- E)) by (apply Z.pow_pos_nonneg; lia).
    split; intros H'.
    + pose proof (Z.mul_div_le (Z.pos k) (2 ^ (- E)) ltac:(lia)). nia.
    + apply Z.div_le_lower_bound; lia.
Qed.

Lemma floor_mono (k1 k2 : positive) (E1 E2 f1 f2 : Z) :
  float_floor (S754_finite false k1 E1) = Some f1 ->
  float_floor (S754_finite false k2 E2) = Some f2 ->
  scaled_le (Z.pos k1) E1 (Z.pos k2) E2 ->
  f1 <= f2.
Proof.
  intros H1 H2 Hle. apply (floor_scaled k2 E2 f1 f2 H2).
  eapply scaled_le_trans; [| exact Hle].
  by apply (floor_scaled k1 E1 f1 f1 H1).
Qed.

(** The float the hook truncates, for positive int byte counts below
    [2 ^ 64]: finite, and monotone in the bytes downloaded. *)
Lemma pct_float_pos (x y : positive) :
  Z.pos x < 2 ^ 64 -> Z.pos y < 2 ^ 64 ->
  exists (k : positive) (E : Z),
    pct_float (PyInt (Z.pos x)) (PyInt (Z.pos y)) = Ok (S754_finite false k E).
Proof.
  intros Hx Hy.
  destruct (truediv_ints_struct x y Hx Hy) as (q & l & s & Hdiv & Hin & Hs & Hn & Hr).
  destruct (round_aux_normal false q (- s) l _ _ Hin ltac:(lia) ltac:(lia) ltac:(lia))
    as (k & E & Hrnd & Hk & _ & HE).
  destruct (mul100_struct k E Hk) as (Hmul & Hin' & Hn').
  destruct (round_aux_normal false (k * c100) (E - 46) loc_Exact _ _ Hin'
              ltac:(lia) ltac:(lia) ltac:(lia)) as (k' & E' & Hrnd' & _).
  exists k', E'. unfold pct_float, py_truediv. cbn [Z.eqb].
  rewrite Hdiv, Hrnd. cbn [is_infinity mbind result_bind].
  unfold py_mul_float. rewrite float_of_int_100. cbn [mbind result_bind].
  by rewrite Hmul, Hrnd'.
Qed.

Lemma pct_float_mono (x1 x2 y : positive) (k1 k2 : positive) (E1 E2 : Z) :
  (x1 <= x2)%positive -> Z.pos x2 < 2 ^ 64 -> Z.pos y < 2 ^ 64 ->
  pct_float (PyInt (Z.pos x1)) (PyInt (Z.pos y)) = Ok (S754_finite false k1 E1) ->
  pct_float (PyInt (Z.pos x2)) (PyInt (Z.pos y)) = Ok (S754_finite false k2 E2) ->
  scaled_le (Z.pos k1) E1 (Z.pos k2) E2.
Proof.
  intros Hle Hx2 Hy H1 H2.
  assert (Hx1 : Z.pos x1 < 2 ^ 64) by lia.
  destruct (truediv_ints_struct x1 y Hx1 Hy) as (q1 & l1 & s1 & Hdiv1 & Hin1 & Hs1 & Hn1 & Hr1).
  destruct (truediv_ints_struct x2 y Hx2 Hy) as (q2 & l2 & s2 & Hdiv2 & Hin2 & Hs2 & Hn2 & Hr2).
  destruct (round_aux_normal false q1 (- s1) l1 _ _ Hin1 ltac:(lia) ltac:(lia) ltac:(lia))
    as (j1 & F1 & Hrnd1 & Hj1 & _ & HF1).
  destruct (round_aux_normal false q2 (- s2) l2 _ _ Hin2 ltac:(lia) ltac:(lia) ltac:(lia))
    as (j2 & F2 & Hrnd2 & Hj2 & _ & HF2).
  assert (Hq : scaled_le (Z.pos j1) F1 (Z.pos j2) F2).
  { apply (round_aux_mono false false q1 q2 (- s1) (- s2) l1 l2 _ _ _ _ j1 j2 F1 F2
             Hin1 Hin2); try lia; try done.
    apply (scaled_le_base _ _ _ _ (- s1 - s2)); [lia | lia |].
    replace (- s1 - (- s1 - s2)) with s2 by lia.
    replace (- s2 - (- s1 - s2)) with s1 by lia.
    assert (0 < 2 ^ s1) by (apply Z.pow_pos_nonneg; lia).
    assert (0 < 2 ^ s2) by (apply Z.pow_pos_nonneg; lia).
    assert (Z.pos x1 * (Z.pos y * (2 ^ s1 * 2 ^ s2)) <= Z.pos x2 * (Z.pos y * (2 ^ s1 * 2 ^ s2)))
      by (apply Z.mul_le_mono_nonneg_r; lia).
    lia. }
  destruct (mul100_struct j1 F1 Hj1) as (Hmul1 & Hin1' & Hn1').
  destruct (mul100_struct j2 F2 Hj2) as (Hmul2 & Hin2' & Hn2').
  assert (Hp1 : pct_float (PyInt (Z.pos x1)) (PyInt (Z.pos y))
                = Ok (binary_round_aux b64_prec b64_emax false (Z.pos (j1 * c100))
                        (F1 - 46) loc_Exact)).
  { unfold pct_float, py_truediv. cbn [Z.eqb]. rewrite Hdiv1, Hrnd1.
    cbn [is_infinity mbind result_bind]. unfold py_mul_float. rewrite float_of_int_100.
    cbn [mbind result_bind]. by rewrite Hmul1. }
  assert (Hp2 : pct_float (PyInt (Z.pos x2)) (PyInt (Z.pos y))
                = Ok (binary_round_aux b64_prec b64_emax false (Z.pos (j2 * c100))
                        (F2 - 46) loc_Exact)).
  { unfold pct_float, py_truediv. cbn [Z.eqb]. rewrite Hdiv2, Hrnd2.
    cbn [is_infinity mbind result_bind]. unfold py_mul_float. rewrite float_of_int_100.
    cbn [mbind result_bind]. by rewrite Hmul2. }
  rewrite Hp1 in H1. rewrite Hp2 in H2. injection H1 as H1. injection H2 as H2.
  apply (round_aux_mono false false (j1 * c100) (j2 * c100) (F1 - 46) (F2 - 46)
           loc_Exact loc_Exact _ _ _ _ k1 k2 E1 E2 Hin1' Hin2'); try lia; try done.
  rewrite !Z.mul_1_r, !Pos2Z.inj_mul.
  set (g := Z.min F1 F2 - 46).
  apply (scaled_le_base _ _ _ _ g); [lia | lia |].
  apply (scaled_le_base _ _ _ _ (Z.min F1 F2)) in Hq; [| lia | lia].
  replace (F1 - 46 - g) with (F1 - Z.min F1 F2) by lia.
  replace (F2 - 46 - g) with (F2 - Z.min F1 F2) by lia.
  assert (Z.pos j1 * 2 ^ (F1 - Z.min F1 F2) * Z.pos c100
          <= Z.pos j2 * 2 ^ (F2 - Z.min F1 F2) * Z.pos c100)
    by (apply Z.mul_le_mono_nonneg_r; [done | exact Hq]).
  lia.
Qed.

(** For int byte counts below [2 ^ 64] and a nonzero total, the percentage
    is computed without an exception, from a finite float. *)
Lemma pct_of_ints (dl T : Z) :
  0 <= dl < 2 ^ 64 -> 0 < T < 2 ^ 64 ->
  exists (x : spec_float) (pct : Z),
    pct_float (PyInt dl) (PyInt T) = Ok x
    /\ spec_pct x = Some pct
    /\ pct_of (PyInt dl) (PyInt T) = Ok pct.
Proof.
  intros Hdl HT. destruct T as [| y | y]; [lia | | lia].
  assert (Hfin : exists x n, pct_float (PyInt dl) (PyInt (Z.pos y)) = Ok x
                             /\ float_floor x = Some n).
  { destruct dl as [| x | x]; [| | lia].
    - exists (S754_zero false), 0. by split.
    - destruct (pct_float_pos x y ltac:(lia) ltac:(lia)) as (k & E & Hx).
      eexists _, _. split; [exact Hx | reflexivity]. }
  destruct Hfin as (x & n & Hx & Hn).
  exists x, (clamp 0 100 n). split; [done |]. split.
  - unfold spec_pct. by rewrite Hn.
  - unfold pct_of. rewrite Hx. cbn [mbind result_bind]. by apply int_min_max_floor.
Qed.

(** With the total unchanged, more bytes downloaded never give a smaller
    percentage. *)
Lemma pct_of_mono (dl1 dl2 T p1 p2 : Z) :
  0 <= dl1 <= dl2 -> dl2 < 2 ^ 64 -> 0 < T < 2 ^ 64 ->
  pct_of (PyInt dl1) (PyInt T) = Ok p1 ->
  pct_of (PyInt dl2) (PyInt T) = Ok p2 ->
  p1 <= p2.
Proof.
  intros Hdl Hdl2 HT H1 H2. destruct T as [| y | y]; [lia | | lia].
  destruct dl1 as [| x1 | x1]; [| | lia].
  - assert (p1 = 0) as -> by (vm_compute in H1; congruence).
    unfold pct_of in H2. destruct (pct_float _ _) as [x |]; [| discriminate].
    cbn [mbind result_bind] in H2. destruct (int_min_max_bounds x) as (p & Hp & Hb).
    rewrite Hp in H2. injection H2 as <-. lia.
  - destruct dl2 as [| x2 | x2]; [lia | | lia].
    destruct (pct_float_pos x1 y ltac:(lia) ltac:(lia)) as (k1 & E1 & Hx1).
    destruct (pct_float_pos x2 y ltac:(lia) ltac:(lia)) as (k2 & E2 & Hx2).
    pose proof (pct_float_mono x1 x2 y k1 k2 E1 E2 ltac:(lia) ltac:(lia) ltac:(lia) Hx1 Hx2)
      as Hle.
    unfold pct_of in H1, H2. rewrite Hx1 in H1. rewrite Hx2 in H2.
    cbn [mbind result_bind] in H1, H2.
    destruct (float_floor (S754_finite false k1 E1)) as [f1 |] eqn:Hf1; [| discriminate].
    destruct (float_floor (S754_finite false k2 E2)) as [f2 |] eqn:Hf2; [| discriminate].
    rewrite (int_min_max_floor _ f1 Hf1) in H1. rewrite (int_min_max_floor _ f2 Hf2) in H2.
    injection H1 as <-. injection H2 as <-.
    pose proof (floor_mono k1 k2 E1 E2 f1 f2 Hf1 Hf2 Hle). unfold clamp. lia.
Qed.

(** ** The progress hook *)

Lemma set_progress_same (t : task) : set_progress (progress t) t = t.
Proof. by destruct t. Qed.

Lemma update_progress_missing (tasks : gmap string task) (task_id : string) (d : event) :
  tasks !! task_id = None -> _update_progress tasks task_id d = Ok tasks.
Proof. intros H. unfold _update_progress. by rewrite H. Qed.

Lemma update_progress_other_status (tasks : gmap string task) (task_id : string)
    (d : event) :
  ev_is_downloading d = false -> _update_progress tasks task_id d = Ok tasks.
Proof.
  intros H. unfold _update_progress. rewrite H. by destruct (tasks !! task_id).
Qed.

Lemma update_progress_no_total (tasks : gmap string task) (task_id : string)
    (d : event) :
  ev_is_downloading d = true -> num_truthy (ev_total d) = false ->
  _update_progress tasks task_id d = Ok tasks.
Proof.
  intros Hd Ht. unfold _update_progress. rewrite Hd, Ht.
  destruct (tasks !! task_id) as [t |] eqn:Hl; [| done].
  cbn. rewrite set_progress_same. f_equal. by apply insert_id.
Qed.

Lemma update_progress_with_total (tasks : gmap string task) (task_id : string)
    (d : event) (t : task) :
  tasks !! task_id = Some t ->
  ev_is_downloading d = true -> num_truthy (ev_total d) = true ->
  _update_progress tasks task_id d =
    (pct ← pct_of (ev_downloaded d) (ev_total d);
     Ok (<[task_id := set_progress pct t]> tasks)).
Proof. intros Hl Hd Ht. unfold _update_progress. by rewrite Hl, Hd, Ht. Qed.

(** What a hook call can do to the dictionary: nothing, or overwrite the
    progress of its own task with the percentage of the event. *)
Lemma update_progress_cases (tasks tasks' : gmap string task) (task_id : string)
    (d : event) :
  _update_progress tasks task_id d = Ok tasks' ->
  tasks' = tasks
  \/ exists t pct, tasks !! task_id = Some t
       /\ ev_is_downloading d = true /\ num_truthy (ev_total d) = true
       /\ pct_of (ev_downloaded d) (ev_total d) = Ok pct
       /\ 0 <= pct <= 100
       /\ tasks' = <[task_id := set_progress pct t]> tasks.
Proof.
  intros H.
  destruct (tasks !! task_id) as [t |] eqn:Hl;
    [| rewrite update_progress_missing in H by done; left; congruence].
  destruct (ev_is_downloading d) eqn:Hd;
    [| rewrite update_progress_other_status in H by done; left; congruence].
  destruct (num_truthy (ev_total d)) eqn:Ht;
    [| rewrite update_progress_no_total in H by done; left; congruence].
  rewrite (update_progress_with_total _ _ _ t) in H by done.
  destruct (pct_of (ev_downloaded d) (ev_total d)) as [pct |] eqn:Hp; [| discriminate].
  cbn in H. injection H as <-. right. exists t, pct. repeat split; try done.
  - unfold pct_of in Hp. destruct (pct_float _ _) as [x |]; [| discriminate].
    cbn in Hp. destruct (int_min_max_bounds x) as (p & Hx & Hb). rewrite Hx in Hp.
    injection Hp as <-. lia.
  - unfold pct_of in Hp. destruct (pct_float _ _) as [x |]; [| discriminate].
    cbn in Hp. destruct (int_min_max_bounds x) as (p & Hx & Hb). rewrite Hx in Hp.
    injection Hp as <-. lia.
Qed.

(** ** The POST handler *)

(** A body that is a JSON object with a string under "url". *)
Lemma start_download_str_url (tasks : gmap string task) (items : list (string * json))
    (u : string) (rb : resolve_behaviour) (uuid : string) (now : spec_float) :
  assoc_get "url" items = Some (JStr u) ->
  api_start_download tasks (JDict items) rb uuid now =
    if String.eqb u "" then Ok (Jsonify 400 (error_body "url is required"), tasks, [])
    else if str_contains "xiaohongshu.com" u || str_contains "xhslink.com" u
    then Ok (dispatch tasks (JStr u) (default JNull (assoc_get "mode" items)) rb uuid now)
    else Ok (Jsonify 400 (error_body "invalid rednote url"), tasks, []).
Proof.
  intros Hu. unfold api_start_download.
  assert (Hit : json_truthy (JDict items) = true) by (by destruct items).
  rewrite Hit. cbn. rewrite Hu. cbn.
  destruct (String.eqb u "") eqn:He; cbn; [done |].
  destruct (str_contains "xiaohongshu.com" u) eqn:H1; cbn; [done |].
  by destruct (str_contains "xhslink.com" u) eqn:H2.
Qed.

(** Every answer of the POST handler is of one of two kinds: the dictionary
    is left as it was and no thread is started, or a task is stored under the
    id drawn from [uuid4], then its thread is started, and the id returned. *)
Lemma start_download_cases (tasks tasks' : gmap string task) (body : json)
    (rb : resolve_behaviour) (uuid : string) (now : spec_float)
    (resp : response) (effs : list effect) :
  api_start_download tasks body rb uuid now = Ok (resp, tasks', effs) ->
  (tasks' = tasks /\ started effs = [] /\ returned_task_id resp = None
   /\ (effs = [] \/ exists target, effs = [ExtractInfo target false]))
  \/ (exists target,
        tasks' = <[uuid := new_task target now]> tasks
        /\ effs = [TaskInsert uuid (new_task target now); ThreadStart uuid target]
        /\ resp = Jsonify 200 (JDict [("task_id", JStr uuid)])).
Proof.
  unfold api_start_download.
  destruct (json_get _ "url") as [target |]; cbn; [| discriminate].
  destruct (json_get _ "mode") as [mode |]; cbn; [| discriminate].
  destruct (negb (json_truthy target)).
  { intros [= <- <- <-]. left. repeat split; auto. }
  destruct (json_contains "xiaohongshu.com" target) as [in1 |]; cbn; [| discriminate].
  destruct (if in1 then Ok false else json_contains "xhslink.com" target) as [in2 |];
    cbn; [| discriminate].
  destruct (negb in1 && negb in2).
  { intros [= <- <- <-]. left. repeat split; auto. }
  unfold dispatch. destruct (json_is_str mode "direct").
  - unfold direct_download.
    destruct (_extract_info_with_timeout rb) as [info [[| e] |]];
      try (destruct (_choose_direct_url info) as [v |]; cbn;
           [destruct (negb (String.eqb v "")) |]);
      intros [= <- <- <-]; left; repeat split; eauto.
  - unfold start_job. intros [= <- <- <-]. right. by exists target.
Qed.

(** ** Workers and handlers interleaved *)

(** A worker step is possible at one position of the thread only. *)
Ltac worker_at s tid Hth :=
  destruct (threads s !! tid) as [[| |] |] eqn:Hth; try discriminate.

Lemma init_consistent : consistent init.
Proof. intros tid t H. cbn in H. by rewrite lookup_empty in H. Qed.

Lemma consistent_insert (s : sys) (tid : string) (t : task) (pc : wpc) :
  consistent s ->
  match pc with
  | AtStart => status t = queued /\ progress t = 0
  | InCall => status t = downloading
  | Finished =>
      (status t = completed /\ progress t = 100 /\
       is_Some (filename t) /\ is_Some (filepath t))
      \/ (status t = failed /\ error t = Some worker_error_message)
  end ->
  consistent (mkSys (<[tid := t]> (store s)) (<[tid := pc]> (threads s))).
Proof.
  intros Hc Hpc tid' t' Hl. cbn in *.
  destruct (decide (tid = tid')) as [<- | Hne].
  - rewrite lookup_insert_eq in Hl. injection Hl as <-.
    rewrite lookup_insert_eq. by destruct pc.
  - rewrite lookup_insert_ne in Hl by done. rewrite lookup_insert_ne by done.
    by apply Hc.
Qed.

Lemma consistent_same_pc (s : sys) (tid : string) (t : task) (pc : wpc) :
  consistent s -> threads s !! tid = Some pc ->
  match pc with
  | AtStart => status t = queued /\ progress t = 0
  | InCall => status t = downloading
  | Finished =>
      (status t = completed /\ progress t = 100 /\
       is_Some (filename t) /\ is_Some (filepath t))
      \/ (status t = failed /\ error t = Some worker_error_message)
  end ->
  consistent (mkSys (<[tid := t]> (store s)) (threads s)).
Proof.
  intros Hc Hth Hpc.
  replace (threads s) with (<[tid := pc]> (threads s)) by (by apply insert_id).
  by apply consistent_insert.
Qed.

Lemma consistent_finish_absent (s : sys) (tid : string) (pc : wpc) :
  consistent s -> store s !! tid = None ->
  consistent (mkSys (store s) (<[tid := pc]> (threads s))).
Proof.
  intros Hc Hn tid' t' Hl. cbn in *.
  destruct (decide (tid = tid')) as [<- | Hne]; [congruence |].
  rewrite lookup_insert_ne by done. by apply Hc.
Qed.

Lemma worker_fail_consistent (s : sys) (tid : string) (e : pyexn) :
  consistent s ->
  consistent (mkSys (worker_fail (store s) tid e) (<[tid := Finished]> (threads s))).
Proof.
  intros Hc. unfold worker_fail.
  destruct (store s !! tid) as [t |] eqn:Hl.
  - apply consistent_insert; [done |]. right. by split.
  - by apply consistent_finish_absent.
Qed.

(** Each step keeps record and worker position in agreement. *)
Lemma step_consistent (s s' : sys) (l : label) :
  consistent s -> sys_step s l = Some s' -> consistent s'.
Proof.
  intros Hc Hstep. destruct l as [body rb uuid now | tid | tid d | tid info fname | tid exc];
    cbn in Hstep.
  - destruct (api_start_download _ _ _ _ _) as [[[resp tasks'] effs] | e] eqn:Hapi;
      [| by injection Hstep as <-].
    destruct (forallb _ _) eqn:Hfresh; [| discriminate]. injection Hstep as <-.
    destruct (start_download_cases _ _ _ _ _ _ _ _ Hapi)
      as [(-> & Hst & _) | (target & -> & -> & _)].
    + rewrite Hst. cbn. by destruct s.
    + cbn in *. apply consistent_insert; [done | by split].
  - worker_at s tid Hth.
    unfold worker_begin in Hstep. destruct (store s !! tid) as [t |] eqn:Hl.
    + injection Hstep as <-. by apply consistent_insert.
    + injection Hstep as <-. by apply consistent_finish_absent.
  - worker_at s tid Hth.
    destruct (_update_progress (store s) tid d) as [tasks' | e] eqn:Hup.
    + injection Hstep as <-.
      destruct (update_progress_cases _ _ _ _ Hup) as [-> | (t & pct & Hl & _ & _ & _ & _ & ->)].
      * by destruct s.
      * apply (consistent_same_pc s tid _ InCall); [done | done |].
        specialize (Hc tid t Hl). rewrite Hth in Hc. by destruct t.
    + injection Hstep as <-. by apply worker_fail_consistent.
  - worker_at s tid Hth.
    injection Hstep as <-. unfold worker_complete.
    destruct (store s !! tid) as [t |] eqn:Hl.
    + apply consistent_insert; [done |]. left. cbn. eauto.
    + by apply consistent_finish_absent.
  - worker_at s tid Hth.
    injection Hstep as <-. by apply worker_fail_consistent.
Qed.

Lemma run_consistent (ls : list label) (s s' : sys) :
  consistent s -> run s ls = Some s' -> consistent s'.
Proof.
  revert s. induction ls as [| l ls IH]; intros s Hc Hrun; cbn in Hrun.
  - by injection Hrun as <-.
  - destruct (sys_step s l) as [s1 |] eqn:Hstep; [| discriminate].
    eapply IH; [| done]. by eapply step_consistent.
Qed.

Lemma reachable_consistent (s : sys) : reachable s -> consistent s.
Proof. intros [ls Hrun]. eapply run_consistent; [apply init_consistent | done]. Qed.

Lemma run_app (ls1 ls2 : list label) (s s1 : sys) :
  run s ls1 = Some s1 -> run s (ls1 ++ ls2) = run s1 ls2.
Proof.
  revert s. induction ls1 as [| l ls1 IH]; intros s H; cbn in *.
  - by injection H as <-.
  - destruct (sys_step s l); [by apply IH | discriminate].
Qed.

(** No step removes a task. *)
Lemma step_keeps_tasks (s s' : sys) (l : label) (id : string) :
  sys_step s l = Some s' -> is_Some (store s !! id) -> is_Some (store s' !! id).
Proof.
  intros Hstep Hid.
  assert (Hins : forall tid t, is_Some (<[tid := t]> (store s) !! id)).
  { intros tid t. destruct (decide (tid = id)) as [-> | Hne].
    - rewrite lookup_insert_eq; eauto.
    - by rewrite lookup_insert_ne. }
  destruct l as [body rb uuid now | tid | tid d | tid info fname | tid exc];
    cbn in Hstep.
  - destruct (api_start_download _ _ _ _ _) as [[[resp tasks'] effs] | e] eqn:Hapi;
      [| by injection Hstep as <-].
    destruct (forallb _ _); [| discriminate]. injection Hstep as <-. cbn.
    destruct (start_download_cases _ _ _ _ _ _ _ _ Hapi)
      as [(-> & _) | (target & -> & _)]; [done | apply Hins].
  - worker_at s tid Hth.
    unfold worker_begin in Hstep.
    destruct (store s !! tid); injection Hstep as <-; [apply Hins | done].
  - worker_at s tid Hth.
    destruct (_update_progress (store s) tid d) as [tasks' | e] eqn:Hup.
    + injection Hstep as <-. cbn.
      destruct (update_progress_cases _ _ _ _ Hup) as [-> | (t & pct & _ & _ & _ & _ & _ & ->)];
        [done | apply Hins].
    + injection Hstep as <-. cbn. unfold worker_fail.
      destruct (store s !! tid); [apply Hins | done].
  - worker_at s tid Hth.
    injection Hstep as <-. cbn. unfold worker_complete.
    destruct (store s !! tid); [apply Hins | done].
  - worker_at s tid Hth.
    injection Hstep as <-. cbn. unfold worker_fail.
    destruct (store s !! tid); [apply Hins | done].
Qed.

Lemma run_keeps_tasks (ls : list label) (s s' : sys) (id : string) :
  run s ls = Some s' -> is_Some (store s !! id) -> is_Some (store s' !! id).
Proof.
  revert s. induction ls as [| l ls IH]; intros s Hrun Hid; cbn in Hrun.
  - by injection Hrun as <-.
  - destruct (sys_step s l) as [s1 |] eqn:Hstep; [| discriminate].
    eapply IH; [done |]. by eapply step_keeps_tasks.
Qed.

(** ** Progress *)

Lemma update_progress_lookup (tasks tasks' : gmap string task) (tid : string)
    (d : event) (t : task) :
  tasks !! tid = Some t -> _update_progress tasks tid d = Ok tasks' ->
  exists t', tasks' !! tid = Some t'
    /\ ((progress t' = progress t
         /\ (ev_is_downloading d = false \/ num_truthy (ev_total d) = false))
        \/ (ev_is_downloading d = true /\ num_truthy (ev_total d) = true
            /\ pct_of (ev_downloaded d) (ev_total d) = Ok (progress t'))).
Proof.
  intros Hl Hup.
  destruct (ev_is_downloading d) eqn:Hd.
  - destruct (num_truthy (ev_total d)) eqn:Ht.
    + rewrite (update_progress_with_total _ _ _ t) in Hup by done.
      destruct (pct_of _ _) as [pct |]; [| discriminate]. cbn in Hup.
      injection Hup as <-. exists (set_progress pct t).
      rewrite lookup_insert_eq. split; [done |]. right. by repeat split.
    + rewrite update_progress_no_total in Hup by done. injection Hup as <-.
      exists t. split; [done |]. left. split; [done | by right].
  - rewrite update_progress_other_status in Hup by done. injection Hup as <-.
    exists t. split; [done |]. left. split; [done | by left].
Qed.

(** C1, as the program has it. In every reachable state a completed task has
    progress 100. A progress event either leaves the recorded progress as it
    was (its status is not "downloading", or it carries no nonzero total) or
    overwrites it with the percentage of that event alone, so the progress
    does not decrease across an event whenever the event's own percentage is
    not below the recorded one. That is the case from one "downloading" event
    to a later one when both carry the same nonzero int total below 2^64
    and the later one reports at least as many bytes; a total that changes,
    or a byte count that drops, can lower the progress. *)
Theorem progress_overwritten_by_event :
  (forall (s : sys) (tid : string) (t : task),
      reachable s -> store s !! tid = Some t -> status t = completed ->
      progress t = 100)
  /\ (forall (tasks tasks' : gmap string task) (tid : string) (d : event) (t : task),
        tasks !! tid = Some t -> _update_progress tasks tid d = Ok tasks' ->
        exists t', tasks' !! tid = Some t'
          /\ ((progress t' = progress t
               /\ (ev_is_downloading d = false \/ num_truthy (ev_total d) = false))
              \/ (ev_is_downloading d = true /\ num_truthy (ev_total d) = true
                  /\ pct_of (ev_downloaded d) (ev_total d) = Ok (progress t')))
          /\ ((forall p, pct_of (ev_downloaded d) (ev_total d) = Ok p -> progress t <= p)
              -> progress t <= progress t'))
  /\ (forall (before1 after1 before2 after2 : gmap string task) (tid : string)
             (d1 d2 : event) (dl1 dl2 T p1 p2 : Z),
        ev_is_downloading d1 = true -> ev_is_downloading d2 = true ->
        ev_total d1 = PyInt T -> ev_total d2 = PyInt T -> 0 < T < 2 ^ 64 ->
        ev_downloaded d1 = PyInt dl1 -> ev_downloaded d2 = PyInt dl2 ->
        0 <= dl1 <= dl2 -> dl2 < 2 ^ 64 ->
        _update_progress before1 tid d1 = Ok after1 ->
        _update_progress before2 tid d2 = Ok after2 ->
        progress_of after1 tid = Some p1 -> progress_of after2 tid = Some p2 ->
        p1 <= p2).
Proof.
  split; [| split].
  - intros s tid t Hr Hl Hst.
    pose proof (reachable_consistent s Hr tid t Hl) as Hc.
    destruct (threads s !! tid) as [[| |] |]; try done.
    + destruct Hc as [Hq _]. congruence.
    + congruence.
    + destruct Hc as [(_ & Hp & _) | [Hf _]]; [done | congruence].
  - intros tasks tasks' tid d t Hl Hup.
    destruct (update_progress_lookup _ _ _ _ _ Hl Hup) as (t' & Hl' & Hcase).
    exists t'. split; [done |]. split; [done |].
    intros Hmono. destruct Hcase as [[-> _] | (_ & _ & Hp)]; [lia | by apply Hmono].
  - intros before1 after1 before2 after2 tid d1 d2 dl1 dl2 T p1 p2
      Hd1 Hd2 HT1 HT2 HT Hdl1 Hdl2 Hle Hdl Hup1 Hup2 Hp1 Hp2.
    assert (Htruthy : num_truthy (PyInt T) = true)
      by (cbn; apply negb_true_iff, Z.eqb_neq; lia).
    assert (Hpct : forall before after d dl p,
               ev_is_downloading d = true -> ev_total d = PyInt T ->
               ev_downloaded d = PyInt dl ->
               _update_progress before tid d = Ok after ->
               progress_of after tid = Some p ->
               pct_of (PyInt dl) (PyInt T) = Ok p).
    { intros before after d dl p Hd HTd Hdld Hup Hp.
      destruct (before !! tid) as [t |] eqn:Hl.
      - destruct (update_progress_lookup _ _ _ _ _ Hl Hup) as (t' & Hl' & Hcase).
        unfold progress_of in Hp. rewrite Hl' in Hp. injection Hp as <-.
        rewrite HTd, Hdld in Hcase.
        destruct Hcase as [[_ [? | ?]] | (_ & _ & ?)]; [congruence | congruence | done].
      - rewrite update_progress_missing in Hup by done. injection Hup as <-.
        unfold progress_of in Hp. by rewrite Hl in Hp. }
    apply (pct_of_mono dl1 dl2 T p1 p2 Hle Hdl HT).
    + by apply (Hpct before1 after1 d1).
    + by apply (Hpct before2 after2 d2).
Qed.

(** C1 as stated fails: with a task whose worker is inside the collaborator
    call, the event "50 of an estimated 100" sets progress 50 and the later
    event "60 of an estimated 200" sets it to 30. *)
Lemma progress_can_decrease : ~ progress_never_decreases.
Proof.
  intros H.
  specialize (H (state_after [sample_post; LBegin "id-1"])
                (state_after [sample_post; LBegin "id-1";
                              LHook "id-1" (estimate_event 50 100)])
                (state_after [sample_post; LBegin "id-1";
                              LHook "id-1" (estimate_event 50 100);
                              LHook "id-1" (estimate_event 60 200)])
                "id-1" (estimate_event 50 100) (estimate_event 60 200) 50 30).
  assert (50 <= 30) as Habs; [| lia].
  apply H.
  - exists [sample_post; LBegin "id-1"]. vm_compute. reflexivity.
  - vm_compute. reflexivity.
  - reflexivity.
  - vm_compute. reflexivity.
  - vm_compute. reflexivity.
  - vm_compute. reflexivity.
Qed.

Lemma progress_overwritten_by_event_witness :
  (exists t,
      store (state_after [sample_post; LBegin "id-1";
                          LSaved "id-1" None "downloads_v2/id-1_clip.mp4"]) !! "id-1"
        = Some t
      /\ status t = completed /\ progress t = 100)
  /\ (exists t',
        (<["id-1" := set_progress 50 (new_task (JStr "u") (S754_zero false))]>
           {["id-1" := new_task (JStr "u") (S754_zero false)]} : gmap string task)
          !! "id-1" = Some t'
        /\ progress (new_task (JStr "u") (S754_zero false)) <= progress t')
  /\ 28 <= 56.
Proof.
  split; [| split].
  - eexists. split; [vm_compute; reflexivity |]. split; [reflexivity |].
    apply (proj1 progress_overwritten_by_event
             (state_after [sample_post; LBegin "id-1";
                           LSaved "id-1" None "downloads_v2/id-1_clip.mp4"]) "id-1").
    + exists [sample_post; LBegin "id-1";
              LSaved "id-1" None "downloads_v2/id-1_clip.mp4"].
      vm_compute. reflexivity.
    + vm_compute. reflexivity.
    + reflexivity.
  - destruct (proj1 (proj2 progress_overwritten_by_event)
                {["id-1" := new_task (JStr "u") (S754_zero false)]}
                (<["id-1" := set_progress 50 (new_task (JStr "u") (S754_zero false))]>
                   {["id-1" := new_task (JStr "u") (S754_zero false)]})
                "id-1" (estimate_event 50 100)
                (new_task (JStr "u") (S754_zero false)))
      as (t' & Hl & _ & Hmono).
    + vm_compute. reflexivity.
    + vm_compute. reflexivity.
    + exists t'. split; [exact Hl |]. apply Hmono.
      intros p Hp. vm_compute in Hp. injection Hp as <-. cbn. lia.
  - apply (proj2 (proj2 progress_overwritten_by_event)
             {["id-1" := new_task (JStr "u") (S754_zero false)]}
             (<["id-1" := set_progress 28 (new_task (JStr "u") (S754_zero false))]>
                {["id-1" := new_task (JStr "u") (S754_zero false)]})
             (<["id-1" := set_progress 28 (new_task (JStr "u") (S754_zero false))]>
                {["id-1" := new_task (JStr "u") (S754_zero false)]})
             (<["id-1" := set_progress 56 (new_task (JStr "u") (S754_zero false))]>
                {["id-1" := new_task (JStr "u") (S754_zero false)]})
             "id-1" (estimate_event 29 100) (estimate_event 57 100) 29 57 100 28 56);
      try reflexivity; try lia; vm_compute; reflexivity.
Defined.

(** ** Ids in use *)

Lemma unused_None (tasks : gmap string task) (tid : string) :
  unused tasks tid = true <-> tasks !! tid = None.
Proof. unfold unused. destruct (tasks !! tid); split; congruence. Qed.

(** ** A failing download *)

Lemma run_hooks_lookup (evs : list event) (tasks : gmap string task) (tid : string)
    (t : task) :
  tasks !! tid = Some t ->
  exists t', (run_hooks tasks tid evs).1 !! tid = Some t'
    /\ status t' = status t /\ url t' = url t /\ created t' = created t
    /\ filename t' = filename t /\ filepath t' = filepath t
    /\ title t' = title t /\ error t' = error t.
Proof.
  revert tasks t. induction evs as [| d evs IH]; intros tasks t Hl; cbn.
  - exists t. by repeat split.
  - destruct (_update_progress tasks tid d) as [tasks' | e] eqn:Hup.
    + destruct (update_progress_cases _ _ _ _ Hup)
        as [-> | (t0 & pct & Hl0 & _ & _ & _ & _ & ->)]; [by apply IH |].
      rewrite Hl in Hl0. injection Hl0 as <-.
      destruct (IH (<[tid := set_progress pct t]> tasks) (set_progress pct t))
        as (t' & Hl' & Hs); [apply lookup_insert_eq |].
      exists t'. split; [done |]. by destruct t.
    + exists t. by repeat split.
Qed.

(** C6. Whenever the collaborator call raises, be it from the collaborator
    itself or from the progress hook it calls, the worker ends with the task
    marked failed and the error set to one fixed message; the record it
    leaves is the same whatever was raised, and the status answer for it
    carries status, progress, filename, title and another fixed message. *)
Theorem failure_is_opaque (tasks : gmap string task) (tid : string) (t : task)
    (evs : list event) (exc : pyexn) :
  tasks !! tid = Some t ->
  exists (tasks' : gmap string task) (t' : task),
    _download_background tasks tid evs (Failed exc) = Ok tasks'
    /\ tasks' !! tid = Some t'
    /\ status t' = failed
    /\ error t' = Some worker_error_message
    /\ url t' = url t /\ created t' = created t
    /\ filename t' = filename t /\ filepath t' = filepath t /\ title t' = title t
    /\ (forall exc2, _download_background tasks tid evs (Failed exc2) = Ok tasks')
    /\ (forall out,
          (run_hooks (<[tid := set_status downloading t]> tasks) tid evs).2 <> None ->
          _download_background tasks tid evs out = Ok tasks')
    /\ api_status tasks' tid
         = Jsonify 200 (JDict [("status", JStr "failed");
                               ("progress", JNum (PyInt (progress t')));
                               ("filename", json_of_str (filename t));
                               ("title", json_of_str (title t));
                               ("error", JStr status_error_message)]).
Proof.
  intros Hl.
  destruct (run_hooks_lookup evs (<[tid := set_status downloading t]> tasks) tid
              (set_status downloading t)) as (t2 & Hl2 & Hs); [apply lookup_insert_eq |].
  destruct Hs as (_ & Hu & Hc & Hfn & Hfp & Hti & Her).
  assert (Hbg : forall e, _download_background tasks tid evs (Failed e)
                = Ok (<[tid := record_failure t2]>
                        (run_hooks (<[tid := set_status downloading t]> tasks) tid evs).1)).
  { intros e. unfold _download_background, worker_begin. rewrite Hl. cbn.
    destruct (run_hooks _ tid evs) as [tasks2 [e' |]] eqn:Hrh; cbn in *;
      unfold worker_fail; by rewrite Hl2. }
  eexists _, (record_failure t2). split; [apply Hbg |].
  split; [apply lookup_insert_eq |].
  cbn in Hu, Hc, Hfn, Hfp, Hti.
  do 2 (split; [reflexivity |]).
  do 5 (split; [assumption |]).
  split; [intros exc2; apply Hbg |].
  split.
  { intros out Hraised. unfold _download_background, worker_begin. rewrite Hl. cbn.
    destruct (run_hooks _ tid evs) as [tasks2 [e' |]] eqn:Hrh; cbn in *; [| done].
    unfold worker_fail. by rewrite Hl2. }
  unfold api_status. rewrite lookup_insert_eq. cbn.
  by rewrite Hfn, Hti.
Qed.

Lemma failure_is_opaque_witness :
  exists tasks' t',
    _download_background {["id-1" := new_task (JStr "u") (S754_zero false)]} "id-1"
      [estimate_event 50 100] (Failed (CollaboratorError "HTTP Error 403")) = Ok tasks'
    /\ tasks' !! "id-1" = Some t'
    /\ error t' = Some worker_error_message.
Proof.
  destruct (failure_is_opaque {["id-1" := new_task (JStr "u") (S754_zero false)]} "id-1"
              (new_task (JStr "u") (S754_zero false)) [estimate_event 50 100]
              (CollaboratorError "HTTP Error 403"))
    as (tasks' & t' & Hbg & Hl & _ & He & _).
  - vm_compute. reflexivity.
  - exists tasks', t'. split; [exact Hbg |]. split; [exact Hl | exact He].
Defined.

(** ** Serving the file *)

(** C7. The file endpoint answers 404 for an unknown task id, 400 for a task
    that is not completed, 404 for a completed task whose file path is unset
    or not on disk, and otherwise sends the stored file under the stored
    filename; a file is sent in that last case only. *)
Theorem download_file_spec (tasks : gmap string task) (exists_on_disk : string -> bool)
    (tid : string) :
  (tasks !! tid = None ->
     api_download_file tasks exists_on_disk tid = Jsonify 404 (error_body "not found"))
  /\ (forall t, tasks !! tid = Some t ->
       (status t <> completed ->
          api_download_file tasks exists_on_disk tid
            = Jsonify 400 (error_body "not completed"))
       /\ (status t = completed ->
           (forall path, filepath t = Some path -> exists_on_disk path = false ->
              api_download_file tasks exists_on_disk tid
                = Jsonify 404 (error_body "file missing"))
           /\ (filepath t = None \/ filepath t = Some "" ->
                 api_download_file tasks exists_on_disk tid
                   = Jsonify 404 (error_body "file missing"))
           /\ (forall path, filepath t = Some path -> path <> "" ->
                 exists_on_disk path = true ->
                 api_download_file tasks exists_on_disk tid
                   = SendFile path (filename t))))
  /\ (forall path name,
        api_download_file tasks exists_on_disk tid = SendFile path name ->
        exists t, tasks !! tid = Some t /\ status t = completed
                  /\ filepath t = Some path /\ filename t = name
                  /\ exists_on_disk path = true).
Proof.
  unfold api_download_file. split; [by intros -> |]. split.
  - intros t ->. split.
    + intros Hs. by destruct (status t).
    + intros ->. cbn. split; [| split].
      * intros path -> ->. by rewrite andb_false_r.
      * by intros [-> | ->].
      * intros path -> Hne ->. apply String.eqb_neq in Hne. by rewrite Hne.
  - intros path name. destruct (tasks !! tid) as [t |] eqn:Hl; [| discriminate].
    destruct (status t) eqn:Hs; try discriminate. cbn.
    destruct (filepath t) as [p |] eqn:Hp; [| discriminate].
    destruct (negb (String.eqb p "") && exists_on_disk p) eqn:Hc; [| discriminate].
    intros [= <- <-]. apply andb_prop in Hc as [_ He]. by exists t.
Qed.

Lemma download_file_spec_witness :
  api_download_file
    (store (state_after [sample_post; LBegin "id-1";
                         LSaved "id-1" None "downloads_v2/id-1_clip.mp4"]))
    (fun _ => true) "id-1"
  = SendFile "downloads_v2/id-1_clip.mp4" (Some "id-1_clip.mp4")
  /\ api_download_file
       (store (state_after [sample_post; LBegin "id-1";
                            LSaved "id-1" None "downloads_v2/id-1_clip.mp4"]))
       (fun _ => false) "id-1"
     = Jsonify 404 (error_body "file missing")
  /\ api_download_file (store (state_after [sample_post])) (fun _ => true) "id-1"
     = Jsonify 400 (error_body "not completed")
  /\ api_download_file (store (state_after [sample_post])) (fun _ => true) "id-9"
     = Jsonify 404 (error_body "not found").
Proof.
  split; [| split; [| split]].
  - destruct (download_file_spec
                (store (state_after [sample_post; LBegin "id-1";
                                     LSaved "id-1" None "downloads_v2/id-1_clip.mp4"]))
                (fun _ => true) "id-1") as (_ & Hfound & _).
    destruct (Hfound (mkTask completed 100 (JStr "https://www.xiaohongshu.com/explore/1")
                        (S754_zero false) (Some "id-1_clip.mp4")
                        (Some "downloads_v2/id-1_clip.mp4") None None))
      as (_ & Hdone); [vm_compute; reflexivity |].
    destruct (Hdone eq_refl) as (_ & _ & Hsend).
    apply (Hsend "downloads_v2/id-1_clip.mp4"); [reflexivity | discriminate | reflexivity].
  - destruct (download_file_spec
                (store (state_after [sample_post; LBegin "id-1";
                                     LSaved "id-1" None "downloads_v2/id-1_clip.mp4"]))
                (fun _ => false) "id-1") as (_ & Hfound & _).
    destruct (Hfound (mkTask completed 100 (JStr "https://www.xiaohongshu.com/explore/1")
                        (S754_zero false) (Some "id-1_clip.mp4")
                        (Some "downloads_v2/id-1_clip.mp4") None None))
      as (_ & Hdone); [vm_compute; reflexivity |].
    destruct (Hdone eq_refl) as (Hgone & _).
    apply (Hgone "downloads_v2/id-1_clip.mp4"); reflexivity.
  - destruct (download_file_spec (store (state_after [sample_post])) (fun _ => true) "id-1")
      as (_ & Hfound & _).
    destruct (Hfound (new_task (JStr "https://www.xiaohongshu.com/explore/1")
                        (S754_zero false)))
      as (Hearly & _); [vm_compute; reflexivity |].
    apply Hearly. discriminate.
  - apply (proj1 (download_file_spec (store (state_after [sample_post]))
                    (fun _ => true) "id-9")).
    vm_compute. reflexivity.
Defined.

(** ** The allow-list *)

Example contains_as_query_parameter :
  str_contains "xhslink.com" "https://evil.example/?q=xhslink.com" = true.
Proof. reflexivity. Qed.

Example contains_not_truncated :
  str_contains "xhslink.com" "https://xhslink.co/m" = false.
Proof. reflexivity. Qed.

Example basename_of_download : basename "downloads_v2/id-1_clip.mp4" = "id-1_clip.mp4".
Proof. reflexivity. Qed.

Lemma is_prefix_spec (p s : string) :
  is_prefix p s = true <-> exists post, s = p +:+ post.
Proof.
  revert s. induction p as [| a p IH]; intros s; cbn.
  - split; [intros _; by exists s | done].
  - destruct s as [| b s].
    + split; [done | intros [post H]; discriminate].
    + destruct (Ascii.eqb_spec a b) as [-> | Hne].
      * rewrite IH. split; intros [post H]; exists post; [by rewrite H | by injection H].
      * split; [done | intros [post H]; by injection H].
Qed.

(** [str_contains] decides containment. *)
Lemma str_contains_spec (needle s : string) :
  str_contains needle s = true <-> occurs_in needle s.
Proof.
  unfold occurs_in. induction s as [| c s IH]; cbn.
  - rewrite orb_false_r, is_prefix_spec. split.
    + intros [post H]. by exists "", post.
    + intros (pre & post & H). destruct pre; [by exists post |]. discriminate.
  - rewrite orb_true_iff, IH, is_prefix_spec. split.
    + intros [[post H] | (pre & post & H)].
      * by exists "", post.
      * exists (String c pre), post. cbn. by rewrite H.
    + intros (pre & post & H). destruct pre as [| c' pre]; cbn in H.
      * left. by exists post.
      * right. injection H as _ H. by exists pre, post.
Qed.

Lemma str_contains_false (needle s : string) :
  str_contains needle s = false <-> ~ occurs_in needle s.
Proof.
  rewrite <- str_contains_spec. destruct (str_contains needle s); split; congruence.
Qed.

Lemma invalid_url_rejected (tasks : gmap string task) (items : list (string * json))
    (u : string) (rb : resolve_behaviour) (uuid : string) (now : spec_float) :
  assoc_get "url" items = Some (JStr u) ->
  u <> "" ->
  ~ occurs_in "xiaohongshu.com" u -> ~ occurs_in "xhslink.com" u ->
  api_start_download tasks (JDict items) rb uuid now
    = Ok (Jsonify 400 (error_body "invalid rednote url"), tasks, []).
Proof.
  intros Hu Hne H1 H2. rewrite (start_download_str_url _ _ u) by done.
  apply String.eqb_neq in Hne. rewrite Hne.
  apply str_contains_false in H1, H2. by rewrite H1, H2.
Qed.

(** C2 as stated fails: a url on another host is rejected with the message
    "invalid rednote url", not "invalid source url". *)
Lemma invalid_url_message_differs : ~ rejects_with_source_message.
Proof.
  intros H.
  specialize (H ∅ [("url", JStr "https://example.com/video/1")]
                "https://example.com/video/1" StillRunning "id-1" (S754_zero false)
                eq_refl).
  assert (Hne : "https://example.com/video/1" <> "") by discriminate.
  assert (H1 : ~ occurs_in "xiaohongshu.com" "https://example.com/video/1")
    by (by apply str_contains_false).
  assert (H2 : ~ occurs_in "xhslink.com" "https://example.com/video/1")
    by (by apply str_contains_false).
  destruct (H Hne H1 H2) as (tasks' & effs & Habs).
  rewrite (invalid_url_rejected _ _ "https://example.com/video/1") in Habs by done.
  discriminate Habs.
Qed.

(** C2, as the program has it. For a body that is empty or a JSON object: if
    the url is absent or empty the answer is 400 with error "url is
    required"; if the url is a non-empty string holding neither of the two
    domains the answer is 400 with error "invalid rednote url"; either way
    the dictionary is left as it was and nothing is called or started. *)
Theorem validation_rejects (tasks : gmap string task) (body : json)
    (rb : resolve_behaviour) (uuid : string) (now : spec_float) :
  (json_truthy body = false
   \/ (exists items, body = JDict items
         /\ json_truthy (default JNull (assoc_get "url" items)) = false) ->
     api_start_download tasks body rb uuid now
       = Ok (Jsonify 400 (error_body "url is required"), tasks, []))
  /\ (forall items u,
        body = JDict items ->
        assoc_get "url" items = Some (JStr u) ->
        u <> "" ->
        ~ occurs_in "xiaohongshu.com" u -> ~ occurs_in "xhslink.com" u ->
        api_start_download tasks body rb uuid now
          = Ok (Jsonify 400 (error_body "invalid rednote url"), tasks, [])).
Proof.
  split.
  - intros [Hf | (items & -> & Hf)]; unfold api_start_download.
    + by rewrite Hf.
    + destruct (json_truthy (JDict items)) eqn:Hi; cbn.
      * by rewrite Hf.
      * destruct items; [done | discriminate].
  - intros items u -> Hu Hne H1 H2. by apply (invalid_url_rejected _ _ u).
Qed.

Lemma validation_rejects_witness :
  api_start_download ∅ (JDict [("mode", JStr "direct")]) StillRunning "id-1"
      (S754_zero false)
    = Ok (Jsonify 400 (error_body "url is required"), ∅, [])
  /\ api_start_download ∅ (JDict [("url", JStr "https://example.com/video/1")])
       StillRunning "id-1" (S754_zero false)
     = Ok (Jsonify 400 (error_body "invalid rednote url"), ∅, []).
Proof.
  split.
  - apply (proj1 (validation_rejects ∅ (JDict [("mode", JStr "direct")])
                    StillRunning "id-1" (S754_zero false))).
    right. exists [("mode", JStr "direct")]. split; reflexivity.
  - apply (proj2 (validation_rejects ∅ (JDict [("url", JStr "https://example.com/video/1")])
                    StillRunning "id-1" (S754_zero false))
             [("url", JStr "https://example.com/video/1")] "https://example.com/video/1").
    + reflexivity.
    + reflexivity.
    + discriminate.
    + apply str_contains_false. reflexivity.
    + apply str_contains_false. reflexivity.
Defined.

(** What [dispatch] answers: never a 400. *)
Lemma dispatch_not_rejected (tasks : gmap string task) (target mode : json)
    (rb : resolve_behaviour) (uuid : string) (now : spec_float) :
  failure_of (dispatch tasks target mode rb uuid now).1.1 <> Some ValidationError.
Proof.
  unfold dispatch, direct_download, start_job.
  destruct (json_is_str mode "direct"); [| done].
  destruct (_extract_info_with_timeout rb) as [info [[| e] |]]; cbn; try done.
  by destruct (str_truthy (_choose_direct_url info)).
Qed.

(** C10. The allow-list is a containment test on the whole string: a url
    holding "xiaohongshu.com" or "xhslink.com" anywhere passes validation and
    the handler goes on to the direct or the asynchronous branch, whose
    answer is never a 400; a non-empty url holding neither is answered with
    400 and nothing else happens. *)
Theorem allow_list_is_containment (tasks : gmap string task)
    (items : list (string * json)) (u : string) (rb : resolve_behaviour)
    (uuid : string) (now : spec_float) :
  assoc_get "url" items = Some (JStr u) ->
  (occurs_in "xiaohongshu.com" u \/ occurs_in "xhslink.com" u ->
     let mode := default JNull (assoc_get "mode" items) in
     api_start_download tasks (JDict items) rb uuid now
       = Ok (dispatch tasks (JStr u) mode rb uuid now)
     /\ failure_of (dispatch tasks (JStr u) mode rb uuid now).1.1
          <> Some ValidationError)
  /\ (u <> "" -> ~ occurs_in "xiaohongshu.com" u -> ~ occurs_in "xhslink.com" u ->
        exists msg, api_start_download tasks (JDict items) rb uuid now
                      = Ok (Jsonify 400 (error_body msg), tasks, [])).
Proof.
  intros Hu. split.
  - intros Hin mode. split; [| apply dispatch_not_rejected].
    rewrite (start_download_str_url _ _ u) by done.
    assert (Hc : str_contains "xiaohongshu.com" u || str_contains "xhslink.com" u = true).
    { apply orb_true_iff. by rewrite !str_contains_spec. }
    rewrite Hc. destruct u; [| done]. cbn in Hc. discriminate.
  - intros Hne H1 H2. exists "invalid rednote url".
    by apply (invalid_url_rejected _ _ u).
Qed.

Lemma allow_list_is_containment_witness :
  api_start_download ∅
    (JDict [("url", JStr "https://evil.example/watch?ref=xiaohongshu.com")])
    StillRunning "id-1" (S754_zero false)
  = Ok (Jsonify 200 (JDict [("task_id", JStr "id-1")]),
        {["id-1" := new_task (JStr "https://evil.example/watch?ref=xiaohongshu.com")
                             (S754_zero false)]},
        [TaskInsert "id-1" (new_task (JStr "https://evil.example/watch?ref=xiaohongshu.com")
                                     (S754_zero false));
         ThreadStart "id-1" (JStr "https://evil.example/watch?ref=xiaohongshu.com")])
  /\ exists msg,
       api_start_download ∅ (JDict [("url", JStr "https://www.xiaohongshu.co/explore/1")])
         StillRunning "id-1" (S754_zero false)
       = Ok (Jsonify 400 (error_body msg), ∅, []).
Proof.
  split.
  - destruct (allow_list_is_containment ∅
                [("url", JStr "https://evil.example/watch?ref=xiaohongshu.com")]
                "https://evil.example/watch?ref=xiaohongshu.com"
                StillRunning "id-1" (S754_zero false) eq_refl) as [Hacc _].
    destruct Hacc as [Hacc _].
    + left. apply str_contains_spec. reflexivity.
    + exact Hacc.
  - apply (proj2 (allow_list_is_containment ∅
                    [("url", JStr "https://www.xiaohongshu.co/explore/1")]
                    "https://www.xiaohongshu.co/explore/1"
                    StillRunning "id-1" (S754_zero false) eq_refl)).
    + discriminate.
    + apply str_contains_false. reflexivity.
    + apply str_contains_false. reflexivity.
Defined.

(** ** Choosing the direct url *)







Lemma lex_le_trans (k1 k2 k3 : Q * Q * Q) : lex_le k1 k2 -> lex_le k2 k3 -> lex_le k1 k3.
Proof.
  destruct k1 as [[a1 b1] c1], k2 as [[a2 b2] c2], k3 as [[a3 b3] c3]. cbn.
  intros [H | [H1 [H | [H2 H]]]] [G | [G1 [G | [G2 G]]]];
    try (left; lra);
    try (right; split; [lra |]; left; lra);
    right; split; [lra |]; right; split; lra.
Qed.


Lemma lex_lt_irrefl_le (k1 k2 : Q * Q * Q) : lex_lt k1 k2 -> ~ lex_le k2 k1.
Proof.
  destruct k1 as [[a1 b1] c1], k2 as [[a2 b2] c2]. cbn.
  intros [H | [H1 [H | [H2 H]]]] [G | [G1 [G | [G2 G]]]]; lra.
Qed.








(** ** Direct mode *)

Lemma direct_request (tasks : gmap string task) (items : list (string * json))
    (u : string) (rb : resolve_behaviour) (uuid : string) (now : spec_float) :
  assoc_get "url" items = Some (JStr u) ->
  str_contains "xiaohongshu.com" u || str_contains "xhslink.com" u = true ->
  assoc_get "mode" items = Some (JStr "direct") ->
  api_start_download tasks (JDict items) rb uuid now
    = Ok (direct_download tasks (JStr u) rb).
Proof.
  intros Hu Hin Hm. rewrite (start_download_str_url _ _ u) by done.
  rewrite Hin, Hm. destruct u; [cbn in Hin; discriminate | done].
Qed.

(** C5. A descriptor marked live yields no direct url, whatever its formats:
    the resolver returns nothing and the direct branch answers 422, the
    category of a stream that is not applicable or not found, and never a
    direct_url. *)
Theorem live_is_not_applicable (info : info_dict) :
  is_live info = Some true ->
  _choose_direct_url (Some info) = None
  /\ (forall (tasks : gmap string task) (target : json),
        direct_download tasks target (Returned (Some info))
          = (Jsonify 422 (error_body "no direct downloadable stream found"),
             tasks, [ExtractInfo target false]))
  /\ (forall (tasks : gmap string task) (items : list (string * json)) (u : string)
             (uuid : string) (now : spec_float) (resp : response)
             (tasks' : gmap string task) (effs : list effect),
        assoc_get "url" items = Some (JStr u) ->
        str_contains "xiaohongshu.com" u || str_contains "xhslink.com" u = true ->
        assoc_get "mode" items = Some (JStr "direct") ->
        api_start_download tasks (JDict items) (Returned (Some info)) uuid now
          = Ok (resp, tasks', effs) ->
        resp = Jsonify 422 (error_body "no direct downloadable stream found")
        /\ failure_of resp = Some NoStreamFound).
Proof.
  intros Hlive.
  assert (Hnone : _choose_direct_url (Some info) = None).
  { unfold _choose_direct_url. by rewrite Hlive. }
  assert (Hd : forall (tasks : gmap string task) (target : json),
             direct_download tasks target (Returned (Some info))
             = (Jsonify 422 (error_body "no direct downloadable stream found"),
                tasks, [ExtractInfo target false])).
  { intros tasks target. unfold direct_download. cbn -[_choose_direct_url].
    by rewrite Hnone. }
  split; [done |]. split; [done |].
  intros tasks items u uuid now resp tasks' effs Hu Hin Hm Hapi.
  rewrite (direct_request _ _ u) in Hapi by done. rewrite Hd in Hapi.
  by injection Hapi as <- <- <-.
Qed.

Lemma live_is_not_applicable_witness :
  _choose_direct_url
    (Some (mkInfo (Some true) None
                  (Some (sample_formats (Some "https://cdn/480") (Some "https://cdn/720")))
                  (Some "https://cdn/top") None))
  = None
  /\ (forall resp tasks' effs,
        api_start_download ∅
          (JDict [("url", JStr "http://xhslink.com/a/b"); ("mode", JStr "direct")])
          (Returned (Some (mkInfo (Some true) None
                      (Some (sample_formats (Some "https://cdn/480")
                                            (Some "https://cdn/720")))
                      (Some "https://cdn/top") None)))
          "id-1" (S754_zero false)
        = Ok (resp, tasks', effs) ->
        resp = Jsonify 422 (error_body "no direct downloadable stream found")).
Proof.
  split.
  - apply (proj1 (live_is_not_applicable
                    (mkInfo (Some true) None
                            (Some (sample_formats (Some "https://cdn/480")
                                                  (Some "https://cdn/720")))
                            (Some "https://cdn/top") None) eq_refl)).
  - intros resp tasks' effs Hapi.
    apply (proj2 (proj2 (live_is_not_applicable
                    (mkInfo (Some true) None
                            (Some (sample_formats (Some "https://cdn/480")
                                                  (Some "https://cdn/720")))
                            (Some "https://cdn/top") None) eq_refl))
             ∅ [("url", JStr "http://xhslink.com/a/b"); ("mode", JStr "direct")]
             "http://xhslink.com/a/b" "id-1" (S754_zero false) resp tasks' effs
             eq_refl eq_refl eq_refl Hapi).
Defined.

(** C8. A request with mode "direct" never changes the task dictionary,
    never stores a task and never starts a worker, and the only collaborator
    call it makes is the metadata-only extraction ([download=False]). Once
    its url has passed validation its answer is exactly one of: the direct
    url (a non-empty string, status 200), 504 for a timeout, 502 for a failed
    extraction, 422 when there is no stream to hand out. *)
Theorem direct_mode_frame (tasks : gmap string task) (items : list (string * json))
    (rb : resolve_behaviour) (uuid : string) (now : spec_float) :
  assoc_get "mode" items = Some (JStr "direct") ->
  (forall resp tasks' effs,
     api_start_download tasks (JDict items) rb uuid now = Ok (resp, tasks', effs) ->
     tasks' = tasks
     /\ returned_task_id resp = None
     /\ (forall e, e ∈ effs -> exists target, e = ExtractInfo target false))
  /\ (forall u,
        assoc_get "url" items = Some (JStr u) ->
        str_contains "xiaohongshu.com" u || str_contains "xhslink.com" u = true ->
        exists resp,
          api_start_download tasks (JDict items) rb uuid now
            = Ok (resp, tasks, [ExtractInfo (JStr u) false])
          /\ ((exists d, d <> "" /\ resp = Jsonify 200 (JDict [("direct_url", JStr d)])
                         /\ failure_of resp = None
                         /\ exists info, rb = Returned info
                                         /\ _choose_direct_url info = Some d)
              \/ (resp = Jsonify 504 (error_body "preparation timed out")
                  /\ failure_of resp = Some Timeout /\ rb = StillRunning)
              \/ (resp = Jsonify 502 (error_body
                    "could not prepare browser download — try again or use the local command")
                  /\ failure_of resp = Some ExtractionFailed
                  /\ exists exc, rb = Raised exc)
              \/ (resp = Jsonify 422 (error_body "no direct downloadable stream found")
                  /\ failure_of resp = Some NoStreamFound
                  /\ exists info, rb = Returned info
                                  /\ str_truthy (_choose_direct_url info) = false))).
Proof.
  intros Hm. split.
  - intros resp tasks' effs Hapi. unfold api_start_download in Hapi.
    assert (Hit : json_truthy (JDict items) = true) by (by destruct items).
    rewrite Hit in Hapi. cbn in Hapi. rewrite Hm in Hapi. cbn in Hapi.
    assert (Hnil : forall e : effect, e ∈ [] -> exists target, e = ExtractInfo target false).
    { intros e He. by apply elem_of_nil in He. }
    destruct (negb (json_truthy _)); [by injection Hapi as <- <- <- |].
    destruct (json_contains "xiaohongshu.com" _) as [in1 |]; cbn in Hapi; [| discriminate].
    destruct (if in1 then _ else _) as [in2 |]; cbn in Hapi; [| discriminate].
    destruct (negb in1 && negb in2); [by injection Hapi as <- <- <- |].
    unfold dispatch, direct_download in Hapi. cbn -[_choose_direct_url] in Hapi.
    destruct (_extract_info_with_timeout rb) as [info [[| e] |]];
      try (destruct (_choose_direct_url info) as [v |]; cbn in Hapi;
           [destruct (negb (String.eqb v "")) |]);
      injection Hapi as <- <- <-; repeat split; try done;
      intros e' He'; apply list_elem_of_singleton in He' as ->; eauto.
  - intros u Hu Hin. rewrite (direct_request _ _ u) by done.
    unfold direct_download. destruct rb as [| exc | info]; cbn -[_choose_direct_url].
    + eexists. split; [done |]. right. left. by repeat split.
    + eexists. split; [done |]. right. right. left. repeat split; eauto.
    + destruct (str_truthy (_choose_direct_url info)) eqn:Ht.
      * eexists. split; [done |]. left.
        destruct (_choose_direct_url info) as [d |] eqn:Hd; [| discriminate].
        exists d. cbn in Ht. apply negb_true_iff, String.eqb_neq in Ht.
        repeat split; eauto.
      * eexists. split; [done |]. right. right. right. repeat split; eauto.
Qed.

Lemma direct_mode_frame_witness :
  api_start_download (store (state_after [sample_post]))
    (JDict [("url", JStr "http://xhslink.com/a/b"); ("mode", JStr "direct")])
    StillRunning "id-2" (S754_zero false)
  = Ok (Jsonify 504 (error_body "preparation timed out"),
        store (state_after [sample_post]),
        [ExtractInfo (JStr "http://xhslink.com/a/b") false])
  /\ (forall resp tasks' effs,
        api_start_download (store (state_after [sample_post]))
          (JDict [("mode", JStr "direct")]) StillRunning "id-2" (S754_zero false)
        = Ok (resp, tasks', effs) ->
        tasks' = store (state_after [sample_post])).
Proof.
  split.
  - destruct (direct_mode_frame (store (state_after [sample_post]))
                [("url", JStr "http://xhslink.com/a/b"); ("mode", JStr "direct")]
                StillRunning "id-2" (S754_zero false) eq_refl) as [_ Hres].
    destruct (Hres "http://xhslink.com/a/b" eq_refl eq_refl) as (resp & Hapi & Hcase).
    rewrite Hapi.
    destruct Hcase as [(d & _ & _ & _ & info & Hrb & _)
                      | [(-> & _) | [(_ & _ & exc & Hrb) | (_ & _ & info & Hrb & _)]]];
      [discriminate Hrb | reflexivity | discriminate Hrb | discriminate Hrb].
  - intros resp tasks' effs Hapi.
    apply (proj1 (proj1 (direct_mode_frame (store (state_after [sample_post]))
                           [("mode", JStr "direct")] StillRunning "id-2"
                           (S754_zero false) eq_refl) resp tasks' effs Hapi)).
Defined.

(** ** The worker as a run of the server *)

(** What the worker leaves once the collaborator call is over. *)
Lemma worker_in_call_run (evs : list event) (s : sys) (tid : string)
    (out : download_outcome) :
  threads s !! tid = Some InCall ->
  exists ls,
    run s ls =
      Some (mkSys
              match run_hooks (store s) tid evs with
              | (tasks2, Some e) => worker_fail tasks2 tid e
              | (tasks2, None) =>
                  match out with
                  | Saved info fname => worker_complete tasks2 tid info fname
                  | Failed e => worker_fail tasks2 tid e
                  end
              end
              (<[tid := Finished]> (threads s))).
Proof.
  revert s. induction evs as [| d evs IH]; intros s Hth; cbn [run_hooks].
  - destruct out as [info fname | e].
    + exists [LSaved tid info fname]. cbn. by rewrite Hth.
    + exists [LFailed tid e]. cbn. by rewrite Hth.
  - destruct (_update_progress (store s) tid d) as [tasks' | e] eqn:Hup.
    + destruct (IH (mkSys tasks' (threads s)) Hth) as [ls Hls].
      exists (LHook tid d :: ls). cbn [run sys_step]. by rewrite Hth, Hup.
    + exists [LHook tid d]. cbn. by rewrite Hth, Hup.
Qed.

(** [_download_background] is one of the runs of the server: the steps of
    one worker, taken without anything in between. *)
Lemma download_background_run (s : sys) (tid : string) (evs : list event)
    (out : download_outcome) (tasks' : gmap string task) :
  threads s !! tid = Some AtStart ->
  _download_background (store s) tid evs out = Ok tasks' ->
  exists ls, run s ls = Some (mkSys tasks' (<[tid := Finished]> (threads s))).
Proof.
  intros Hth Hbg. unfold _download_background in Hbg.
  destruct (worker_begin (store s) tid) as [tasks1 |] eqn:Hbegin; [| discriminate].
  cbn in Hbg.
  destruct (worker_in_call_run evs (mkSys tasks1 (<[tid := InCall]> (threads s))) tid out)
    as [ls Hls]; [apply lookup_insert_eq |].
  exists (LBegin tid :: ls). cbn [run sys_step]. rewrite Hth, Hbegin, Hls.
  cbn [store threads]. rewrite insert_insert_eq. f_equal. f_equal.
  destruct (run_hooks tasks1 tid evs) as [tasks2 [e |]].
  - by injection Hbg.
  - destruct out; by injection Hbg.
Qed.

(** * Further properties *)

(** ** What a step does to a task *)

(** The ways a step can change the record of a task that is already stored:
    not at all, or as the worker of that task does at its position. *)
Lemma step_effect (s s' : sys) (l : label) (tid : string) (t : task) :
  consistent s -> sys_step s l = Some s' -> store s !! tid = Some t ->
  exists t', store s' !! tid = Some t'
    /\ (t' = t
        \/ (worker_label_of l = Some tid
            /\ ((status t = queued /\ t' = set_status downloading t)
                \/ (status t = downloading
                    /\ ((exists p, 0 <= p <= 100 /\ t' = set_progress p t)
                        \/ (exists info fname, t' = record_download info fname t)
                        \/ t' = record_failure t))))).
Proof.
  intros Hc Hstep Hl.
  assert (Hother : forall tid0 (t0 : task), tid0 <> tid ->
            exists t', <[tid0 := t0]> (store s) !! tid = Some t' /\ t' = t).
  { intros tid0 t0 Hne. exists t. by rewrite lookup_insert_ne. }
  destruct l as [body rb uuid now | tid0 | tid0 d | tid0 info fname | tid0 exc];
    cbn in Hstep.
  - destruct (api_start_download _ _ _ _ _) as [[[resp tasks'] effs] | e] eqn:Hapi;
      [| injection Hstep as <-; eauto].
    destruct (forallb _ _) eqn:Hfresh; [| discriminate]. injection Hstep as <-. cbn.
    destruct (start_download_cases _ _ _ _ _ _ _ _ Hapi)
      as [(-> & _) | (target & -> & -> & _)]; [eauto |].
    cbn in Hfresh. rewrite andb_true_r in Hfresh. apply unused_None in Hfresh.
    destruct (Hother uuid (new_task target now)) as (t' & Ht' & ->); [congruence | eauto].
  - worker_at s tid0 Hth. unfold worker_begin in Hstep.
    destruct (store s !! tid0) as [t0 |] eqn:Hl0; injection Hstep as <-; cbn; [| eauto].
    destruct (decide (tid0 = tid)) as [-> | Hne].
    + rewrite Hl in Hl0. injection Hl0 as <-. rewrite lookup_insert_eq.
      eexists. split; [done |]. right. split; [done |]. left.
      specialize (Hc tid t Hl). rewrite Hth in Hc. by destruct Hc.
    + destruct (Hother tid0 (set_status downloading t0) Hne) as (t' & Ht' & ->). eauto.
  - worker_at s tid0 Hth.
    destruct (_update_progress (store s) tid0 d) as [tasks' | e] eqn:Hup;
      injection Hstep as <-; cbn.
    + destruct (update_progress_cases _ _ _ _ Hup)
        as [-> | (t0 & pct & Hl0 & _ & _ & _ & Hb & ->)]; [eauto |].
      destruct (decide (tid0 = tid)) as [-> | Hne].
      * rewrite Hl in Hl0. injection Hl0 as <-. rewrite lookup_insert_eq.
        eexists. split; [done |]. right. split; [done |]. right.
        specialize (Hc tid t Hl). rewrite Hth in Hc. split; [done |]. left. eauto.
      * destruct (Hother tid0 (set_progress pct t0) Hne) as (t' & Ht' & ->). eauto.
    + unfold worker_fail. destruct (store s !! tid0) as [t0 |] eqn:Hl0; [| eauto].
      destruct (decide (tid0 = tid)) as [-> | Hne].
      * rewrite Hl in Hl0. injection Hl0 as <-. rewrite lookup_insert_eq.
        eexists. split; [done |]. right. split; [done |]. right.
        specialize (Hc tid t Hl). rewrite Hth in Hc. split; [done |]. by right; right.
      * destruct (Hother tid0 (record_failure t0) Hne) as (t' & Ht' & ->). eauto.
  - worker_at s tid0 Hth. injection Hstep as <-. cbn. unfold worker_complete.
    destruct (store s !! tid0) as [t0 |] eqn:Hl0; [| eauto].
    destruct (decide (tid0 = tid)) as [-> | Hne].
    + rewrite Hl in Hl0. injection Hl0 as <-. rewrite lookup_insert_eq.
      eexists. split; [done |]. right. split; [done |]. right.
      specialize (Hc tid t Hl). rewrite Hth in Hc. split; [done |]. right; left. eauto.
    + destruct (Hother tid0 (record_download info fname t0) Hne) as (t' & Ht' & ->). eauto.
  - worker_at s tid0 Hth. injection Hstep as <-. cbn. unfold worker_fail.
    destruct (store s !! tid0) as [t0 |] eqn:Hl0; [| eauto].
    destruct (decide (tid0 = tid)) as [-> | Hne].
    + rewrite Hl in Hl0. injection Hl0 as <-. rewrite lookup_insert_eq.
      eexists. split; [done |]. right. split; [done |]. right.
      specialize (Hc tid t Hl). rewrite Hth in Hc. split; [done |]. by right; right.
    + destruct (Hother tid0 (record_failure t0) Hne) as (t' & Ht' & ->). eauto.
Qed.

(** The same over a run: the record stays, its url and creation time are the
    ones of the submission, its status has not moved backwards, and a record
    that was completed or failed is the same record. *)
Lemma run_effect (ls : list label) : forall (s s' : sys) (tid : string) (t : task),
  consistent s -> run s ls = Some s' -> store s !! tid = Some t ->
  exists t', store s' !! tid = Some t'
    /\ url t' = url t /\ created t' = created t
    /\ status_rank (status t) <= status_rank (status t')
    /\ (is_terminal (status t) = true -> t' = t).
Proof.
  induction ls as [| l ls IH]; intros s s' tid t Hc Hrun Hl; cbn in Hrun.
  - injection Hrun as <-. exists t. split; [done |]. split; [done |]. split; [done |].
    split; [lia | done].
  - destruct (sys_step s l) as [s1 |] eqn:Hstep; [| discriminate].
    destruct (step_effect _ _ _ _ _ Hc Hstep Hl) as (t1 & Hl1 & Hcase).
    destruct (IH s1 s' tid t1 (step_consistent _ _ _ Hc Hstep) Hrun Hl1)
      as (t' & Hl' & Hu & Hcr & Hrk & Hfin).
    exists t'. split; [done |].
    destruct Hcase as [-> | (_ & [(Hq & ->) | (Hd & [(p & _ & ->) | [(i & f & ->) | ->]])])];
      try done; destruct t as [st pr u cr fn fp ti er]; cbn in *; subst st;
      cbn in *; (split; [done |]); (split; [done |]); (split; [| done]); try lia.
    all: destruct (status t'); cbn in *; lia.
Qed.

(** ** The shape of a record *)

Lemma new_task_well_formed (target : json) (now : spec_float) :
  well_formed (new_task target now).
Proof. unfold well_formed. cbn. repeat split; lia. Qed.

Lemma begin_well_formed (t : task) :
  status t = queued -> well_formed t -> well_formed (set_status downloading t).
Proof.
  destruct t as [st pr u cr fn fp ti er]. unfold well_formed. cbn.
  intros -> (Hp & He & Hfn & Hfp & Hti). done.
Qed.

Lemma progress_well_formed (p : Z) (t : task) :
  status t = downloading -> 0 <= p <= 100 -> well_formed t ->
  well_formed (set_progress p t).
Proof.
  destruct t as [st pr u cr fn fp ti er]. unfold well_formed. cbn.
  intros -> Hp (_ & He & Hfn & Hfp & Hti). done.
Qed.

Lemma download_well_formed (info : option info_dict) (fname : string) (t : task) :
  status t = downloading -> well_formed t -> well_formed (record_download info fname t).
Proof.
  destruct t as [st pr u cr fn fp ti er]. unfold well_formed. cbn.
  intros -> (_ & He & _). split; [lia |]. split; [done |]. split; [done |]. eauto.
Qed.

Lemma failure_well_formed (t : task) :
  status t = downloading -> well_formed t -> well_formed (record_failure t).
Proof.
  destruct t as [st pr u cr fn fp ti er]. unfold well_formed. cbn.
  intros -> (Hp & He & Hfn & Hfp & Hti). done.
Qed.

Lemma step_well_formed (s s' : sys) (l : label) :
  consistent s -> all_well_formed s -> sys_step s l = Some s' -> all_well_formed s'.
Proof.
  intros Hc Hwf Hstep tid t' Hl'.
  destruct (store s !! tid) as [t |] eqn:Hl.
  - destruct (step_effect _ _ _ _ _ Hc Hstep Hl) as (t1 & Hl1 & Hcase).
    rewrite Hl' in Hl1. injection Hl1 as <-. specialize (Hwf tid t Hl).
    destruct Hcase as [-> | (_ & [(Hq & ->) | (Hd & [(p & Hp & ->) | [(i & f & ->) | ->]])])].
    + done.
    + by apply begin_well_formed.
    + by apply progress_well_formed.
    + by apply download_well_formed.
    + by apply failure_well_formed.
  - destruct l as [body rb uuid now | tid0 | tid0 d | tid0 info fname | tid0 exc];
      cbn in Hstep.
    + destruct (api_start_download _ _ _ _ _) as [[[resp tasks'] effs] | e] eqn:Hapi;
        [| injection Hstep as <-; congruence].
      destruct (forallb _ _); [| discriminate]. injection Hstep as <-. cbn in Hl'.
      destruct (start_download_cases _ _ _ _ _ _ _ _ Hapi)
        as [(-> & _) | (target & -> & -> & _)]; [congruence |].
      destruct (decide (uuid = tid)) as [-> | Hne].
      * rewrite lookup_insert_eq in Hl'. injection Hl' as <-. apply new_task_well_formed.
      * rewrite lookup_insert_ne in Hl' by done. congruence.
    + exfalso.
      worker_at s tid0 Hth. unfold worker_begin in Hstep.
      destruct (store s !! tid0) as [t0 |] eqn:Hl0; injection Hstep as <-; cbn in Hl';
        [| congruence].
      destruct (decide (tid0 = tid)) as [-> | Hne]; [congruence |].
      rewrite lookup_insert_ne in Hl' by done. congruence.
    + exfalso. worker_at s tid0 Hth.
      destruct (_update_progress (store s) tid0 d) as [tasks' | e] eqn:Hup;
        injection Hstep as <-; cbn in Hl'.
      * destruct (update_progress_cases _ _ _ _ Hup)
          as [-> | (t0 & pct & Hl0 & _ & _ & _ & Hb & ->)]; [congruence |].
        destruct (decide (tid0 = tid)) as [-> | Hne]; [congruence |].
        rewrite lookup_insert_ne in Hl' by done. congruence.
      * unfold worker_fail in Hl'. destruct (store s !! tid0) as [t0 |] eqn:Hl0; [| congruence].
        destruct (decide (tid0 = tid)) as [-> | Hne]; [congruence |].
        rewrite lookup_insert_ne in Hl' by done. congruence.
    + exfalso. worker_at s tid0 Hth. injection Hstep as <-. cbn in Hl'.
      unfold worker_complete in Hl'. destruct (store s !! tid0) as [t0 |] eqn:Hl0; [| congruence].
      destruct (decide (tid0 = tid)) as [-> | Hne]; [congruence |].
      rewrite lookup_insert_ne in Hl' by done. congruence.
    + exfalso. worker_at s tid0 Hth. injection Hstep as <-. cbn in Hl'.
      unfold worker_fail in Hl'. destruct (store s !! tid0) as [t0 |] eqn:Hl0; [| congruence].
      destruct (decide (tid0 = tid)) as [-> | Hne]; [congruence |].
      rewrite lookup_insert_ne in Hl' by done. congruence.
Qed.

Lemma run_well_formed (ls : list label) : forall s s',
  consistent s -> all_well_formed s -> run s ls = Some s' -> all_well_formed s'.
Proof.
  induction ls as [| l ls IH]; intros s s' Hc Hwf Hrun; cbn in Hrun.
  - by injection Hrun as <-.
  - destruct (sys_step s l) as [s1 |] eqn:Hstep; [| discriminate].
    eapply IH; [| | exact Hrun]; eauto using step_consistent, step_well_formed.
Qed.

Lemma reachable_well_formed (s : sys) : reachable s -> all_well_formed s.
Proof.
  intros (ls & Hrun). eapply run_well_formed; [apply init_consistent | | exact Hrun].
  intros tid t Hl. cbn in Hl. by rewrite lookup_empty in Hl.
Qed.

(** ** Records and workers *)





(** X2. Every record of a reachable state has the shape its status stands
    for: the progress is between 0 and 100; a completed record has progress
    100, a file path and the base name of that path as file name, and no
    error; a failed record carries the worker's fixed message and no file; a
    queued or downloading record has neither file, title nor error. *)
Theorem records_well_formed (s : sys) (tid : string) (t : task) :
  reachable s -> store s !! tid = Some t -> well_formed t.
Proof. intros Hr Hl. exact (reachable_well_formed s Hr tid t Hl). Qed.

Lemma records_well_formed_witness :
  well_formed (mkTask completed 100 (JStr "https://www.xiaohongshu.com/explore/1")
                 (S754_zero false) (Some "id-1_clip.mp4")
                 (Some "downloads_v2/id-1_clip.mp4") None None).
Proof.
  apply (records_well_formed (state_after sample_run) "id-1").
  - exists sample_run. vm_compute. reflexivity.
  - vm_compute. reflexivity.
Defined.

(** X3. One step moves the status of a stored task along
    queued, downloading, completed-or-failed and never otherwise: it stays,
    or goes from queued to downloading, or from downloading to completed or
    failed, and it changes only in a step of the task's own worker. *)
Theorem status_transitions (s s' : sys) (l : label) (tid : string) (t : task) :
  reachable s -> sys_step s l = Some s' -> store s !! tid = Some t ->
  exists t', store s' !! tid = Some t'
    /\ (status t' = status t
        \/ (worker_label_of l = Some tid
            /\ ((status t = queued /\ status t' = downloading)
                \/ (status t = downloading /\ is_terminal (status t') = true)))).
Proof.
  intros Hr Hstep Hl.
  destruct (step_effect _ _ _ _ _ (reachable_consistent s Hr) Hstep Hl)
    as (t' & Hl' & Hcase).
  exists t'. split; [done |].
  destruct Hcase as [-> | (Hw & [(Hq & ->) | (Hd & [(p & _ & ->) | [(i & f & ->) | ->]])])].
  - by left.
  - right. split; [done |]. left. by destruct t.
  - left. by destruct t.
  - right. split; [done |]. by right.
  - right. split; [done |]. by right.
Qed.

Lemma status_transitions_witness :
  exists t',
    store (state_after [sample_post; LBegin "id-1"]) !! "id-1" = Some t'
    /\ (status t' = queued
        \/ (worker_label_of (LBegin "id-1") = Some "id-1"
            /\ ((queued = queued /\ status t' = downloading)
                \/ (queued = downloading /\ is_terminal (status t') = true)))).
Proof.
  apply (status_transitions (state_after [sample_post])
           (state_after [sample_post; LBegin "id-1"]) (LBegin "id-1") "id-1"
           (new_task (JStr "https://www.xiaohongshu.com/explore/1") (S754_zero false))).
  - exists [sample_post]. vm_compute. reflexivity.
  - vm_compute. reflexivity.
  - vm_compute. reflexivity.
Defined.

(** X4. Along any run from a reachable state a record is never removed, its
    url and creation time stay those of the submission, and its status never
    moves backwards. *)
Theorem status_never_regresses (s s' : sys) (ls : list label) (tid : string) (t : task) :
  reachable s -> run s ls = Some s' -> store s !! tid = Some t ->
  exists t', store s' !! tid = Some t'
    /\ url t' = url t /\ created t' = created t
    /\ status_rank (status t) <= status_rank (status t').
Proof.
  intros Hr Hrun Hl.
  destruct (run_effect ls s s' tid t (reachable_consistent s Hr) Hrun Hl)
    as (t' & Hl' & Hu & Hc & Hrk & _).
  by exists t'.
Qed.

Lemma status_never_regresses_witness :
  exists t',
    store (state_after sample_run) !! "id-1" = Some t'
    /\ url t' = JStr "https://www.xiaohongshu.com/explore/1"
    /\ created t' = S754_zero false
    /\ 0 <= status_rank (status t').
Proof.
  apply (status_never_regresses (state_after [sample_post]) (state_after sample_run)
           [LBegin "id-1"; LHook "id-1" (estimate_event 50 100);
            LSaved "id-1" None "downloads_v2/id-1_clip.mp4"] "id-1"
           (new_task (JStr "https://www.xiaohongshu.com/explore/1") (S754_zero false))).
  - exists [sample_post]. vm_compute. reflexivity.
  - vm_compute. reflexivity.
  - vm_compute. reflexivity.
Defined.

(** X5. A record that is completed or failed is final: whatever the server
    does afterwards (submissions, other workers, late steps), the record
    stays as it is, and so do the answers of the status and the file
    endpoint for it. *)
Theorem terminal_record_is_final (s s' : sys) (ls : list label) (tid : string) (t : task)
    (exists_on_disk : string -> bool) :
  reachable s -> store s !! tid = Some t -> is_terminal (status t) = true ->
  run s ls = Some s' ->
  store s' !! tid = Some t
  /\ api_status (store s') tid = api_status (store s) tid
  /\ api_download_file (store s') exists_on_disk tid
     = api_download_file (store s) exists_on_disk tid.
Proof.
  intros Hr Hl Hterm Hrun.
  destruct (run_effect ls s s' tid t (reachable_consistent s Hr) Hrun Hl)
    as (t' & Hl' & _ & _ & _ & Hfin).
  rewrite (Hfin Hterm) in Hl'.
  unfold api_status, api_download_file. by rewrite Hl, Hl'.
Qed.

Lemma terminal_record_is_final_witness :
  store (state_after
    (sample_run ++
     [LPost (JDict [("url", JStr "http://xhslink.com/a/b")]) StillRunning "id-2"
            (S754_zero false);
      LBegin "id-2"; LFailed "id-2" ValueError])) !! "id-1"
  = Some (mkTask completed 100 (JStr "https://www.xiaohongshu.com/explore/1")
            (S754_zero false) (Some "id-1_clip.mp4")
            (Some "downloads_v2/id-1_clip.mp4") None None).
Proof.
  refine (proj1 (terminal_record_is_final (state_after sample_run)
           (state_after
              (sample_run ++
               [LPost (JDict [("url", JStr "http://xhslink.com/a/b")]) StillRunning "id-2"
                      (S754_zero false);
                LBegin "id-2"; LFailed "id-2" ValueError]))
           [LPost (JDict [("url", JStr "http://xhslink.com/a/b")]) StillRunning "id-2"
                  (S754_zero false);
            LBegin "id-2"; LFailed "id-2" ValueError]
           "id-1" _ (fun _ => true) _ _ _ _)).
  - exists sample_run. vm_compute. reflexivity.
  - vm_compute. reflexivity.
  - reflexivity.
  - vm_compute. reflexivity.
Defined.

(** X6. A step that is not a step of the worker of [tid] (a submission, or a
    step of another task's worker) leaves the record of [tid] as it is. *)
Theorem other_steps_leave_task (s s' : sys) (l : label) (tid : string) (t : task) :
  sys_step s l = Some s' -> worker_label_of l <> Some tid ->
  store s !! tid = Some t -> store s' !! tid = Some t.
Proof.
  intros Hstep Hw Hl.
  destruct l as [body rb uuid now | tid0 | tid0 d | tid0 info fname | tid0 exc];
    cbn in Hstep, Hw.
  - destruct (api_start_download _ _ _ _ _) as [[[resp tasks'] effs] | e] eqn:Hapi;
      [| by injection Hstep as <-].
    destruct (forallb _ _) eqn:Hfresh; [| discriminate]. injection Hstep as <-. cbn.
    destruct (start_download_cases _ _ _ _ _ _ _ _ Hapi)
      as [(-> & _) | (target & -> & -> & _)]; [done |].
    cbn in Hfresh. rewrite andb_true_r in Hfresh. apply unused_None in Hfresh.
    rewrite lookup_insert_ne; [done | congruence].
  - worker_at s tid0 Hth. unfold worker_begin in Hstep.
    destruct (store s !! tid0); injection Hstep as <-; cbn; [| done].
    rewrite lookup_insert_ne; [done | congruence].
  - worker_at s tid0 Hth.
    destruct (_update_progress (store s) tid0 d) as [tasks' | e] eqn:Hup;
      injection Hstep as <-; cbn.
    + destruct (update_progress_cases _ _ _ _ Hup)
        as [-> | (t0 & pct & _ & _ & _ & _ & _ & ->)]; [done |].
      rewrite lookup_insert_ne; [done | congruence].
    + unfold worker_fail. destruct (store s !! tid0); [| done].
      rewrite lookup_insert_ne; [done | congruence].
  - worker_at s tid0 Hth. injection Hstep as <-. cbn. unfold worker_complete.
    destruct (store s !! tid0); [| done]. rewrite lookup_insert_ne; [done | congruence].
  - worker_at s tid0 Hth. injection Hstep as <-. cbn. unfold worker_fail.
    destruct (store s !! tid0); [| done]. rewrite lookup_insert_ne; [done | congruence].
Qed.

Lemma other_steps_leave_task_witness :
  store (state_after (sample_run ++
           [LPost (JDict [("url", JStr "http://xhslink.com/a/b")]) StillRunning "id-2"
                  (S754_zero false)])) !! "id-1"
  = Some (mkTask completed 100 (JStr "https://www.xiaohongshu.com/explore/1")
            (S754_zero false) (Some "id-1_clip.mp4")
            (Some "downloads_v2/id-1_clip.mp4") None None).
Proof.
  apply (other_steps_leave_task (state_after sample_run) _
           (LPost (JDict [("url", JStr "http://xhslink.com/a/b")]) StillRunning "id-2"
                  (S754_zero false)) "id-1").
  - vm_compute. reflexivity.
  - discriminate.
  - vm_compute. reflexivity.
Defined.

(** ** The worker from start to end *)

Lemma run_hooks_frame (evs : list event) : forall (tasks : gmap string task)
    (tid other : string),
  other <> tid -> (run_hooks tasks tid evs).1 !! other = tasks !! other.
Proof.
  induction evs as [| d evs IH]; intros tasks tid other Hne; cbn; [done |].
  destruct (_update_progress tasks tid d) as [tasks' | e] eqn:Hup; [| done].
  rewrite IH by done.
  destruct (update_progress_cases _ _ _ _ Hup)
    as [-> | (t0 & pct & _ & _ & _ & _ & _ & ->)]; [done |].
  by rewrite lookup_insert_ne.
Qed.

(** X7. A worker whose task is stored always ends, with the task completed or
    failed and every other task as it was; the task is completed exactly when
    no progress hook raised and the collaborator saved a file. A worker whose
    task is not stored raises KeyError before its [try]. *)
Theorem worker_ends_terminal (tasks : gmap string task) (tid : string)
    (evs : list event) (out : download_outcome) :
  (tasks !! tid = None -> _download_background tasks tid evs out = Raise KeyError)
  /\ (forall t, tasks !! tid = Some t ->
        exists tasks' t',
          _download_background tasks tid evs out = Ok tasks'
          /\ tasks' !! tid = Some t'
          /\ is_terminal (status t') = true
          /\ (forall other, other <> tid -> tasks' !! other = tasks !! other)
          /\ (status t' = completed <->
              (run_hooks (<[tid := set_status downloading t]> tasks) tid evs).2 = None
              /\ exists info fname, out = Saved info fname)).
Proof.
  split.
  - intros Hl. unfold _download_background, worker_begin. by rewrite Hl.
  - intros t Hl.
    destruct (run_hooks_lookup evs (<[tid := set_status downloading t]> tasks) tid
                (set_status downloading t)) as (t2 & Hl2 & _); [apply lookup_insert_eq |].
    assert (Hfr : forall other, other <> tid ->
              (run_hooks (<[tid := set_status downloading t]> tasks) tid evs).1 !! other
              = tasks !! other).
    { intros other Hne. rewrite run_hooks_frame by done. by rewrite lookup_insert_ne. }
    unfold _download_background, worker_begin. rewrite Hl. cbn.
    destruct (run_hooks _ tid evs) as [tasks2 [e |]] eqn:Hrh; cbn in Hl2, Hfr |- *.
    + unfold worker_fail. rewrite Hl2. eexists _, _. split; [done |].
      split; [apply lookup_insert_eq |]. split; [done |]. split.
      * intros other Hne. rewrite lookup_insert_ne by done. by apply Hfr.
      * cbn. split; [done | by intros [? _]].
    + destruct out as [info fname | exc].
      * unfold worker_complete. rewrite Hl2. eexists _, _. split; [done |].
        split; [apply lookup_insert_eq |]. split; [done |]. split.
        -- intros other Hne. rewrite lookup_insert_ne by done. by apply Hfr.
        -- cbn. split; [eauto | done].
      * unfold worker_fail. rewrite Hl2. eexists _, _. split; [done |].
        split; [apply lookup_insert_eq |]. split; [done |]. split.
        -- intros other Hne. rewrite lookup_insert_ne by done. by apply Hfr.
        -- cbn. split; [done | by intros [_ (? & ? & ?)]].
Qed.

Lemma worker_ends_terminal_witness :
  _download_background ∅ "id-1" [estimate_event 50 100] (Saved None "a.mp4")
    = Raise KeyError
  /\ exists tasks' t',
       _download_background {["id-1" := new_task (JStr "u") (S754_zero false)]} "id-1"
         [estimate_event 50 100] (Saved None "downloads_v2/id-1_a.mp4") = Ok tasks'
       /\ tasks' !! "id-1" = Some t'
       /\ is_terminal (status t') = true.
Proof.
  split.
  - apply (proj1 (worker_ends_terminal ∅ "id-1" [estimate_event 50 100]
                    (Saved None "a.mp4"))).
    vm_compute. reflexivity.
  - destruct (proj2 (worker_ends_terminal
                       {["id-1" := new_task (JStr "u") (S754_zero false)]} "id-1"
                       [estimate_event 50 100] (Saved None "downloads_v2/id-1_a.mp4"))
                (new_task (JStr "u") (S754_zero false)))
      as (tasks' & t' & Hbg & Hl & Ht & _).
    + vm_compute. reflexivity.
    + exists tasks', t'. split; [exact Hbg |]. split; [exact Hl | exact Ht].
Defined.

(** X8. When no hook raises and the collaborator saves the file [fname], the
    worker leaves the task completed at 100 with [fname] as file path, its
    base name as file name and the descriptor's title; the status endpoint
    then reports exactly that, and the file endpoint sends [fname] under the
    base name if the file is on disk (404 if it is not, or if the collaborator
    reported an empty name). *)
Theorem completed_download_is_served (tasks : gmap string task) (tid : string) (t : task)
    (evs : list event) (info : option info_dict) (fname : string)
    (exists_on_disk : string -> bool) :
  tasks !! tid = Some t ->
  (run_hooks (<[tid := set_status downloading t]> tasks) tid evs).2 = None ->
  exists tasks',
    _download_background tasks tid evs (Saved info fname) = Ok tasks'
    /\ tasks' !! tid
       = Some (mkTask completed 100 (url t) (created t) (Some (basename fname))
                      (Some fname) (info ≫= i_title) (error t))
    /\ api_status tasks' tid
       = Jsonify 200 (JDict [("status", JStr "completed");
                             ("progress", JNum (PyInt 100));
                             ("filename", JStr (basename fname));
                             ("title", json_of_str (info ≫= i_title))])
    /\ api_download_file tasks' exists_on_disk tid
       = if negb (String.eqb fname "") && exists_on_disk fname
         then SendFile fname (Some (basename fname))
         else Jsonify 404 (error_body "file missing").
Proof.
  intros Hl Hok.
  destruct (run_hooks_lookup evs (<[tid := set_status downloading t]> tasks) tid
              (set_status downloading t)) as (t2 & Hl2 & Hs); [apply lookup_insert_eq |].
  destruct Hs as (_ & Hu & Hc & _ & _ & _ & Her).
  unfold _download_background, worker_begin. rewrite Hl. cbn.
  destruct (run_hooks _ tid evs) as [tasks2 [e |]] eqn:Hrh; cbn in Hok, Hl2; [done |].
  unfold worker_complete. rewrite Hl2. eexists. split; [done |].
  unfold api_status, api_download_file. rewrite !lookup_insert_eq.
  unfold record_download. rewrite Hu, Hc, Her. destruct t; cbn. done.
Qed.

Lemma completed_download_is_served_witness :
  exists tasks',
    _download_background {["id-1" := new_task (JStr "u") (S754_zero false)]} "id-1"
      [estimate_event 50 100] (Saved None "downloads_v2/id-1_a.mp4") = Ok tasks'
    /\ api_download_file tasks' (fun _ => true) "id-1"
       = SendFile "downloads_v2/id-1_a.mp4" (Some "id-1_a.mp4").
Proof.
  destruct (completed_download_is_served
              {["id-1" := new_task (JStr "u") (S754_zero false)]} "id-1"
              (new_task (JStr "u") (S754_zero false)) [estimate_event 50 100] None
              "downloads_v2/id-1_a.mp4" (fun _ => true))
    as (tasks' & Hbg & _ & _ & Hfile).
  - vm_compute. reflexivity.
  - vm_compute. reflexivity.
  - exists tasks'. split; [exact Hbg | exact Hfile].
Defined.

(** ** File names *)

Lemma append_nil (b : string) : "" +:+ b = b.
Proof. reflexivity. Qed.

Lemma append_cons (c : Ascii.ascii) (a b : string) : String c a +:+ b = String c (a +:+ b).
Proof. reflexivity. Qed.

Lemma has_slash_app (a b : string) : has_slash (a +:+ b) = has_slash a || has_slash b.
Proof.
  induction a as [| c a IH]; [done |].
  rewrite append_cons. simpl. by rewrite IH, orb_assoc.
Qed.

Lemma basename_no_slash (s : string) : has_slash (basename s) = false.
Proof.
  induction s as [| c s IH]; simpl; [done |].
  destruct (has_slash s) eqn:Hs; [done |].
  destruct (Ascii.eqb c slash) eqn:Hc; [done |]. simpl. by rewrite Hc, Hs.
Qed.

Lemma basename_plain (s : string) : has_slash s = false -> basename s = s.
Proof.
  destruct s as [| c s]; simpl; [done |]. intros H. apply orb_false_elim in H as [Hc Hs].
  by rewrite Hs, Hc.
Qed.

Lemma basename_join (dir name : string) :
  has_slash name = false -> basename (dir +:+ String slash name) = name.
Proof.
  intros Hn. induction dir as [| c dir IH].
  - rewrite append_nil. simpl. by rewrite Hn.
  - rewrite append_cons. simpl. rewrite has_slash_app. simpl. by rewrite orb_true_r.
Qed.

Lemma basename_suffix (s : string) :
  exists dir, s = dir +:+ basename s
    /\ (dir = "" \/ exists d, dir = d +:+ String slash "").
Proof.
  induction s as [| c s (dir & Heq & Hdir)]; [exists ""; by split; [| left] |].
  simpl. destruct (has_slash s) eqn:Hs.
  - exists (String c dir). split; [rewrite append_cons; f_equal; exact Heq |]. right.
    destruct Hdir as [-> | (d & ->)].
    + exfalso. rewrite append_nil in Heq. rewrite Heq, basename_no_slash in Hs. done.
    + by exists (String c d).
  - destruct (Ascii.eqb c slash) eqn:Hc.
    + apply Ascii.eqb_eq in Hc as ->. exists (String slash ""). split; [done |].
      right. by exists "".
    + exists "". split; [done | by left].
Qed.

(** X9. [os.path.basename] as the worker uses it for the file name: the
    result never contains a slash and is what follows the last slash of the
    path, so a path without slash is its own base name and
    [dir + "/" + name] has base name [name] when [name] has no slash. *)
Theorem basename_spec (s : string) :
  has_slash (basename s) = false
  /\ (exists dir, s = dir +:+ basename s
        /\ (dir = "" \/ exists d, dir = d +:+ String slash ""))
  /\ (has_slash s = false -> basename s = s)
  /\ (forall dir, has_slash s = false -> basename (dir +:+ String slash s) = s).
Proof.
  split; [apply basename_no_slash |]. split; [apply basename_suffix |].
  split; [apply basename_plain |]. intros dir H. by apply basename_join.
Qed.

Lemma basename_spec_witness :
  basename "id-1_clip.mp4" = "id-1_clip.mp4"
  /\ basename ("downloads_v2" +:+ String slash "id-1_clip.mp4") = "id-1_clip.mp4".
Proof.
  split.
  - apply (proj1 (proj2 (proj2 (basename_spec "id-1_clip.mp4")))). reflexivity.
  - apply (proj2 (proj2 (proj2 (basename_spec "id-1_clip.mp4"))) "downloads_v2").
    reflexivity.
Defined.

(** ** The output template *)

Lemma split_slash_plain (s : string) : has_slash s = false -> split_slash s = [s].
Proof.
  induction s as [| c s IH]; simpl; [done |]. intros H. apply orb_false_elim in H as [Hc Hs].
  by rewrite Hc, IH.
Qed.

Lemma split_slash_app (a b : string) :
  has_slash a = false ->
  split_slash (a +:+ String slash b) = a :: split_slash b.
Proof.
  induction a as [| c a IH]; [done |].
  rewrite append_cons. simpl. intros H. apply orb_false_elim in H as [Hc Hs].
  by rewrite Hc, IH.
Qed.

Lemma append_length (a b : string) :
  String.length (a +:+ b) = (String.length a + String.length b)%nat.
Proof. induction a as [| c a IH]; [done |]. rewrite append_cons. simpl. by rewrite IH. Qed.

Lemma append_inv_tail (a b suf : string) : a +:+ suf = b +:+ suf -> a = b.
Proof.
  revert b. induction a as [| c a IH]; intros [| d b] H;
    rewrite ?append_nil, ?append_cons in H.
  - done.
  - exfalso. apply (f_equal String.length) in H. simpl in H. rewrite append_length in H. lia.
  - exfalso. apply (f_equal String.length) in H. simpl in H. rewrite append_length in H. lia.
  - injection H as -> H. f_equal. by apply IH.
Qed.

Lemma template_name_plain (task_id : string) :
  has_slash task_id = false ->
  has_slash (task_id +:+ template_suffix) = false
  /\ starts_with_slash (task_id +:+ template_suffix) = false
  /\ String.eqb (task_id +:+ template_suffix) "" = false
  /\ String.eqb (task_id +:+ template_suffix) "." = false.
Proof.
  intros H. split; [by rewrite has_slash_app, H |]. split.
  - destruct task_id as [| c r]; [done |]. rewrite append_cons. simpl in *.
    by apply orb_false_elim in H as [-> _].
  - split; apply String.eqb_neq; intros Heq; apply (f_equal String.length) in Heq;
      rewrite append_length in Heq; simpl in Heq; lia.
Qed.

Lemma out_template_plain (task_id : string) :
  has_slash task_id = false ->
  out_template task_id = in_folder (task_id +:+ template_suffix).
Proof.
  intros H. destruct (template_name_plain task_id H) as (Hs & Hst & He & Hd).
  unfold out_template, path_div, posix_join. rewrite Hst.
  change (String.eqb download_folder "" || ends_with_slash download_folder) with false.
  cbv iota. unfold path_str, posix_parts.
  rewrite split_slash_app by done. rewrite split_slash_plain by done.
  change (posix_root (download_folder +:+ String slash (task_id +:+ template_suffix)))
    with "".
  rewrite filter_cons_True by done.
  rewrite filter_cons_True by (by rewrite He, Hd).
  rewrite filter_nil. done.
Qed.

(** X10. For a task id without slash (a uuid is hex digits and hyphens) the
    output template is "downloads_v2/<id>_%(title)s.%(ext)s": the file the
    collaborator writes lies in the download folder, its name starts with the
    task id, and two different task ids never share a template. *)
Theorem out_template_spec (task_id : string) :
  has_slash task_id = false ->
  out_template task_id = "downloads_v2/" +:+ task_id +:+ "_%(title)s.%(ext)s"
  /\ basename (out_template task_id) = task_id +:+ "_%(title)s.%(ext)s"
  /\ (forall other, has_slash other = false ->
        out_template other = out_template task_id -> other = task_id).
Proof.
  intros H. destruct (template_name_plain task_id H) as (Hs & _).
  rewrite out_template_plain by done. split; [done |]. split.
  - unfold in_folder. by rewrite basename_join.
  - intros other Ho Heq. rewrite out_template_plain in Heq by done.
    unfold in_folder in Heq. simpl in Heq. injection Heq as Heq.
    by apply append_inv_tail in Heq.
Qed.

Lemma out_template_spec_witness :
  out_template "3f2b-77" = "downloads_v2/3f2b-77_%(title)s.%(ext)s"
  /\ basename (out_template "3f2b-77") = "3f2b-77_%(title)s.%(ext)s".
Proof.
  destruct (out_template_spec "3f2b-77") as (H1 & H2 & _); [reflexivity |].
  split; [exact H1 | exact H2].
Defined.

(** ** Requests the handler does not answer *)

(** X11. The POST handler lets an exception escape in two cases only, and
    then changes nothing: AttributeError when the JSON body is truthy but
    not an object (a non-empty array or string, a non-zero number, true),
    TypeError when the body is an object whose url is a truthy number or
    boolean. Every other request is answered. *)
Theorem start_download_exceptions (tasks : gmap string task) (body : json)
    (rb : resolve_behaviour) (uuid : string) (now : spec_float) :
  (forall e, api_start_download tasks body rb uuid now = Raise e ->
     e = AttributeError \/ e = TypeError)
  /\ (api_start_download tasks body rb uuid now = Raise AttributeError <->
      json_truthy body = true /\ forall items, body <> JDict items)
  /\ (api_start_download tasks body rb uuid now = Raise TypeError <->
      exists items, body = JDict items
        /\ ((exists n, assoc_get "url" items = Some (JNum n) /\ num_truthy n = true)
            \/ assoc_get "url" items = Some (JBool true)))
  /\ (forall e (s : sys), store s = tasks ->
        api_start_download tasks body rb uuid now = Raise e ->
        sys_step s (LPost body rb uuid now) = Some s).
Proof.
  assert (Hdict : forall items,
    (forall e, api_start_download tasks (JDict items) rb uuid now = Raise e -> e = TypeError)
    /\ (api_start_download tasks (JDict items) rb uuid now = Raise TypeError <->
        ((exists n, assoc_get "url" items = Some (JNum n) /\ num_truthy n = true)
         \/ assoc_get "url" items = Some (JBool true)))).
  { intros items. unfold api_start_download.
    assert (Hget : forall k, json_get (if json_truthy (JDict items) then JDict items
                                       else JDict []) k
                   = Ok (default JNull (assoc_get k items))).
    { intros k. by destruct items. }
    rewrite !Hget. cbn.
    destruct (assoc_get "url" items) as [[| [|] | n | u | l | kv] |]; cbn.
    - split; [done |]. split; [done | by intros [(n & ? & _) | ?]].
    - split; [by intros e [= <-] |]. split; [by right | done].
    - split; [done |]. split; [done | by intros [(n & ? & _) | ?]].
    - destruct (num_truthy n) eqn:Hn; cbn.
      + split; [by intros e [= <-] |]. split; [left; eauto | done].
      + split; [done |]. split; [done |].
        intros [(n' & [= <-] & Hn') | ?]; [congruence | done].
    - destruct (negb (String.eqb u "")); cbn.
      + destruct (str_contains "xiaohongshu.com" u); cbn;
          [split; [done |]; split; [done | by intros [(n & ? & _) | ?]] |].
        destruct (str_contains "xhslink.com" u); cbn;
          split; try done; split; try done; by intros [(n & ? & _) | ?].
      + split; [done |]. split; [done | by intros [(n & ? & _) | ?]].
    - destruct l as [| x l]; cbn;
        [split; [done |]; split; [done | by intros [(n & ? & _) | ?]] |].
      destruct (json_is_str x "xiaohongshu.com" || existsb _ l); cbn;
        [split; [done |]; split; [done | by intros [(n & ? & _) | ?]] |].
      destruct (json_is_str x "xhslink.com" || existsb _ l); cbn;
        split; try done; split; try done; by intros [(n & ? & _) | ?].
    - destruct kv as [| x kv]; cbn;
        [split; [done |]; split; [done | by intros [(n & ? & _) | ?]] |].
      destruct (String.eqb x.1 "xiaohongshu.com" || existsb _ kv); cbn;
        [split; [done |]; split; [done | by intros [(n & ? & _) | ?]] |].
      destruct (String.eqb x.1 "xhslink.com" || existsb _ kv); cbn;
        split; try done; split; try done; by intros [(n & ? & _) | ?].
    - split; [done |]. split; [done | by intros [(n & ? & _) | ?]]. }
  assert (Hnd : (forall items, body <> JDict items) ->
            api_start_download tasks body rb uuid now
            = if json_truthy body then Raise AttributeError
              else Ok (Jsonify 400 (error_body "url is required"), tasks, [])).
  { intros Hnd. unfold api_start_download.
    destruct (json_truthy body); [| done].
    destruct body; try done. by destruct (Hnd items). }
  assert (Hshape : (exists items, body = JDict items) \/ forall items, body <> JDict items).
  { destruct body; eauto. }
  split; [| split; [| split]].
  - intros e He. destruct Hshape as [(items & ->) | Hno].
    + right. by apply (proj1 (Hdict items)).
    + rewrite (Hnd Hno) in He. destruct (json_truthy body); [left; congruence | done].
  - split.
    + intros He. destruct Hshape as [(items & ->) | Hno].
      * by apply (proj1 (Hdict items)) in He.
      * rewrite (Hnd Hno) in He. by destruct (json_truthy body).
    + intros [Ht Hno]. by rewrite (Hnd Hno), Ht.
  - split.
    + intros He. destruct Hshape as [(items & ->) | Hno].
      * exists items. split; [done |]. by apply (proj1 (proj2 (Hdict items))).
      * rewrite (Hnd Hno) in He. by destruct (json_truthy body).
    + intros (items & -> & H). by apply (proj2 (proj2 (Hdict items))).
  - intros e s <- He. cbn. by rewrite He.
Qed.

Lemma start_download_exceptions_witness :
  api_start_download ∅ (JList [JStr "https://www.xiaohongshu.com/explore/1"])
    StillRunning "id-1" (S754_zero false) = Raise AttributeError
  /\ api_start_download ∅ (JDict [("url", JNum (PyInt 7))])
       StillRunning "id-1" (S754_zero false) = Raise TypeError.
Proof.
  split.
  - apply (proj2 (proj1 (proj2 (start_download_exceptions ∅
             (JList [JStr "https://www.xiaohongshu.com/explore/1"])
             StillRunning "id-1" (S754_zero false))))).
    split; [reflexivity | discriminate].
  - apply (proj2 (proj1 (proj2 (proj2 (start_download_exceptions ∅
             (JDict [("url", JNum (PyInt 7))])
             StillRunning "id-1" (S754_zero false)))))).
    exists [("url", JNum (PyInt 7))]. split; [reflexivity |]. left.
    exists (PyInt 7). split; reflexivity.
Defined.

(** ** A url that is not a string *)

Lemma json_is_str_spec (x : json) (s : string) : json_is_str x s = true <-> x = JStr s.
Proof.
  destruct x; cbn; try (split; [discriminate | discriminate]).
  rewrite String.eqb_eq. split; congruence.
Qed.

Lemma existsb_is_str (needle : string) (l : list json) :
  existsb (fun x => json_is_str x needle) l = true <-> JStr needle ∈ l.
Proof.
  rewrite existsb_exists. split.
  - intros (x & Hin & Hx). apply json_is_str_spec in Hx as ->. by apply list_elem_of_In.
  - intros Hin. exists (JStr needle). split; [by apply list_elem_of_In |].
    by apply json_is_str_spec.
Qed.

(** X12. A url given as a JSON array is checked by membership, not by
    substring: the request passes the allow-list exactly when an element of
    the array is the string "xiaohongshu.com" or the string "xhslink.com"
    itself. An array holding a full note url is rejected with 400, and an
    accepted array goes on as the url of the job. *)
Theorem array_url_by_membership (tasks : gmap string task)
    (items : list (string * json)) (l : list json) (rb : resolve_behaviour)
    (uuid : string) (now : spec_float) :
  assoc_get "url" items = Some (JList l) -> l <> [] ->
  ((JStr "xiaohongshu.com" ∉ l) /\ (JStr "xhslink.com" ∉ l) ->
     api_start_download tasks (JDict items) rb uuid now
       = Ok (Jsonify 400 (error_body "invalid rednote url"), tasks, []))
  /\ ((JStr "xiaohongshu.com" ∈ l) \/ (JStr "xhslink.com" ∈ l) ->
      api_start_download tasks (JDict items) rb uuid now
        = Ok (dispatch tasks (JList l) (default JNull (assoc_get "mode" items))
                rb uuid now)
      /\ (assoc_get "mode" items = None ->
          api_start_download tasks (JDict items) rb uuid now
            = Ok (Jsonify 200 (JDict [("task_id", JStr uuid)]),
                  <[uuid := new_task (JList l) now]> tasks,
                  [TaskInsert uuid (new_task (JList l) now);
                   ThreadStart uuid (JList l)]))).
Proof.
  intros Hu Hne.
  assert (Hit : json_truthy (JDict items) = true) by (by destruct items).
  unfold api_start_download. rewrite Hit. cbn [json_get mbind]. rewrite Hu.
  destruct l as [| x l']; [done |].
  cbn -[existsb dispatch].
  pose proof (existsb_is_str "xiaohongshu.com" (x :: l')) as H1.
  pose proof (existsb_is_str "xhslink.com" (x :: l')) as H2.
  destruct (existsb _ (x :: l')) eqn:E1; cbn -[existsb dispatch].
  - split; [intros [Hn _]; destruct Hn; by apply H1 |].
    intros _. split; [done |]. intros ->. done.
  - destruct (existsb (fun x => json_is_str x "xhslink.com") (x :: l')) eqn:E2;
      cbn -[existsb dispatch].
    + split; [intros [_ Hn]; destruct Hn; by apply H2 |].
      intros _. split; [done |]. intros ->. done.
    + split; [done |]. intros [Hin | Hin]; [apply H1 in Hin | apply H2 in Hin]; done.
Qed.

Lemma array_url_by_membership_witness :
  api_start_download ∅
    (JDict [("url", JList [JStr "https://www.xiaohongshu.com/explore/1"])])
    StillRunning "id-1" (S754_zero false)
    = Ok (Jsonify 400 (error_body "invalid rednote url"), ∅, [])
  /\ api_start_download ∅ (JDict [("url", JList [JStr "xhslink.com"])])
       StillRunning "id-1" (S754_zero false)
     = Ok (Jsonify 200 (JDict [("task_id", JStr "id-1")]),
           <["id-1" := new_task (JList [JStr "xhslink.com"]) (S754_zero false)]> ∅,
           [TaskInsert "id-1" (new_task (JList [JStr "xhslink.com"]) (S754_zero false));
            ThreadStart "id-1" (JList [JStr "xhslink.com"])]).
Proof.
  split.
  - apply (proj1 (array_url_by_membership ∅
             [("url", JList [JStr "https://www.xiaohongshu.com/explore/1"])]
             [JStr "https://www.xiaohongshu.com/explore/1"]
             StillRunning "id-1" (S754_zero false) eq_refl ltac:(discriminate))).
    split; intros H; apply list_elem_of_singleton in H; discriminate.
  - apply (proj2 (proj2 (array_url_by_membership ∅
             [("url", JList [JStr "xhslink.com"])] [JStr "xhslink.com"]
             StillRunning "id-1" (S754_zero false) eq_refl ltac:(discriminate))
             ltac:(right; apply list_elem_of_singleton; reflexivity))).
    reflexivity.
Defined.

(** ** The status handler among running workers *)

Lemma api_status_reads_same (tasks : gmap string task) (tid : string) :
  api_status_reads tasks tasks tasks tasks tasks tasks tid = api_status tasks tid.
Proof.
  unfold api_status_reads, api_status. destruct (tasks !! tid) as [t |]; [| done].
  done.
Qed.

(** A record read at two points of a run. *)
Lemma run_reads (s s' : sys) (ls : list label) (tid : string) (t : task) :
  reachable s -> run s ls = Some s' -> store s !! tid = Some t ->
  reachable s'
  /\ exists t', store s' !! tid = Some t'
       /\ well_formed t'
       /\ status_rank (status t) <= status_rank (status t')
       /\ (is_terminal (status t) = true -> t' = t).
Proof.
  intros Hr Hrun Hl.
  assert (Hr' : reachable s').
  { destruct Hr as (l0 & Hl0). exists (l0 ++ ls). by rewrite (run_app _ _ _ _ Hl0). }
  split; [done |].
  destruct (run_effect ls s s' tid t (reachable_consistent s Hr) Hrun Hl)
    as (t' & Hl' & _ & _ & Hrk & Hfin).
  exists t'. split; [done |]. split; [| done].
  exact (reachable_well_formed s' Hr' tid t' Hl').
Qed.

Lemma run_leaves_task (ls : list label) : forall (s s' : sys) (tid : string) (t : task),
  consistent s -> Forall (fun l => worker_label_of l <> Some tid) ls ->
  run s ls = Some s' -> store s !! tid = Some t -> store s' !! tid = Some t.
Proof.
  induction ls as [| l ls IH]; intros s s' tid t Hc Hall Hrun Hl; cbn in Hrun.
  - by injection Hrun as <-.
  - destruct (sys_step s l) as [s1 |] eqn:Hstep; [| discriminate].
    apply Forall_cons in Hall as [Hl0 Hall].
    destruct (step_effect _ _ _ _ _ Hc Hstep Hl) as (t1 & Hl1 & [-> | (Hw & _)]); [| done].
    eapply IH; [| exact Hall | exact Hrun | exact Hl1]. by eapply step_consistent.
Qed.

Lemma status_answer_same (t : task) :
  status_answer t t t t t =
    Jsonify 200 (JDict (let resp := [("status", JStr (status_str (status t)));
                                     ("progress", JNum (PyInt (progress t)));
                                     ("filename", json_of_str (filename t));
                                     ("title", json_of_str (title t))] in
                        if is_failed (status t)
                        then resp ++ [("error", JStr status_error_message)]
                        else resp)).
Proof. unfold status_answer. by destruct (is_failed (status t)). Qed.

Lemma well_formed_filename (t : task) (name : string) :
  well_formed t -> filename t = Some name ->
  status t = completed /\ has_slash name = false.
Proof.
  intros [_ Hwf] Hfn. destruct (status t).
  - destruct Hwf as (_ & Hn & _). congruence.
  - destruct Hwf as (_ & Hn & _). congruence.
  - destruct Hwf as (_ & _ & path & _ & Hn). split; [done |].
    rewrite Hfn in Hn. injection Hn as ->. apply basename_no_slash.
  - destruct Hwf as (_ & Hn & _). congruence.
Qed.

Lemma well_formed_title (t : task) :
  well_formed t -> status t <> completed -> title t = None.
Proof.
  intros [_ Hwf] Hst. destruct (status t); [| | done |]; by destruct Hwf as (_ & _ & _ & ?).
Qed.

(** X13. The status endpoint while workers run: it looks the record up
    once, then reads status, progress, filename, title and the status again,
    and the worker may write between any two reads. In a reachable state it
    answers 404 for an id without record and otherwise 200 with the keys
    status, progress, filename, title in that order, followed at most by the
    key error. The progress is between 0 and 100 and a file name has no
    directory part. An answer whose status is completed has progress 100, a
    file name and no error; one whose status is failed has the error; one
    with the error has neither file name nor title. If the record was
    completed or failed at the lookup, or no statement of its worker runs
    during the request, the answer is the one computed from the record at the
    lookup. *)
Theorem status_answer_shape (s s0 s1 s2 s3 s4 : sys) (l0 l1 l2 l3 l4 : list label)
    (tid : string) :
  reachable s ->
  run s l0 = Some s0 -> run s0 l1 = Some s1 -> run s1 l2 = Some s2 ->
  run s2 l3 = Some s3 -> run s3 l4 = Some s4 ->
  (store s !! tid = None ->
     api_status_reads (store s) (store s0) (store s1) (store s2) (store s3) (store s4) tid
       = Jsonify 404 (error_body "not found"))
  /\ (forall t, store s !! tid = Some t ->
        exists (st : task_status) (p : Z) (fn ti : option string)
               (extra : list (string * json)),
          api_status_reads (store s) (store s0) (store s1) (store s2) (store s3)
            (store s4) tid
            = Jsonify 200 (JDict ([("status", JStr (status_str st));
                                   ("progress", JNum (PyInt p));
                                   ("filename", json_of_str fn);
                                   ("title", json_of_str ti)] ++ extra))
          /\ 0 <= p <= 100
          /\ status_rank (status t) <= status_rank st
          /\ (extra = [] \/ extra = [("error", JStr status_error_message)])
          /\ (forall name, fn = Some name -> has_slash name = false)
          /\ (st = completed -> p = 100 /\ extra = [] /\ fn <> None)
          /\ (st = failed -> extra = [("error", JStr status_error_message)])
          /\ (extra = [("error", JStr status_error_message)] -> fn = None /\ ti = None)
          /\ (is_terminal (status t) = true
              \/ Forall (fun l => worker_label_of l <> Some tid)
                   (l0 ++ l1 ++ l2 ++ l3 ++ l4) ->
              api_status_reads (store s) (store s0) (store s1) (store s2) (store s3)
                (store s4) tid
              = api_status (store s) tid)).
Proof.
  intros Hr H0 H1 H2 H3 H4. split.
  { intros Hl. unfold api_status_reads. by rewrite Hl. }
  intros t Hl.
  destruct (run_reads s s0 l0 tid t Hr H0 Hl) as (Hr0 & t0 & Hl0 & Hw0 & Hk0 & Hf0).
  destruct (run_reads s0 s1 l1 tid t0 Hr0 H1 Hl0) as (Hr1 & t1 & Hl1 & Hw1 & Hk1 & Hf1).
  destruct (run_reads s1 s2 l2 tid t1 Hr1 H2 Hl1) as (Hr2 & t2 & Hl2 & Hw2 & Hk2 & Hf2).
  destruct (run_reads s2 s3 l3 tid t2 Hr2 H3 Hl2) as (Hr3 & t3 & Hl3 & Hw3 & Hk3 & Hf3).
  destruct (run_reads s3 s4 l4 tid t3 Hr3 H4 Hl3) as (Hr4 & t4 & Hl4 & Hw4 & Hk4 & Hf4).
  assert (Hans : api_status_reads (store s) (store s0) (store s1) (store s2) (store s3)
                   (store s4) tid = status_answer t0 t1 t2 t3 t4).
  { unfold api_status_reads. by rewrite Hl, Hl0, Hl1, Hl2, Hl3, Hl4. }
  assert (Hterm : forall a b : task, is_terminal (status a) = true -> b = a ->
                    is_terminal (status b) = true) by (by intros a b Ha ->).
  assert (Hfinal : is_terminal (status t0) = true ->
                   t1 = t0 /\ t2 = t0 /\ t3 = t0 /\ t4 = t0).
  { intros Ht0. pose proof (Hf1 Ht0) as ->. pose proof (Hf2 Ht0) as ->.
    pose proof (Hf3 Ht0) as ->. pose proof (Hf4 Ht0) as ->. done. }
  exists (status t0), (progress t1), (filename t2), (title t3),
         (if is_failed (status t4) then [("error", JStr status_error_message)] else []).
  split.
  { rewrite Hans. unfold status_answer. by destruct (is_failed (status t4)). }
  split; [apply Hw1 |]. split; [done |].
  split; [destruct (is_failed (status t4)); auto |].
  split; [intros name Hfn; by apply (well_formed_filename t2 name Hw2) |].
  split.
  { intros Hc. destruct Hfinal as (-> & -> & -> & ->); [by rewrite Hc |].
    rewrite Hc. destruct Hw0 as [_ Hw0]. rewrite Hc in Hw0.
    destruct Hw0 as (H100 & _ & path & _ & Hfn). split; [done |]. split; [done |].
    by rewrite Hfn. }
  split.
  { intros Hc. destruct Hfinal as (_ & _ & _ & ->); [by rewrite Hc |]. by rewrite Hc. }
  split.
  { intros Hex. assert (Hst4 : status t4 = failed).
    { destruct (status t4); try done. }
    split.
    - destruct (filename t2) as [name |] eqn:Hfn; [| done]. exfalso.
      destruct (well_formed_filename t2 name Hw2 Hfn) as [Hc _].
      assert (t3 = t2) as -> by (apply Hf3; by rewrite Hc).
      assert (t4 = t2) as -> by (apply Hf4; by rewrite Hc). congruence.
    - apply (well_formed_title t3 Hw3). intros Hc.
      assert (t4 = t3) as -> by (apply Hf4; by rewrite Hc). congruence. }
  intros Hsame.
  assert (Hall : t0 = t /\ t1 = t /\ t2 = t /\ t3 = t /\ t4 = t).
  { destruct Hsame as [Ht | Hno].
    - pose proof (Hf0 Ht) as ->. destruct (Hfinal Ht) as (-> & -> & -> & ->). done.
    - apply Forall_app in Hno as [Hn0 Hno]. apply Forall_app in Hno as [Hn1 Hno].
      apply Forall_app in Hno as [Hn2 Hno]. apply Forall_app in Hno as [Hn3 Hn4].
      pose proof (run_leaves_task l0 s s0 tid t (reachable_consistent s Hr) Hn0 H0 Hl) as E0.
      pose proof (run_leaves_task l1 s0 s1 tid t (reachable_consistent s0 Hr0) Hn1 H1 E0) as E1.
      pose proof (run_leaves_task l2 s1 s2 tid t (reachable_consistent s1 Hr1) Hn2 H2 E1) as E2.
      pose proof (run_leaves_task l3 s2 s3 tid t (reachable_consistent s2 Hr2) Hn3 H3 E2) as E3.
      pose proof (run_leaves_task l4 s3 s4 tid t (reachable_consistent s3 Hr3) Hn4 H4 E3) as E4.
      repeat split; congruence. }
  destruct Hall as (-> & -> & -> & -> & ->).
  rewrite Hans, status_answer_same. unfold api_status. rewrite Hl.
  by destruct (is_failed (status t)).
Qed.

(** A request that overlaps the end of a download: the status is read while
    the worker is in the collaborator call, the other values after it has
    stored the result. *)
Example status_read_race :
  api_status_reads (store (state_after [sample_post; LBegin "id-1"]))
    (store (state_after [sample_post; LBegin "id-1"]))
    (store (state_after sample_run)) (store (state_after sample_run))
    (store (state_after sample_run)) (store (state_after sample_run)) "id-1"
  = Jsonify 200 (JDict [("status", JStr "downloading"); ("progress", JNum (PyInt 100));
                        ("filename", JStr "id-1_clip.mp4"); ("title", JNull)]).
Proof. by vm_compute. Qed.

Lemma status_answer_shape_witness :
  exists (st : task_status) (p : Z) (fn ti : option string) (extra : list (string * json)),
    api_status_reads (store (state_after [sample_post; LBegin "id-1"]))
      (store (state_after [sample_post; LBegin "id-1"]))
      (store (state_after sample_run)) (store (state_after sample_run))
      (store (state_after sample_run)) (store (state_after sample_run)) "id-1"
    = Jsonify 200 (JDict ([("status", JStr (status_str st));
                           ("progress", JNum (PyInt p));
                           ("filename", json_of_str fn);
                           ("title", json_of_str ti)] ++ extra))
    /\ 0 <= p <= 100
    /\ (extra = [] \/ extra = [("error", JStr status_error_message)]).
Proof.
  destruct (status_answer_shape
              (state_after [sample_post; LBegin "id-1"])
              (state_after [sample_post; LBegin "id-1"])
              (state_after sample_run) (state_after sample_run)
              (state_after sample_run) (state_after sample_run)
              [] [LHook "id-1" (estimate_event 50 100);
                  LSaved "id-1" None "downloads_v2/id-1_clip.mp4"] [] [] [] "id-1")
    as [_ Hfound].
  - exists [sample_post; LBegin "id-1"]. vm_compute. reflexivity.
  - reflexivity.
  - vm_compute. reflexivity.
  - reflexivity.
  - reflexivity.
  - reflexivity.
  - destruct (Hfound (set_status downloading
                        (new_task (JStr "https://www.xiaohongshu.com/explore/1")
                           (S754_zero false))))
      as (st & p & fn & ti & extra & Heq & Hp & _ & Hex & _).
    + vm_compute. reflexivity.
    + exists st, p, fn, ti, extra. split; [exact Heq |]. split; [exact Hp | exact Hex].
Defined.

(** ** A submission and the requests after it *)

Lemma reported_status_answer (t0 t1 t2 t3 t4 : task) :
  reported_status (status_answer t0 t1 t2 t3 t4) = Some (status_str (status t0)).
Proof. unfold status_answer. by destruct (is_failed (status t4)). Qed.

Lemma consistent_status_at (s : sys) (tid : string) (t : task) :
  consistent s -> store s !! tid = Some t ->
  exists pc, threads s !! tid = Some pc /\ status_at pc (status t).
Proof.
  intros Hc Hl. specialize (Hc tid t Hl).
  destruct (threads s !! tid) as [[| |] |]; [| | | done].
  - exists AtStart. split; [done |]. by destruct Hc.
  - by exists InCall.
  - exists Finished. split; [done |]. destruct Hc as [(? & _) | (? & _)]; [by left | by right].
Qed.

(** C9. On the asynchronous path (a JSON object whose url is a string holding
    one of the two domains, mode not "direct") the handler answers with the
    id [uuid4] returned, whatever the dictionary holds, after storing under it
    a record with status queued, progress 0, the url and the creation time,
    and then starting the worker; the other records are untouched. When that
    id was not in use, the worker stands at its first statement right after,
    and a status request at any later point finds the record, with the
    submitted url and creation time, and reports the status the worker has
    reached when the status is read: queued before its first statement,
    downloading during the collaborator call, completed or failed after. As
    long as no statement of the new worker has run, the record is queued at
    progress 0. *)
Theorem submit_queues_job (tasks : gmap string task) (items : list (string * json))
    (u : string) (rb : resolve_behaviour) (uuid : string) (now : spec_float) :
  assoc_get "url" items = Some (JStr u) ->
  str_contains "xiaohongshu.com" u || str_contains "xhslink.com" u = true ->
  json_is_str (default JNull (assoc_get "mode" items)) "direct" = false ->
  exists (tasks' : gmap string task) (t : task),
    api_start_download tasks (JDict items) rb uuid now
      = Ok (Jsonify 200 (JDict [("task_id", JStr uuid)]), tasks',
            [TaskInsert uuid t; ThreadStart uuid (JStr u)])
    /\ tasks' !! uuid = Some t
    /\ status t = queued /\ progress t = 0 /\ created t = now /\ url t = JStr u
    /\ filename t = None /\ filepath t = None /\ title t = None /\ error t = None
    /\ (forall other, other <> uuid -> tasks' !! other = tasks !! other)
    /\ forall s : sys, reachable s -> store s = tasks -> tasks !! uuid = None ->
         exists s1 : sys,
           sys_step s (LPost (JDict items) rb uuid now) = Some s1
           /\ store s1 = tasks' /\ threads s1 !! uuid = Some AtStart
           /\ forall (ls l0 : list label) (s2 r0 : sys) (m1 m2 m3 m4 : gmap string task),
                run s1 ls = Some s2 -> run s2 l0 = Some r0 ->
                exists (t0 : task) (pc : wpc),
                  store r0 !! uuid = Some t0 /\ threads r0 !! uuid = Some pc
                  /\ status_at pc (status t0)
                  /\ url t0 = JStr u /\ created t0 = now
                  /\ reported_status
                       (api_status_reads (store s2) (store r0) m1 m2 m3 m4 uuid)
                     = Some (status_str (status t0))
                  /\ (Forall (fun l => worker_label_of l <> Some uuid) (ls ++ l0) ->
                      status t0 = queued /\ progress t0 = 0).
Proof.
  intros Hu Hin Hmode.
  assert (Hne : String.eqb u "" = false).
  { destruct u; [| done]. cbn in Hin. discriminate. }
  set (t := new_task (JStr u) now).
  assert (Hapi : api_start_download tasks (JDict items) rb uuid now
                 = Ok (Jsonify 200 (JDict [("task_id", JStr uuid)]),
                       <[uuid := t]> tasks,
                       [TaskInsert uuid t; ThreadStart uuid (JStr u)])).
  { rewrite (start_download_str_url _ _ u) by done.
    rewrite Hne, Hin. unfold dispatch. by rewrite Hmode. }
  exists (<[uuid := t]> tasks), t. split; [done |].
  split; [apply lookup_insert_eq |].
  do 8 (split; [done |]).
  split; [intros other Hne'; by rewrite lookup_insert_ne |].
  intros s Hr <- Hfresh.
  set (s1 := mkSys (<[uuid := t]> (store s)) (<[uuid := AtStart]> (threads s))).
  assert (Hstep : sys_step s (LPost (JDict items) rb uuid now) = Some s1).
  { cbn. rewrite Hapi. cbn. by rewrite (proj2 (unused_None _ _) Hfresh). }
  assert (Hc1 : consistent s1).
  { eapply step_consistent; [apply (reachable_consistent s Hr) | exact Hstep]. }
  exists s1. split; [done |]. split; [done |]. split; [apply lookup_insert_eq |].
  intros ls l0 s2 r0 m1 m2 m3 m4 Hrun Hrun0.
  assert (Hl1 : store s1 !! uuid = Some t) by apply lookup_insert_eq.
  destruct (run_effect ls s1 s2 uuid t Hc1 Hrun Hl1) as (t2 & Hl2 & Hu2 & Hcr2 & _).
  assert (Hc2 : consistent s2) by (by eapply run_consistent).
  destruct (run_effect l0 s2 r0 uuid t2 Hc2 Hrun0 Hl2) as (t0 & Hl0 & Hu0 & Hcr0 & _).
  assert (Hc0 : consistent r0) by (by eapply run_consistent).
  destruct (consistent_status_at r0 uuid t0 Hc0 Hl0) as (pc & Hpc & Hat).
  exists t0, pc. split; [done |]. split; [done |]. split; [done |].
  split; [by rewrite Hu0, Hu2 |]. split; [by rewrite Hcr0, Hcr2 |].
  split; [unfold api_status_reads; rewrite Hl2, Hl0; apply reported_status_answer |].
  intros Hno. apply Forall_app in Hno as [Hno1 Hno2].
  pose proof (run_leaves_task ls s1 s2 uuid t Hc1 Hno1 Hrun Hl1) as E2.
  pose proof (run_leaves_task l0 s2 r0 uuid t Hc2 Hno2 Hrun0 E2) as E0.
  rewrite Hl0 in E0. by injection E0 as ->.
Qed.

(** C9 as stated fails: the worker of the new task can begin and fail (an
    extraction that raises at once) before the next request is served, and
    the status request then shows "failed". *)
Lemma immediate_get_can_see_failed : ~ immediate_get_sees_active.
Proof.
  intros H.
  destruct (H init (state_after [sample_post])
              (state_after [sample_post; LBegin "id-1";
                            LFailed "id-1" (CollaboratorError "HTTP Error 403")])
              (state_after [sample_post; LBegin "id-1";
                            LFailed "id-1" (CollaboratorError "HTTP Error 403")])
              [("url", JStr "https://www.xiaohongshu.com/explore/1")]
              "https://www.xiaohongshu.com/explore/1" StillRunning "id-1" (S754_zero false)
              [LBegin "id-1"; LFailed "id-1" (CollaboratorError "HTTP Error 403")] []
              ∅ ∅ ∅ ∅)
    as [Habs | Habs].
  - by exists [].
  - reflexivity.
  - by vm_compute.
  - reflexivity.
  - by vm_compute.
  - by repeat constructor.
  - by vm_compute.
  - reflexivity.
  - by vm_compute in Habs.
  - by vm_compute in Habs.
Qed.

(** The answer in that run. *)
Example get_after_quick_failure :
  api_status (store (state_after [sample_post; LBegin "id-1";
                                  LFailed "id-1" (CollaboratorError "HTTP Error 403")]))
    "id-1"
  = Jsonify 200 (JDict [("status", JStr "failed"); ("progress", JNum (PyInt 0));
                        ("filename", JNull); ("title", JNull);
                        ("error", JStr status_error_message)]).
Proof. by vm_compute. Qed.

(** The handler makes no check of the id: were [uuid4] to return an id in
    use, the answer would carry it again and the record stored under it,
    here a completed one, would be replaced by a queued one. *)
Example submit_with_used_id :
  exists tasks' effs,
    api_start_download (store (state_after sample_run))
      (JDict [("url", JStr "http://xhslink.com/a/b")]) StillRunning "id-1" (S754_zero false)
    = Ok (Jsonify 200 (JDict [("task_id", JStr "id-1")]), tasks', effs)
    /\ status <$> store (state_after sample_run) !! "id-1" = Some completed
    /\ status <$> tasks' !! "id-1" = Some queued.
Proof. eexists _, _. split; [by vm_compute |]. split; by vm_compute. Qed.

Lemma submit_queues_job_witness :
  exists (tasks' : gmap string task) (t : task),
    api_start_download (store (state_after [sample_post]))
      (JDict [("url", JStr "http://xhslink.com/a/b")]) StillRunning "id-2" (S754_zero false)
    = Ok (Jsonify 200 (JDict [("task_id", JStr "id-2")]), tasks',
          [TaskInsert "id-2" t; ThreadStart "id-2" (JStr "http://xhslink.com/a/b")])
    /\ tasks' !! "id-2" = Some t
    /\ status t = queued /\ progress t = 0
    /\ exists s1 : sys,
         sys_step (state_after [sample_post])
           (LPost (JDict [("url", JStr "http://xhslink.com/a/b")]) StillRunning "id-2"
                  (S754_zero false)) = Some s1
         /\ threads s1 !! "id-2" = Some AtStart.
Proof.
  destruct (submit_queues_job (store (state_after [sample_post]))
              [("url", JStr "http://xhslink.com/a/b")] "http://xhslink.com/a/b"
              StillRunning "id-2" (S754_zero false) eq_refl eq_refl eq_refl)
    as (tasks' & t & Hapi & Hl & Hst & Hpr & _ & _ & _ & _ & _ & _ & _ & Hrun).
  exists tasks', t. split; [exact Hapi |]. split; [exact Hl |].
  split; [exact Hst |]. split; [exact Hpr |].
  destruct (Hrun (state_after [sample_post])) as (s1 & Hstep & _ & Hth & _).
  - exists [sample_post]. vm_compute. reflexivity.
  - reflexivity.
  - vm_compute. reflexivity.
  - exists s1. split; [exact Hstep | exact Hth].
Defined.

(** ** Cleanup *)

Lemma doomed_spec (now : spec_float) (f : dir_entry) :
  doomed now f = true <->
  e_is_file f = true /\ e_unlink_ok f = true
  /\ exists mtime, e_mtime f = Some mtime /\ too_old now mtime = true.
Proof.
  unfold doomed, try_remove.
  destruct (e_is_file f); [| split; [done | by intros [? _]]].
  destruct (e_mtime f) as [m |]; cbn; [| split; [done | by intros (_ & _ & ? & ? & _)]].
  destruct (too_old now m) eqn:Hold.
  - destruct (e_unlink_ok f); [split; eauto | split; [done | by intros (_ & ? & _)]].
  - split; [done |]. intros (_ & _ & m' & [= <-] & Hm'). congruence.
Qed.

Lemma cleanup_loop_spec (now : spec_float) (entries : list dir_entry) : forall removed,
  cleanup_loop now entries removed
  = (List.filter (fun f => negb (doomed now f)) entries,
     removed + Z.of_nat (length (List.filter (doomed now) entries))).
Proof.
  induction entries as [| f rest IH]; intros removed; cbn [cleanup_loop List.filter].
  - cbn. f_equal. lia.
  - assert (Hd : doomed now f
                 = match try_remove now f with Some true => true | _ => false end) by done.
    destruct (try_remove now f) as [[|] |]; rewrite Hd; cbn [negb length]; rewrite IH;
      f_equal; lia.
Qed.

Lemma filter_kept_length (now : spec_float) (entries : list dir_entry) :
  Z.of_nat (length (List.filter (doomed now) entries))
  = Z.of_nat (length entries)
    - Z.of_nat (length (List.filter (fun f => negb (doomed now f)) entries)).
Proof.
  induction entries as [| f rest IH]; cbn; [done |].
  destruct (doomed now f); cbn; lia.
Qed.

Lemma filter_kept_again (now : spec_float) (entries : list dir_entry) :
  List.filter (doomed now) (List.filter (fun f => negb (doomed now f)) entries) = [].
Proof.
  induction entries as [| f rest IH]; cbn; [done |].
  destruct (doomed now f) eqn:Hd; cbn; [done |]. by rewrite Hd.
Qed.

Lemma filter_kept_idem (now : spec_float) (entries : list dir_entry) :
  List.filter (fun f => negb (doomed now f))
    (List.filter (fun f => negb (doomed now f)) entries)
  = List.filter (fun f => negb (doomed now f)) entries.
Proof.
  induction entries as [| f rest IH]; cbn; [done |].
  destruct (doomed now f) eqn:Hd; cbn; [done |]. by rewrite Hd, IH.
Qed.

(** X14. The cleanup removes exactly the entries that are files, whose
    modification time can be read and lies more than 7200 seconds before
    [now] in float arithmetic, and whose unlink goes through; directories,
    entries whose [stat] or [unlink] raises and younger files stay, in their
    order. It answers 200 with the number of entries it removed, and a second
    cleanup at the same time removes nothing. *)
Theorem cleanup_removes_old_files (entries : list dir_entry) (now : spec_float) :
  exists (kept : list dir_entry) (removed : Z),
    api_cleanup entries now
      = (Jsonify 200 (JDict [("removed", JNum (PyInt removed))]), kept)
    /\ kept = List.filter (fun f => negb (doomed now f)) entries
    /\ removed = Z.of_nat (length entries) - Z.of_nat (length kept)
    /\ (forall f, doomed now f = true <->
          e_is_file f = true /\ e_unlink_ok f = true
          /\ exists mtime, e_mtime f = Some mtime /\ too_old now mtime = true)
    /\ api_cleanup kept now = (Jsonify 200 (JDict [("removed", JNum (PyInt 0))]), kept).
Proof.
  eexists _, _. unfold api_cleanup. rewrite !cleanup_loop_spec.
  split; [reflexivity |]. split; [reflexivity |].
  split; [rewrite filter_kept_length; lia |].
  split; [apply doomed_spec |].
  by rewrite filter_kept_again, filter_kept_idem.
Qed.

Lemma in_folder_inj (a b : string) : in_folder a = in_folder b -> a = b.
Proof. unfold in_folder. intros H. by injection H. Qed.

Lemma exists_in_spec (entries : list dir_entry) (path : string) :
  exists_in entries path = true <-> exists f, f ∈ entries /\ in_folder (e_name f) = path.
Proof.
  unfold exists_in. rewrite existsb_exists. split.
  - intros (f & Hin & Hf). apply String.eqb_eq in Hf. exists f.
    split; [by apply list_elem_of_In | done].
  - intros (f & Hin & Hf). exists f. split; [by apply list_elem_of_In |].
    by apply String.eqb_eq.
Qed.

Lemma NoDup_names_unique (entries : list dir_entry) (f g : dir_entry) :
  NoDup (e_name <$> entries) -> f ∈ entries -> g ∈ entries -> e_name f = e_name g ->
  f = g.
Proof.
  induction entries as [| x rest IH]; intros Hnd Hf Hg Heq; [by apply elem_of_nil in Hf |].
  rewrite fmap_cons in Hnd. apply NoDup_cons in Hnd as [Hx Hnd].
  apply elem_of_cons in Hf as [-> | Hf]; apply elem_of_cons in Hg as [-> | Hg].
  - done.
  - destruct Hx. rewrite Heq. by apply list_elem_of_fmap_2.
  - destruct Hx. rewrite <- Heq. by apply list_elem_of_fmap_2.
  - by apply IH.
Qed.

(** X15. The cleanup does not look at the task dictionary. When it removes
    the file of a completed task (the names in the folder being distinct),
    the record stays completed, the status endpoint answers as before, and
    the file endpoint, which sent the file before, answers 404 'file
    missing' from then on. *)
Theorem cleanup_loses_completed_file (tasks : gmap string task) (tid : string) (t : task)
    (entries : list dir_entry) (f : dir_entry) (now : spec_float) :
  tasks !! tid = Some t -> status t = completed ->
  filepath t = Some (in_folder (e_name f)) ->
  NoDup (e_name <$> entries) -> f ∈ entries -> doomed now f = true ->
  api_download_file tasks (exists_in entries) tid
    = SendFile (in_folder (e_name f)) (filename t)
  /\ api_download_file tasks (exists_in (api_cleanup entries now).2) tid
     = Jsonify 404 (error_body "file missing").
Proof.
  intros Hl Hst Hfp Hnd Hin Hd.
  unfold api_cleanup. rewrite cleanup_loop_spec.
  cbn [snd]. unfold api_download_file. rewrite Hl, Hst, Hfp.
  cbn [is_completed negb]. change (String.eqb (in_folder (e_name f)) "") with false.
  cbn [negb andb]. split.
  - assert (exists_in entries (in_folder (e_name f)) = true) as ->; [| done].
    apply exists_in_spec. eauto.
  - assert (exists_in (List.filter (fun f => negb (doomed now f)) entries)
              (in_folder (e_name f)) = false) as ->; [| done].
    apply not_true_is_false. intros (g & Hg & Hname)%exists_in_spec.
    apply list_elem_of_In, filter_In in Hg as [Hg Hgd]. apply list_elem_of_In in Hg.
    apply in_folder_inj in Hname.
    rewrite (NoDup_names_unique entries g f Hnd Hg Hin Hname), Hd in Hgd. done.
Qed.

Lemma cleanup_loses_completed_file_witness :
  api_download_file (store (state_after sample_run)) (exists_in sample_folder) "id-1"
    = SendFile "downloads_v2/id-1_clip.mp4" (Some "id-1_clip.mp4")
  /\ api_download_file (store (state_after sample_run))
       (exists_in (api_cleanup sample_folder t100000).2) "id-1"
     = Jsonify 404 (error_body "file missing").
Proof.
  apply (cleanup_loses_completed_file (store (state_after sample_run)) "id-1"
           (mkTask completed 100 (JStr "https://www.xiaohongshu.com/explore/1")
              (S754_zero false) (Some "id-1_clip.mp4")
              (Some "downloads_v2/id-1_clip.mp4") None None)
           sample_folder (mkEntry "id-1_clip.mp4" true (Some t92799) true) t100000).
  - vm_compute. reflexivity.
  - reflexivity.
  - reflexivity.
  - apply (bool_decide_unpack _). by vm_compute.
  - apply list_elem_of_here.
  - vm_compute. reflexivity.
Defined.

(** ** The age of a file *)

Lemma shl_align_spec (m : positive) (e e' : Z) :
  e' <= e ->
  exists m', shl_align m e e' = (m', e') /\ Z.pos m' = Z.pos m * 2 ^ (e - e').
Proof.
  intros Hle. unfold shl_align. destruct (e' - e) as [| d | d] eqn:Hd; try lia.
  - assert (e' = e) as -> by lia. exists m. split; [done |]. rewrite Z.sub_diag. lia.
  - exists (shift_pos d m). split; [done |]. rewrite shift_pos_correct.
    rewrite Z.pow_pos_fold. replace (e - e') with (Z.pos d) by lia. lia.
Qed.

Lemma digits2_pos_shift (m m' : positive) (d : Z) :
  0 <= d -> Z.pos m' = Z.pos m * 2 ^ d ->
  Z.pos (digits2_pos m') = Z.pos (digits2_pos m) + d.
Proof.
  intros Hd Hm'. apply digits2_pos_unique. rewrite Hm'.
  pose proof (digits2_pos_bounds m) as [Hlo Hhi].
  pose proof (pow2_pos d Hd) as Hp.
  replace (Z.pos (digits2_pos m) + d - 1) with (Z.pos (digits2_pos m) - 1 + d) by lia.
  rewrite !Z.pow_add_r by lia. split.
  - by apply Z.mul_le_mono_nonneg_r; [lia |].
  - by apply Z.mul_lt_mono_pos_r.
Qed.

(** What [binary_round] hands to the rounding proper: the same value with at
    least 53 digits. *)
Lemma binary_round_align (sx : bool) (m : positive) (e : Z) :
  -1021 <= Z.pos (digits2_pos m) + e ->
  exists (m' : positive) (e' : Z),
    binary_round b64_prec b64_emax sx m e
      = binary_round_aux b64_prec b64_emax sx (Z.pos m') e' loc_Exact
    /\ e' <= e /\ Z.pos m' = Z.pos m * 2 ^ (e - e')
    /\ 53 <= Z.pos (digits2_pos m')
    /\ Z.pos (digits2_pos m') + e' = Z.pos (digits2_pos m) + e.
Proof.
  intros Hnu. unfold binary_round. rewrite fexp_normal by done.
  destruct (Z_le_gt_dec (Z.pos (digits2_pos m) + e - 53) e) as [Hle | Hgt].
  - destruct (shl_align_spec m e _ Hle) as (m' & -> & Hm').
    exists m', (Z.pos (digits2_pos m) + e - 53). split; [done |]. split; [done |].
    split; [done |].
    rewrite (digits2_pos_shift m m' (e - (Z.pos (digits2_pos m) + e - 53))) by (done || lia).
    lia.
  - unfold shl_align.
    destruct (Z.pos (digits2_pos m) + e - 53 - e) as [| d | d] eqn:Hd; try lia.
    exists m, e. split; [done |]. split; [lia |].
    split; [rewrite Z.sub_diag; lia | lia].
Qed.

Lemma inbetween_exact (m : Z) : inbetween m loc_Exact m 1.
Proof.
  unfold inbetween, loc_of. split; [lia |]. split; [lia |].
  replace (m - m * 1) with 0 by lia. done.
Qed.

Lemma scaled_le_same (a e b e' : Z) :
  e' <= e -> b = a * 2 ^ (e - e') -> scaled_le a e b e' /\ scaled_le b e' a e.
Proof.
  intros Hle ->. split; apply (scaled_le_base _ _ _ _ e'); try lia;
    rewrite Z.sub_diag; lia.
Qed.

Lemma cmp_int_gt_scaled (k : positive) (E z : Z) :
  float_cmp_int (S754_finite false k E) z = Some Gt <-> ~ scaled_le (Z.pos k) E z 0.
Proof.
  unfold float_cmp_int, signed_mantissa, cond_Zopp. destruct (0 <=? E) eqn:HE.
  - apply Z.leb_le in HE. rewrite (scaled_le_base _ _ _ _ 0) by lia.
    rewrite !Z.sub_0_r. cbn [Z.pow]. rewrite Z.mul_1_r.
    split; [intros H; apply (inj Some), Z.compare_gt_iff in H; lia
           | intros H; f_equal; apply Z.compare_gt_iff; lia].
  - apply Z.leb_gt in HE. rewrite (scaled_le_base _ _ _ _ E) by lia.
    rewrite Z.sub_diag. replace (0 - E) with (- E) by lia. cbn [Z.pow]. rewrite Z.mul_1_r.
    split; [intros H; apply (inj Some), Z.compare_gt_iff in H; lia
           | intros H; f_equal; apply Z.compare_gt_iff; lia].
Qed.

Lemma cmp_int_neg (k : positive) (E z : Z) :
  0 <= z -> float_cmp_int (S754_finite true k E) z = Some Lt.
Proof.
  intros Hz. unfold float_cmp_int, signed_mantissa, cond_Zopp.
  destruct (0 <=? E) eqn:HE; f_equal; apply Z.compare_lt_iff.
  - apply Z.leb_le in HE. pose proof (pow2_pos E HE). nia.
  - apply Z.leb_gt in HE. pose proof (pow2_pos (- E) ltac:(lia)). nia.
Qed.

(** The difference of two doubles, rounded: finite, and on the same side of
    a double as the exact difference. *)
Lemma round_diff (sx : bool) (p : positive) (ez : Z) :
  -1020 <= ez -> Z.pos (digits2_pos p) + ez <= 960 ->
  exists (m' k : positive) (e' E : Z),
    binary_round b64_prec b64_emax sx p ez = S754_finite sx k E
    /\ binary_round_aux b64_prec b64_emax sx (Z.pos m') e' loc_Exact = S754_finite sx k E
    /\ e' <= ez /\ Z.pos m' = Z.pos p * 2 ^ (ez - e')
    /\ 0 <= Z.pos (digits2_pos m') - 53
    /\ -1074 <= e' + (Z.pos (digits2_pos m') - 53)
    /\ e' + (Z.pos (digits2_pos m') - 53) + 1 <= 971.
Proof.
  intros Hlo Hhi.
  destruct (binary_round_align sx p ez) as (m' & e' & Hbr & He' & Hm' & Hd & Hnu); [lia |].
  destruct (round_aux_normal sx m' e' loc_Exact (Z.pos m') 1 (inbetween_exact _))
    as (k & E & Hk & _); [lia | lia | lia |].
  exists m', k, e', E. rewrite Hbr. repeat split; try done; lia.
Qed.

Lemma m7200_value : Z.pos m7200 = 7200 * 2 ^ 40.
Proof. by vm_compute. Qed.

Lemma round_7200 :
  binary_round_aux b64_prec b64_emax false (Z.pos m7200) (-40) loc_Exact
  = S754_finite false m7200 (-40).
Proof. by vm_compute. Qed.

Lemma round_7200_next :
  binary_round_aux b64_prec b64_emax false (Z.pos (m7200 + 1)) (-40) loc_Exact
  = S754_finite false (m7200 + 1) (-40).
Proof. by vm_compute. Qed.

Lemma digits_m7200 : Z.pos (digits2_pos m7200) = 53.
Proof. by vm_compute. Qed.

Lemma digits_m7200_next : Z.pos (digits2_pos (m7200 + 1)) = 53.
Proof. by vm_compute. Qed.

Lemma pos_digits_bound (p : positive) (b e : Z) :
  0 <= e -> 0 < b -> Z.pos p <= b * 2 ^ e -> b < 2 ^ 53 ->
  Z.pos (digits2_pos p) <= 53 + e.
Proof.
  intros He Hb Hp Hb53. apply digits2_pos_le; [lia |].
  rewrite Z.pow_add_r by lia. pose proof (pow2_pos e He).
  apply Z.le_lt_trans with (b * 2 ^ e); [done |]. by apply Z.mul_lt_mono_pos_r.
Qed.

(** X16. The age test of the cleanup agrees with exact arithmetic up to the
    last bit of the limit. For two positive doubles [now] and [mtime] (53-bit
    mantissas, exponents between -1000 and 900), with the exact difference
    written as [age * 2 ^ ez]: if the exact age is at most 7200 seconds the
    file is not old, so the rounding of the subtraction never removes a file
    younger than two hours; if it is at least 7200 + 2^-40 seconds, the next
    double above 7200, the file is old. *)
Theorem retention_is_two_hours (mx my : positive) (ex ey : Z) :
  let ez := Z.min ex ey in
  let age := Z.pos mx * 2 ^ (ex - ez) - Z.pos my * 2 ^ (ey - ez) in
  Z.pos mx < 2 ^ 53 -> Z.pos my < 2 ^ 53 ->
  -1000 <= ex <= 900 -> -1000 <= ey <= 900 ->
  (scaled_le age ez 7200 0 ->
     too_old (S754_finite false mx ex) (S754_finite false my ey) = false)
  /\ (scaled_le (Z.pos m7200 + 1) (-40) age ez ->
      too_old (S754_finite false mx ex) (S754_finite false my ey) = true).
Proof.
  intros ez age Hmx Hmy Hex Hey.
  unfold too_old, py_gt, num_cmp, b64_sub, SFsub. fold ez. change (2 * 3600) with 7200.
  assert (Hez : ez = Z.min ex ey) by done. clearbody ez.
  assert (Hzx : ez <= ex) by lia. assert (Hzy : ez <= ey) by lia.
  destruct (shl_align_spec mx ex ez Hzx) as (X & HX & HXv).
  destruct (shl_align_spec my ey ez Hzy) as (Y & HY & HYv).
  rewrite HX, HY. cbn [fst cond_Zopp].
  assert (Hag : age = Z.pos X - Z.pos Y) by (unfold age; by rewrite HXv, HYv).
  rewrite <- Hag. clearbody age. clear HX HY.
  assert (HXb : Z.pos X <= Z.pos mx * 2 ^ (ex - ez)) by lia.
  assert (HYb : Z.pos Y <= Z.pos my * 2 ^ (ey - ez)) by lia.
  assert (H72 : scaled_le (Z.pos m7200) (-40) 7200 0 /\ scaled_le 7200 0 (Z.pos m7200) (-40)).
  { split; unfold scaled_le; by vm_compute. }
  destruct age as [| p | p]; cbn [binary_normalize].
  - split; [done |]. intros H. exfalso.
    pose proof (proj1 (scaled_le_base (Z.pos m7200 + 1) (-40) 0 ez (Z.min (-40) ez)
                         ltac:(lia) ltac:(lia)) H) as H'.
    assert (0 < (Z.pos m7200 + 1) * 2 ^ (-40 - Z.min (-40) ez))
      by (apply Z.mul_pos_pos; [lia | apply pow2_pos; lia]).
    lia.
  - assert (Hd : Z.pos (digits2_pos p) <= 53 + (ex - ez)).
    { apply (pos_digits_bound p (Z.pos mx)); lia. }
    destruct (round_diff false p ez) as (m' & k & e' & E & -> & Haux & He' & Hm' & Hn & Hlo & Hhi);
      [lia | lia |].
    destruct (scaled_le_same (Z.pos p) ez (Z.pos m') e' He' Hm') as [Hpm Hmp].
    split.
    + intros Hle.
      assert (Hk : scaled_le (Z.pos k) E (Z.pos m7200) (-40)).
      { refine (round_aux_mono false false m' m7200 e' (-40) loc_Exact loc_Exact
                  (Z.pos m') 1 (Z.pos m7200) 1 k m7200 E (-40)
                  (inbetween_exact _) (inbetween_exact _) _ _ _ _ _ _ Haux round_7200 _);
          rewrite ?digits_m7200; try lia.
        rewrite !Z.mul_1_r.
        eapply scaled_le_trans; [exact Hmp |].
        eapply scaled_le_trans; [exact Hle | apply H72]. }
      assert (Hng : float_cmp_int (S754_finite false k E) 7200 <> Some Gt).
      { intros Hc. apply cmp_int_gt_scaled in Hc. destruct Hc.
        eapply scaled_le_trans; [exact Hk | apply H72]. }
      by destruct (float_cmp_int (S754_finite false k E) 7200) as [[| |] |].
    + intros Hge.
      assert (Hk : scaled_le (Z.pos (m7200 + 1)) (-40) (Z.pos k) E).
      { refine (round_aux_mono false false (m7200 + 1) m' (-40) e' loc_Exact loc_Exact
                  (Z.pos (m7200 + 1)) 1 (Z.pos m') 1 (m7200 + 1) k (-40) E
                  (inbetween_exact _) (inbetween_exact _) _ _ _ _ _ _
                  round_7200_next Haux _);
          rewrite ?digits_m7200_next; try lia.
        rewrite !Z.mul_1_r.
        eapply scaled_le_trans; [| exact Hpm]. exact Hge. }
      assert (Hgt : float_cmp_int (S754_finite false k E) 7200 = Some Gt).
      { apply cmp_int_gt_scaled. intros Hle.
        pose proof (scaled_le_trans _ _ _ _ _ _ Hk Hle) as Habs.
        unfold scaled_le in Habs. vm_compute in Habs. by destruct Habs. }
      by rewrite Hgt.
  - assert (Hd : Z.pos (digits2_pos p) <= 53 + (ey - ez)).
    { apply (pos_digits_bound p (Z.pos my)); lia. }
    destruct (round_diff true p ez) as (m' & k & e' & E & -> & _); [lia | lia |].
    rewrite cmp_int_neg by lia. split; [done |]. intros H. exfalso.
    pose proof (proj1 (scaled_le_base (Z.pos m7200 + 1) (-40) (Z.neg p) ez
                         (Z.min (-40) ez) ltac:(lia) ltac:(lia)) H) as H'.
    assert (0 < (Z.pos m7200 + 1) * 2 ^ (-40 - Z.min (-40) ez))
      by (apply Z.mul_pos_pos; [lia | apply pow2_pos; lia]).
    assert (Z.neg p * 2 ^ (ez - Z.min (-40) ez) <= 0)
      by (apply Z.mul_nonpos_nonneg; [lia | apply Z.lt_le_incl, pow2_pos; lia]).
    lia.
Qed.

Lemma retention_is_two_hours_witness :
  too_old t100000 t92800 = false /\ too_old t100000 t92799 = true.
Proof.
  split.
  - apply (proj1 (retention_is_two_hours 6871947673600000 6377167441100800 (-36) (-36)
                    ltac:(by vm_compute) ltac:(by vm_compute)
                    ltac:(lia) ltac:(lia))).
    unfold scaled_le. by vm_compute.
  - apply (proj2 (retention_is_two_hours 6871947673600000 6377098721624064 (-36) (-36)
                    ltac:(by vm_compute) ltac:(by vm_compute)
                    ltac:(lia) ltac:(lia))).
    unfold scaled_le. by vm_compute.
Defined.

(** ** The ends of the scale *)

Lemma rne_exact (k b : Z) : 0 < b -> rne (k * b) b = k.
Proof. intros Hb. pose proof (rne_bounds (k * b) b k k Hb). lia. Qed.

Lemma truediv_same (x : positive) :
  Z.pos x < 2 ^ 64 ->
  py_truediv (PyInt (Z.pos x)) (PyInt (Z.pos x))
  = Ok (S754_finite false 4503599627370496 (-52)).
Proof.
  intros Hx. unfold py_truediv. cbn [Z.eqb].
  destruct (truediv_ints_struct x x Hx Hx) as (q & l & s & -> & Hin & Hs & Hn & Hrange).
  pose proof (inbetween_div _ _ _ _ Hin) as [Hq _].
  rewrite Z.mul_comm, Z.div_mul in Hq by lia.
  assert (Hdq : Z.pos (digits2_pos q) = s + 1).
  { apply digits2_pos_unique. rewrite Hq. replace (s + 1 - 1) with s by lia.
    split; [lia |]. rewrite Z.pow_add_r by lia. pose proof (pow2_pos s Hs). lia. }
  destruct (round_aux_normal false q (- s) l _ _ Hin) as (k & E & -> & Hk & _ & Hcase);
    [lia | lia | lia |].
  rewrite Hdq in Hcase.
  assert (Hr : rne (Z.pos x * 2 ^ s) (2 ^ (s + 1 - 53) * Z.pos x) = 2 ^ 52).
  { replace (Z.pos x * 2 ^ s) with (2 ^ 52 * (2 ^ (s + 1 - 53) * Z.pos x)).
    - apply rne_exact. apply Z.mul_pos_pos; [apply pow2_pos; lia | lia].
    - rewrite Z.mul_assoc, <- Z.pow_add_r by lia.
      replace (52 + (s + 1 - 53)) with s by lia. lia. }
  rewrite Hr in Hcase. destruct Hcase as [(-> & Hkv) | (_ & Habs & _)];
    [| by vm_compute in Habs].
  assert (k = 4503599627370496%positive) as -> by (vm_compute in Hkv; lia).
  replace (- s + (s + 1 - 53)) with (-52) by lia. done.
Qed.

Lemma pct_full (x : positive) :
  Z.pos x < 2 ^ 64 -> pct_of (PyInt (Z.pos x)) (PyInt (Z.pos x)) = Ok 100.
Proof.
  intros Hx. unfold pct_of, pct_float. rewrite truediv_same by done. by vm_compute.
Qed.

Lemma pct_none (x : positive) : pct_of (PyInt 0) (PyInt (Z.pos x)) = Ok 0.
Proof. by vm_compute. Qed.

Lemma pct_complete (dl T : Z) :
  0 < T -> T <= dl < 2 ^ 64 -> pct_of (PyInt dl) (PyInt T) = Ok 100.
Proof.
  intros HT Hdl.
  destruct (pct_of_ints dl T) as (f & p & _ & Hsp & Hp); [lia | lia |].
  destruct T as [| x |]; try lia.
  pose proof (pct_of_mono (Z.pos x) dl (Z.pos x) 100 p ltac:(lia) ltac:(lia) ltac:(lia)
                (pct_full x ltac:(lia)) Hp) as Hge.
  unfold spec_pct in Hsp. destruct (float_floor f) as [n |]; [| done].
  injection Hsp as <-. unfold clamp in *. rewrite Hp. f_equal. lia.
Qed.

(** What the hook leaves when it stores a percentage: the record with that
    progress and nothing else changed, the other records as they were. *)
Lemma update_progress_stores (tasks : gmap string task) (task_id : string) (d : event)
    (t : task) (pct : Z) :
  tasks !! task_id = Some t ->
  ev_is_downloading d = true -> num_truthy (ev_total d) = true ->
  pct_of (ev_downloaded d) (ev_total d) = Ok pct ->
  exists tasks' t',
    _update_progress tasks task_id d = Ok tasks'
    /\ tasks' !! task_id = Some t'
    /\ progress t' = pct
    /\ same_but_progress t t'
    /\ forall other, other <> task_id -> tasks' !! other = tasks !! other.
Proof.
  intros Hl Hd Ht Hp. rewrite (update_progress_with_total tasks task_id d t Hl Hd Ht), Hp.
  exists (<[task_id := set_progress pct t]> tasks), (set_progress pct t).
  split; [done |]. split; [apply lookup_insert_eq |]. split; [done |].
  split; [by repeat split |]. intros other Hne. by rewrite lookup_insert_ne.
Qed.

(** X17. A "downloading" event with an int total below 2^64 whose downloaded
    byte count has reached the total leaves the progress of the record at
    exactly 100, and one with nothing downloaded leaves it at 0; nothing else
    of the record and no other record changes. The float division and
    multiplication lose nothing at the two ends of the scale. *)
Theorem progress_ends_of_scale (tasks : gmap string task) (tid : string) (t : task)
    (d : event) (dl T : Z) :
  tasks !! tid = Some t -> ev_is_downloading d = true ->
  ev_downloaded d = PyInt dl -> ev_total d = PyInt T ->
  0 < T < 2 ^ 64 ->
  (dl = 0 ->
     exists tasks' t',
       _update_progress tasks tid d = Ok tasks'
       /\ tasks' !! tid = Some t' /\ progress t' = 0
       /\ same_but_progress t t'
       /\ forall other, other <> tid -> tasks' !! other = tasks !! other)
  /\ (T <= dl < 2 ^ 64 ->
      exists tasks' t',
        _update_progress tasks tid d = Ok tasks'
        /\ tasks' !! tid = Some t' /\ progress t' = 100
        /\ same_but_progress t t'
        /\ forall other, other <> tid -> tasks' !! other = tasks !! other).
Proof.
  intros Hl Hd Hdl HT HTr.
  assert (Htr : num_truthy (ev_total d) = true).
  { rewrite HT. cbn. destruct T; try lia; done. }
  split.
  - intros ->. apply (update_progress_stores tasks tid d t 0 Hl Hd Htr).
    rewrite Hdl, HT. destruct T as [| x |]; try lia. apply pct_none.
  - intros Hr. apply (update_progress_stores tasks tid d t 100 Hl Hd Htr).
    rewrite Hdl, HT. apply pct_complete; lia.
Qed.

Lemma progress_ends_of_scale_witness :
  exists tasks' t',
    _update_progress
      {["id-1" := set_status downloading (new_task (JStr "u") (S754_zero false))]}
      "id-1" (estimate_event 3000000000 3000000000) = Ok tasks'
    /\ tasks' !! "id-1" = Some t' /\ progress t' = 100.
Proof.
  assert (Hl : ({["id-1" := set_status downloading (new_task (JStr "u") (S754_zero false))]}
                : gmap string task) !! "id-1"
               = Some (set_status downloading (new_task (JStr "u") (S754_zero false)))).
  { vm_compute. reflexivity. }
  assert (Hr : 0 < 3000000000 < 2 ^ 64) by (split; [lia | by vm_compute]).
  assert (Hr' : 3000000000 <= 3000000000 < 2 ^ 64) by (split; [lia | by vm_compute]).
  destruct (proj2 (progress_ends_of_scale _ "id-1" _ (estimate_event 3000000000 3000000000)
                     3000000000 3000000000 Hl eq_refl eq_refl eq_refl Hr) Hr')
    as (tasks' & t' & Hup & Hl' & Hp & _).
  exists tasks', t'. split; [exact Hup |]. split; [exact Hl' | exact Hp].
Defined.

(** ** How far the percentage is from the exact one *)

(** The nearest integer is within half a unit. *)
Lemma rne_near (a b : Z) :
  0 < b -> 2 * (rne a b * b) <= 2 * a + b /\ 2 * a <= 2 * (rne a b * b) + b.
Proof.
  intros Hb. pose proof (Z.div_mod a b ltac:(lia)) as Hdm.
  pose proof (Z.mod_pos_bound a b Hb) as Hm.
  destruct (rne_cases a b Hb) as [(-> & Hlo & _) | (-> & Hhi & _)]; nia.
Qed.

(** A rounded value is within half a unit in the last place of what was
    rounded; [c] is the number of bits dropped. *)
Lemma round_half_ulp (sx : bool) (m : positive) (e : Z) (l : location) (a b : Z) :
  let n := Z.pos (digits2_pos m) - 53 in
  inbetween (Z.pos m) l a b ->
  0 <= n -> -1074 <= e + n -> e + n + 1 <= 971 ->
  exists (k : positive) (E c : Z),
    binary_round_aux b64_prec b64_emax sx (Z.pos m) e l = S754_finite sx k E
    /\ 2 ^ 52 <= Z.pos k < 2 ^ 53
    /\ E = e + c /\ n <= c <= n + 1
    /\ 2 * (Z.pos k * 2 ^ c * b) <= 2 * a + 2 ^ c * b
    /\ 2 * a <= 2 * (Z.pos k * 2 ^ c * b) + 2 ^ c * b.
Proof.
  intros n Hin Hn Hlo Hhi.
  destruct (round_aux_normal sx m e l a b Hin ltac:(lia) ltac:(lia) ltac:(lia))
    as (k & E & Hr & Hk & _ & Hcase).
  fold n in Hcase.
  assert (Hb : 0 < b) by apply Hin.
  assert (Hp : 0 < 2 ^ n) by (apply pow2_pos; lia).
  assert (Hnb : 0 < 2 ^ n * b) by (by apply Z.mul_pos_pos).
  pose proof (rne_near a (2 ^ n * b) Hnb) as [Hup Hdn].
  destruct Hcase as [(-> & Hkv) | (-> & Hr53 & Hkv)].
  - exists k, (e + n), n. rewrite Hkv. repeat split; try done; try lia.
  - exists k, (e + n + 1), (n + 1). rewrite Hr53 in Hup, Hdn.
    rewrite Z.pow_add_r by lia. rewrite Hkv.
    change (2 ^ 53) with (2 ^ 52 * 2) in Hup, Hdn. change (2 ^ 1) with 2.
    repeat split; try done; try lia.
Qed.

(** The quotient of two ints [x < y]: a double [k * 2 ^ (- u)] with [u >= 52],
    within half a unit of [x / y]. *)
Lemma truediv_near (x y : positive) :
  Z.pos x < Z.pos y -> Z.pos y < 2 ^ 64 ->
  exists (k : positive) (u : Z),
    b64_div (exact_of_int (Z.pos x)) (exact_of_int (Z.pos y)) = S754_finite false k (- u)
    /\ 2 ^ 52 <= Z.pos k < 2 ^ 53
    /\ 52 <= u <= 117
    /\ 2 * (Z.pos k * Z.pos y) <= 2 * (Z.pos x * 2 ^ u) + Z.pos y
    /\ 2 * (Z.pos x * 2 ^ u) <= 2 * (Z.pos k * Z.pos y) + Z.pos y.
Proof.
  intros Hxy Hy.
  destruct (truediv_ints_struct x y ltac:(lia) Hy) as (q & l & s & -> & Hin & Hs & Hn & Hr).
  destruct (round_half_ulp false q (- s) l _ _ Hin ltac:(lia) ltac:(lia) ltac:(lia))
    as (k & E & c & -> & Hk & -> & Hc & Hup & Hdn).
  set (X := Z.pos x) in *. set (Y := Z.pos y) in *. set (K := Z.pos k) in *.
  assert (Hc0 : 0 <= c) by lia.
  assert (Hpc : 0 < 2 ^ c) by (by apply pow2_pos).
  assert (Hps : 0 < 2 ^ s) by (by apply pow2_pos).
  assert (Hu : 52 <= s - c).
  { assert (H1 : 2 * (X * 2 ^ s) < 2 * (Y * 2 ^ s)).
    { apply Z.mul_lt_mono_pos_l; [lia |]. by apply Z.mul_lt_mono_pos_r. }
    assert (H2 : (2 * K - 1) * 2 ^ c * Y < 2 ^ (s + 1) * Y).
    { rewrite Z.pow_add_r by lia. change (2 ^ 1) with 2. lia. }
    apply Z.mul_lt_mono_pos_r in H2; [| lia].
    assert (H3 : 2 ^ 52 * 2 ^ c <= (2 * K - 1) * 2 ^ c).
    { apply Z.mul_le_mono_nonneg_r; [lia |].
      change (2 ^ 53) with (2 * 2 ^ 52) in Hk. lia. }
    rewrite <- Z.pow_add_r in H3 by lia.
    assert (H4 : 2 ^ (52 + c) < 2 ^ (s + 1)) by lia.
    apply Z.pow_lt_mono_r_iff in H4; lia. }
  exists k, (s - c). replace (- s + c) with (- (s - c)) by lia.
  split; [done |]. split; [done |]. split; [lia |].
  assert (Hsplit : 2 ^ s = 2 ^ (s - c) * 2 ^ c).
  { rewrite <- Z.pow_add_r by lia. f_equal. lia. }
  rewrite Hsplit in Hup, Hdn. fold K.
  split.
  - apply (Z.mul_le_mono_pos_r _ _ (2 ^ c) Hpc). lia.
  - apply (Z.mul_le_mono_pos_r _ _ (2 ^ c) Hpc). lia.
Qed.

(** The product with 100.0: a double within half a unit of [100 * k * 2^(-u)];
    that unit is [2 ^ (c - 46 - u)] with [c] between 52 and 54. *)
Lemma mul100_near (k : positive) (E : Z) :
  2 ^ 52 <= Z.pos k < 2 ^ 53 -> -1000 <= E <= 900 ->
  exists (k' : positive) (c : Z),
    b64_mul (S754_finite false k E) (S754_finite false c100 (-46))
      = S754_finite false k' (E - 46 + c)
    /\ 52 <= c <= 54
    /\ 2 * (Z.pos k' * 2 ^ c) <= 2 * (Z.pos k * Z.pos c100) + 2 ^ c
    /\ 2 * (Z.pos k * Z.pos c100) <= 2 * (Z.pos k' * 2 ^ c) + 2 ^ c.
Proof.
  intros Hk HE. destruct (mul100_struct k E Hk) as (-> & Hin & Hn).
  destruct (round_half_ulp false (k * c100) (E - 46) loc_Exact _ _ Hin
              ltac:(lia) ltac:(lia) ltac:(lia))
    as (k' & E' & c & -> & _ & -> & Hc & Hup & Hdn).
  exists k', c. rewrite !Z.mul_1_r, Pos2Z.inj_mul in Hup, Hdn.
  split; [done |]. split; [lia |]. split; lia.
Qed.

(** The arithmetic of the two roundings. [M] is [2 ^ (u + 46)], the scale
    at which the quotient's unit is [2 ^ 46]; [Cc] is the unit of the product
    and [W] what the floor divides by. *)
Lemma pct_core_upper (K K' X Y M W Cc f d : Z) :
  0 < Y -> 0 < W -> 0 < Cc <= 2 ^ 54 -> 2 ^ 98 <= M -> M = W * Cc ->
  2 * (K * Y) * (100 * 2 ^ 46) <= 2 * (100 * X * M) + Y * (100 * 2 ^ 46) ->
  2 * (K' * Cc) <= 2 * (K * (100 * 2 ^ 46)) + Cc ->
  f * W <= K' ->
  100 * X + d <= f * Y ->
  (0 <= d) ->
  2 * d * 2 ^ 98 <= 356 * 2 ^ 46 * Y.
Proof.
  intros HY HW HCc HM HMW HA HB Hf He Hd.
  assert (H1 : f * M <= K' * Cc).
  { rewrite HMW, Z.mul_assoc. apply Z.mul_le_mono_nonneg_r; lia. }
  assert (H2 : 2 * (f * M) * Y <= (2 * (K * (100 * 2 ^ 46)) + Cc) * Y).
  { apply Z.mul_le_mono_nonneg_r; lia. }
  assert (H3 : (100 * X + d) * M <= f * Y * M).
  { apply Z.mul_le_mono_nonneg_r; lia. }
  assert (H4 : Cc * Y <= 2 ^ 54 * Y).
  { apply Z.mul_le_mono_nonneg_r; lia. }
  assert (H5 : d * 2 ^ 98 <= d * M).
  { apply Z.mul_le_mono_nonneg_l; lia. }
  replace (2 * (f * M) * Y) with (2 * (f * Y * M)) in H2 by ring.
  replace ((2 * (K * (100 * 2 ^ 46)) + Cc) * Y)
    with (2 * (K * Y) * (100 * 2 ^ 46) + Cc * Y) in H2 by ring.
  replace ((100 * X + d) * M) with (100 * X * M + d * M) in H3 by ring.
  remember (2 ^ 98) as p98. remember (2 ^ 46) as p46. remember (2 ^ 54) as p54.
  assert (p54 = 256 * p46) by (subst; reflexivity).
  lia.
Qed.

Lemma pct_core_lower (K K' X Y M W Cc f d : Z) :
  0 < Y -> 0 < W -> 0 < Cc -> 2 ^ 98 <= M -> M = W * Cc ->
  2 * (100 * X * M) <= 2 * (K * Y) * (100 * 2 ^ 46) + Y * (100 * 2 ^ 46) ->
  2 * (K * (100 * 2 ^ 46)) <= 2 * (K' * Cc) + Cc ->
  K' < (f + 1) * W ->
  (f + 1) * Y + d <= 100 * X ->
  (0 <= d) ->
  2 * d * 2 ^ 98 <= 100 * 2 ^ 46 * Y.
Proof.
  intros HY HW HCc HM HMW HA HB Hf He Hd.
  assert (H1 : (K' + 1) * Cc <= (f + 1) * M).
  { rewrite HMW, Z.mul_assoc. apply Z.mul_le_mono_nonneg_r; lia. }
  assert (H2 : (2 * (K * (100 * 2 ^ 46))) * Y <= (2 * ((f + 1) * M) - Cc) * Y).
  { apply Z.mul_le_mono_nonneg_r; lia. }
  assert (H3 : ((f + 1) * Y + d) * M <= 100 * X * M).
  { apply Z.mul_le_mono_nonneg_r; lia. }
  assert (H4 : 0 <= Cc * Y) by (apply Z.mul_nonneg_nonneg; lia).
  assert (H5 : d * 2 ^ 98 <= d * M).
  { apply Z.mul_le_mono_nonneg_l; lia. }
  replace ((2 * (K * (100 * 2 ^ 46))) * Y) with (2 * (K * Y) * (100 * 2 ^ 46)) in H2 by ring.
  replace ((2 * ((f + 1) * M) - Cc) * Y) with (2 * ((f + 1) * Y * M) - Cc * Y) in H2 by ring.
  replace (((f + 1) * Y + d) * M) with ((f + 1) * Y * M + d * M) in H3 by ring.
  remember (2 ^ 98) as p98. remember (2 ^ 46) as p46.
  lia.
Qed.

Lemma c100_value : Z.pos c100 = 100 * 2 ^ 46.
Proof. by vm_compute. Qed.

(** The float the hook truncates for [0 < x < y], against the exact
    [100 * x / y]. *)
Lemma pct_float_vs_exact (x y : positive) :
  Z.pos x < Z.pos y -> Z.pos y < 2 ^ 64 ->
  exists (k' : positive) (E' f : Z),
    pct_float (PyInt (Z.pos x)) (PyInt (Z.pos y)) = Ok (S754_finite false k' E')
    /\ float_floor (S754_finite false k' E') = Some f
    /\ 100 * Z.pos x / Z.pos y - 1 <= f <= 100 * Z.pos x / Z.pos y + 1
    /\ (Z.pos y <= 2 ^ 44 ->
        f <= 100 * Z.pos x / Z.pos y
        /\ (((100 * Z.pos x) mod Z.pos y) <> 0 -> f = 100 * Z.pos x / Z.pos y)).
Proof.
  intros Hxy Hy.
  destruct (truediv_near x y Hxy Hy) as (k & u & Hdiv & Hk & Hu & HA1 & HA2).
  destruct (mul100_near k (- u) Hk ltac:(lia)) as (k' & c & Hmul & Hc & HB1 & HB2).
  exists k', (- u - 46 + c), (Z.pos k' / 2 ^ (u + 46 - c)).
  split.
  { unfold pct_float, py_truediv. cbn [Z.eqb]. rewrite Hdiv.
    cbn [is_infinity mbind result_bind]. unfold py_mul_float. rewrite float_of_int_100.
    cbn [mbind result_bind]. by rewrite Hmul. }
  split.
  { unfold float_floor, signed_mantissa. cbn [cond_Zopp].
    assert ((0 <=? - u - 46 + c) = false) as -> by (apply Z.leb_gt; lia).
    do 3 f_equal. lia. }
  set (X := Z.pos x) in *. set (Y := Z.pos y) in *. set (K := Z.pos k) in *.
  set (K' := Z.pos k') in *.
  set (W := 2 ^ (u + 46 - c)). set (Cc := 2 ^ c) in *. set (M := 2 ^ (u + 46)).
  set (f := K' / W). set (e0 := 100 * X / Y).
  rewrite c100_value in HB1, HB2.
  assert (HW : 0 < W) by (apply pow2_pos; lia).
  assert (HCc : 0 < Cc <= 2 ^ 54).
  { split; [apply pow2_pos; lia | apply Z.pow_le_mono_r; lia]. }
  assert (HM : 2 ^ 98 <= M) by (apply Z.pow_le_mono_r; lia).
  assert (HMW : M = W * Cc).
  { unfold M, W, Cc. rewrite <- Z.pow_add_r by lia. f_equal. lia. }
  assert (HMu : M = 2 ^ u * 2 ^ 46) by (unfold M; rewrite Z.pow_add_r by lia; reflexivity).
  assert (Hf1 : f * W <= K').
  { pose proof (Z.mul_div_le K' W HW). fold f in H. lia. }
  assert (Hf2 : K' < (f + 1) * W).
  { pose proof (Z.mul_succ_div_gt K' W HW). fold f in H. lia. }
  assert (He1 : e0 * Y <= 100 * X).
  { pose proof (Z.mul_div_le (100 * X) Y ltac:(lia)). fold e0 in H. lia. }
  assert (He2 : 100 * X < (e0 + 1) * Y).
  { pose proof (Z.mul_succ_div_gt (100 * X) Y ltac:(lia)). fold e0 in H. lia. }
  assert (HA1' : 2 * (K * Y) * (100 * 2 ^ 46) <= 2 * (100 * X * M) + Y * (100 * 2 ^ 46)).
  { rewrite HMu.
    replace (2 * (100 * X * (2 ^ u * 2 ^ 46)) + Y * (100 * 2 ^ 46))
      with ((2 * (X * 2 ^ u) + Y) * (100 * 2 ^ 46)) by ring.
    apply Z.mul_le_mono_nonneg_r; [lia | exact HA1]. }
  assert (HA2' : 2 * (100 * X * M) <= 2 * (K * Y) * (100 * 2 ^ 46) + Y * (100 * 2 ^ 46)).
  { rewrite HMu.
    replace (2 * (K * Y) * (100 * 2 ^ 46) + Y * (100 * 2 ^ 46))
      with ((2 * (K * Y) + Y) * (100 * 2 ^ 46)) by ring.
    replace (2 * (100 * X * (2 ^ u * 2 ^ 46)))
      with ((2 * (X * 2 ^ u)) * (100 * 2 ^ 46)) by ring.
    apply Z.mul_le_mono_nonneg_r; [lia | exact HA2]. }
  assert (HY0 : 0 < Y) by lia.
  assert (Hupper : forall d, 0 <= d -> 100 * X + d <= f * Y ->
                     2 * d * 2 ^ 98 <= 356 * 2 ^ 46 * Y).
  { intros d Hd Hfd.
    apply (pct_core_upper K K' X Y M W Cc f d); first [done | apply HCc]. }
  assert (Hlower : forall d, 0 <= d -> (f + 1) * Y + d <= 100 * X ->
                     2 * d * 2 ^ 98 <= 100 * 2 ^ 46 * Y).
  { intros d Hd Hfd.
    apply (pct_core_lower K K' X Y M W Cc f d); first [done | apply HCc]. }
  split; [split |].
  - destruct (Z_le_gt_dec (e0 - 1) f) as [| Hlt]; [done |]. exfalso.
    assert (Hd : (f + 1) * Y + Y <= 100 * X).
    { assert ((f + 2) * Y <= e0 * Y) by (apply Z.mul_le_mono_nonneg_r; lia). lia. }
    pose proof (Hlower Y ltac:(lia) Hd) as Habs.
    remember (2 ^ 98) as p98. remember (2 ^ 46) as p46.
    assert (p98 = 2 ^ 52 * p46) by (subst; reflexivity).
    assert (0 < p46) by (subst; done).
    assert (100 * p46 * Y < 2 * Y * (2 ^ 52 * p46)); [| lia].
    replace (100 * p46 * Y) with (100 * (p46 * Y)) by ring.
    replace (2 * Y * (2 ^ 52 * p46)) with (2 * 2 ^ 52 * (p46 * Y)) by ring.
    apply Z.mul_lt_mono_pos_r; [by apply Z.mul_pos_pos | done].
  - destruct (Z_le_gt_dec f (e0 + 1)) as [| Hgt]; [done |]. exfalso.
    assert (Hd : 100 * X + (Y + 1) <= f * Y).
    { assert ((e0 + 2) * Y <= f * Y) by (apply Z.mul_le_mono_nonneg_r; lia). lia. }
    pose proof (Hupper (Y + 1) ltac:(lia) Hd) as Habs.
    remember (2 ^ 98) as p98. remember (2 ^ 46) as p46.
    assert (p98 = 2 ^ 52 * p46) by (subst; reflexivity).
    assert (0 < p46) by (subst; done).
    assert (356 * p46 * Y < 2 * (Y + 1) * (2 ^ 52 * p46)); [| lia].
    replace (356 * p46 * Y) with (356 * Y * p46) by ring.
    replace (2 * (Y + 1) * (2 ^ 52 * p46)) with (2 * (Y + 1) * 2 ^ 52 * p46) by ring.
    apply Z.mul_lt_mono_pos_r; [done | lia].
  - intros HY44. split.
    + destruct (Z_le_gt_dec f e0) as [| Hgt]; [done |]. exfalso.
      assert (Hd : 100 * X + 1 <= f * Y).
      { assert ((e0 + 1) * Y <= f * Y) by (apply Z.mul_le_mono_nonneg_r; lia). lia. }
      pose proof (Hupper 1 ltac:(lia) Hd) as Habs.
      assert (356 * 2 ^ 46 * Y <= 356 * 2 ^ 46 * 2 ^ 44) by lia.
      assert (356 * 2 ^ 46 * 2 ^ 44 < 2 * 1 * 2 ^ 98) by done. lia.
    + intros Hmod.
      assert (He3 : e0 * Y + 1 <= 100 * X).
      { pose proof (Z.div_mod (100 * X) Y ltac:(lia)) as Hdm.
        pose proof (Z.mod_pos_bound (100 * X) Y HY0). fold e0 in Hdm. lia. }
      destruct (Z_le_gt_dec f e0) as [Hle | Hgt].
      * destruct (Z_le_gt_dec e0 f) as [| Hlt]; [lia |]. exfalso.
        assert (Hd : (f + 1) * Y + 1 <= 100 * X).
        { assert ((f + 1) * Y <= e0 * Y) by (apply Z.mul_le_mono_nonneg_r; lia). lia. }
        pose proof (Hlower 1 ltac:(lia) Hd) as Habs.
        assert (100 * 2 ^ 46 * Y <= 100 * 2 ^ 46 * 2 ^ 44) by lia.
        assert (100 * 2 ^ 46 * 2 ^ 44 < 2 * 1 * 2 ^ 98) by done. lia.
      * exfalso.
        assert (Hd : 100 * X + 1 <= f * Y).
        { assert ((e0 + 1) * Y <= f * Y) by (apply Z.mul_le_mono_nonneg_r; lia). lia. }
        pose proof (Hupper 1 ltac:(lia) Hd) as Habs.
        assert (356 * 2 ^ 46 * Y <= 356 * 2 ^ 46 * 2 ^ 44) by lia.
        assert (356 * 2 ^ 46 * 2 ^ 44 < 2 * 1 * 2 ^ 98) by done. lia.
Qed.

(** The percentage the hook stores for int byte counts, against the claimed
    one: at most one away; never above it for totals up to [2 ^ 44], and
    equal to it there unless [100 * dl / T] is an integer. *)
Lemma pct_of_vs_claimed (dl T : Z) :
  0 <= dl < 2 ^ 64 -> 0 < T < 2 ^ 64 ->
  exists p,
    pct_of (PyInt dl) (PyInt T) = Ok p
    /\ claimed_pct dl T - 1 <= p <= claimed_pct dl T + 1
    /\ (T <= 2 ^ 44 ->
        p <= claimed_pct dl T
        /\ (((dl * 100) mod T) <> 0 -> p = claimed_pct dl T)).
Proof.
  intros Hdl HT. unfold claimed_pct.
  destruct (Z_le_gt_dec T dl) as [Hge | Hlt].
  - exists 100. rewrite pct_complete by lia.
    assert (100 <= dl * 100 / T) by (apply Z.div_le_lower_bound; lia).
    unfold clamp. remember (dl * 100 / T) as q. clear Heqq.
    split; [done |]. split; [lia |]. intros _. split; lia.
  - destruct T as [| y |]; try lia. destruct dl as [| x |]; try lia.
    + exists 0. rewrite pct_none. change (0 * 100) with 0.
      rewrite Zdiv_0_l, Zmod_0_l. change (clamp 0 100 0) with 0.
      split; [done |]. split; [lia |]. intros _. split; [lia | done].
    + destruct (pct_float_vs_exact x y ltac:(lia) ltac:(lia))
        as (k' & E' & f & Hpf & Hfl & Hb & Ht).
      exists (clamp 0 100 f). split.
      { unfold pct_of. rewrite Hpf. cbn [mbind result_bind]. by apply int_min_max_floor. }
      replace (Z.pos x * 100) with (100 * Z.pos x) by lia.
      assert (He : 0 <= 100 * Z.pos x / Z.pos y < 100).
      { split; [apply Z.div_pos; lia | apply Z.div_lt_upper_bound; lia]. }
      unfold clamp. split; [lia |]. intros HT44. destruct (Ht HT44) as [Hle Heq].
      split; [lia |]. intros Hmod. rewrite (Heq Hmod). lia.
Qed.

Example claimed_29_of_100 : claimed_pct 29 100 = 29.
Proof. reflexivity. Qed.

(** C4. A progress event for an unknown task id changes nothing; for a known
    task, an event whose status is not "downloading" changes nothing, and a
    "downloading" event without a nonzero total changes nothing either, so
    the recorded percentage is kept. A "downloading" event with a nonzero
    total stores clamp(0, 100, floor(x)) as the progress, [x] being
    (downloaded / total) * 100 in binary64, and changes nothing else. For int
    byte counts below 2^64 that value is at most one away from the exact
    clamp(0, 100, floor(downloaded / total * 100)); for totals up to 2^44 it
    is never above it, and equal to it unless 100 * downloaded is a multiple
    of the total. *)
Theorem update_progress_spec (tasks : gmap string task) (task_id : string) (d : event) :
  (tasks !! task_id = None -> _update_progress tasks task_id d = Ok tasks)
  /\ (forall t, tasks !! task_id = Some t ->
       (ev_is_downloading d = false -> _update_progress tasks task_id d = Ok tasks)
       /\ (ev_is_downloading d = true -> num_truthy (ev_total d) = false ->
             _update_progress tasks task_id d = Ok tasks)
       /\ (ev_is_downloading d = true -> num_truthy (ev_total d) = true ->
             forall x pct,
               pct_float (ev_downloaded d) (ev_total d) = Ok x ->
               spec_pct x = Some pct ->
               exists tasks' t',
                 _update_progress tasks task_id d = Ok tasks'
                 /\ tasks' !! task_id = Some t'
                 /\ progress t' = pct
                 /\ same_but_progress t t'
                 /\ forall other, other <> task_id -> tasks' !! other = tasks !! other)
       /\ (ev_is_downloading d = true ->
             forall dl T,
               ev_downloaded d = PyInt dl -> ev_total d = PyInt T ->
               0 <= dl < 2 ^ 64 -> 0 < T < 2 ^ 64 ->
               exists tasks' t',
                 _update_progress tasks task_id d = Ok tasks'
                 /\ tasks' !! task_id = Some t'
                 /\ same_but_progress t t'
                 /\ (forall other, other <> task_id -> tasks' !! other = tasks !! other)
                 /\ claimed_pct dl T - 1 <= progress t' <= claimed_pct dl T + 1
                 /\ (T <= 2 ^ 44 ->
                     progress t' <= claimed_pct dl T
                     /\ (((dl * 100) mod T) <> 0 -> progress t' = claimed_pct dl T)))).
Proof.
  split; [apply update_progress_missing |].
  intros t Hl. split; [apply update_progress_other_status |]. split; [| split].
  - intros Hd Ht. by apply update_progress_no_total.
  - intros Hd Ht x pct Hx Hp.
    apply (update_progress_stores tasks task_id d t pct Hl Hd Ht).
    unfold pct_of. rewrite Hx. cbn [mbind result_bind].
    unfold spec_pct in Hp. destruct (float_floor x) as [n |] eqn:Hfl; [| discriminate].
    injection Hp as <-. by apply int_min_max_floor.
  - intros Hd dl T Hdl HT Hrange HTrange.
    destruct (pct_of_vs_claimed dl T Hrange HTrange) as (p & Hp & Hnear & Hsmall).
    assert (Htr : num_truthy (ev_total d) = true).
    { rewrite HT. cbn. apply negb_true_iff, Z.eqb_neq. lia. }
    destruct (update_progress_stores tasks task_id d t p Hl Hd Htr)
      as (tasks' & t' & Hup & Hl' & Hpr & Hsame & Hothers); [by rewrite Hdl, HT |].
    exists tasks', t'. rewrite Hpr. by repeat (split; [done |]).
Qed.

(** C4 as stated fails: 29 bytes of 100 store 28, since 29 / 100 * 100 is
    28.999999999999996 in binary64, where the exact formula gives 29. *)
Lemma progress_not_claimed : ~ progress_set_to_claimed.
Proof.
  intros H.
  specialize (H {["id-1" := set_status downloading (new_task (JStr "u") (S754_zero false))]}
                {["id-1" := set_progress 28
                    (set_status downloading (new_task (JStr "u") (S754_zero false)))]}
                "id-1"
                (set_status downloading (new_task (JStr "u") (S754_zero false)))
                (set_progress 28
                   (set_status downloading (new_task (JStr "u") (S754_zero false))))
                (estimate_event 29 100) 29 100).
  assert (Habs : 28 = claimed_pct 29 100); [| by vm_compute in Habs].
  apply H; first [done | lia | vm_compute; reflexivity].
Qed.

Lemma update_progress_spec_witness :
  (exists tasks' t',
      _update_progress {["id-1" := new_task (JStr "u") (S754_zero false)]} "id-1"
        (estimate_event 1 3) = Ok tasks'
      /\ tasks' !! "id-1" = Some t' /\ progress t' = 33)
  /\ _update_progress {["id-1" := new_task (JStr "u") (S754_zero false)]} "id-2"
       (estimate_event 1 3)
     = Ok {["id-1" := new_task (JStr "u") (S754_zero false)]}
  /\ _update_progress {["id-1" := new_task (JStr "u") (S754_zero false)]} "id-1"
       (mkEvent (Some "finished") (Some (PyInt 3)) (Some (PyInt 3)) None)
     = Ok {["id-1" := new_task (JStr "u") (S754_zero false)]}
  /\ _update_progress {["id-1" := new_task (JStr "u") (S754_zero false)]} "id-1"
       (mkEvent (Some "downloading") (Some (PyInt 3)) None None)
     = Ok {["id-1" := new_task (JStr "u") (S754_zero false)]}
  /\ (exists tasks' t',
        _update_progress {["id-1" := new_task (JStr "u") (S754_zero false)]} "id-1"
          (estimate_event 29 100) = Ok tasks'
        /\ tasks' !! "id-1" = Some t' /\ 28 <= progress t' <= 29).
Proof.
  assert (Hl : ({["id-1" := new_task (JStr "u") (S754_zero false)]} : gmap string task)
               !! "id-1" = Some (new_task (JStr "u") (S754_zero false))).
  { vm_compute. reflexivity. }
  assert (Hr : forall z, 0 < z <= 100 -> 0 <= z < 2 ^ 64 /\ 0 < z < 2 ^ 64).
  { intros z Hz. assert (z < 2 ^ 64) by (apply Z.le_lt_trans with 100; [lia | by vm_compute]).
    lia. }
  assert (H1 : 0 < 1 <= 100) by lia. assert (H3 : 0 < 3 <= 100) by lia.
  assert (H29 : 0 < 29 <= 100) by lia. assert (H100 : 0 < 100 <= 100) by lia.
  split; [| split; [| split; [| split]]].
  - destruct (proj2 (update_progress_spec _ "id-1" (estimate_event 1 3)) _ Hl)
      as (_ & _ & _ & Hint).
    destruct (Hint eq_refl 1 3 eq_refl eq_refl (proj1 (Hr 1 H1)) (proj2 (Hr 3 H3)))
      as (tasks' & t' & Hup & Hl' & _ & _ & _ & Hsmall).
    exists tasks', t'. split; [exact Hup |]. split; [exact Hl' |].
    apply (proj2 (Hsmall ltac:(by vm_compute))). by vm_compute.
  - apply (proj1 (update_progress_spec {["id-1" := new_task (JStr "u") (S754_zero false)]}
                    "id-2" (estimate_event 1 3))).
    vm_compute. reflexivity.
  - destruct (proj2 (update_progress_spec _ "id-1"
                       (mkEvent (Some "finished") (Some (PyInt 3)) (Some (PyInt 3)) None))
                _ Hl) as (Hother & _).
    apply Hother. reflexivity.
  - destruct (proj2 (update_progress_spec _ "id-1"
                       (mkEvent (Some "downloading") (Some (PyInt 3)) None None))
                _ Hl) as (_ & Hkeep & _).
    apply Hkeep; reflexivity.
  - destruct (proj2 (update_progress_spec _ "id-1" (estimate_event 29 100)) _ Hl)
      as (_ & _ & _ & Hint).
    destruct (Hint eq_refl 29 100 eq_refl eq_refl (proj1 (Hr 29 H29)) (proj2 (Hr 100 H100)))
      as (tasks' & t' & Hup & Hl' & _ & _ & Hnear & Hsmall).
    exists tasks', t'. split; [exact Hup |]. split; [exact Hl' |].
    change (claimed_pct 29 100) with 29 in Hnear, Hsmall.
    split; [lia |]. apply (Hsmall ltac:(by vm_compute)).
Defined.
